(** * MimirCodeUI: the chunking and aggregation pipeline

    A shallow embedding of the parts of [code_documentation.py],
    [deep_code_documentation.py] and [code_analyzer.py] that decide how a
    file is cut into chunks, how the model is called, how the per-file
    document is assembled and how the table of contents is produced.

    Python values are modelled as follows.
    - [str] is a list of Unicode code points ([N]); literals of the source
      are written [lit "..."], a newline is [NL], a double quote is [DQ].
    - [int] is [Z]; [len] returns a [Z].
    - [list.append] on a local list is [l ++ [x]].
    - The body of a [try] returns an [outcome]: a value, or the exception
      it raised.
    - Everything that posts a request, writes a file or may stop the run is
      a computation in [M]: from the state of the run to a value or a
      [stop] ([sys.exit] or an exception nobody catches) and the new state.
    - What is printed to the log is left out. *)

From Stdlib Require Import String Ascii DecimalString.
From Stdlib Require Import ZArith NArith Lia Bool List Permutation Sorted FunInd.
Import ListNotations.

Set Implicit Arguments.

Local Open Scope Z_scope.

(** ** Python strings *)

Module PyStr.

Definition char : Type := N.
Definition str : Type := list char.

(** A literal of the source text, as code points. *)
Definition lit (s : string) : str := map N_of_ascii (list_ascii_of_string s).

(** [len(s)], of a string or of a list *)
Definition len {A : Type} (s : list A) : Z := Z.of_nat (length s).

(** ["".join(parts)] *)
Definition join (parts : list str) : str := concat parts.

(** [bool(s)] for a string or a list: true when it is not empty. *)
Definition truthy {A : Type} (l : list A) : bool :=
  match l with
  | [] => false
  | _ :: _ => true
  end.

(** The line boundaries of [str.splitlines]: LF, CR, VT, FF, FS, GS, RS,
    NEL, LINE SEPARATOR and PARAGRAPH SEPARATOR (CR LF counts as one). *)
Definition is_linebreak (c : char) : bool :=
  ((c =? 10) || (c =? 13) || (c =? 11) || (c =? 12) || (c =? 28) || (c =? 29)
   || (c =? 30) || (c =? 133) || (c =? 8232) || (c =? 8233))%N.

(** [s.splitlines(keepends=True)], scanning from the left.  [cur] is the
    part of the current line read so far.  A line ends after a line
    boundary; a CR directly followed by LF ends the line after the LF.  What
    remains after the last boundary is a line of its own when it is not
    empty. *)
Function splitlines_from (cur : str) (s : str) {struct s} : list str :=
  match s with
  | [] => if truthy cur then [cur] else []
  | c :: rest =>
      if is_linebreak c then
        if (c =? 13)%N then
          match rest with
          | c' :: rest' =>
              if (c' =? 10)%N
              then (cur ++ [c; c']) :: splitlines_from [] rest'
              else (cur ++ [c]) :: splitlines_from [] rest
          | [] => (cur ++ [c]) :: splitlines_from [] rest
          end
        else (cur ++ [c]) :: splitlines_from [] rest
      else splitlines_from (cur ++ [c]) rest
  end.

Definition splitlines_keepends (s : str) : list str := splitlines_from [] s.

(** *** Case mappings

    [str.lower] and [str.upper] map every code point through the Unicode
    case tables.  The tables below are those of Python for U+0000..U+00FF
    and for the code points that these reach or that map into ASCII
    (U+0130, U+0131, U+0178, U+017F, U+039C, U+03BC, U+212A); a code point
    outside this range is left as it is.  The scripts are modelled with
    these tables where the text is an extension looked up in
    [SUPPORTED_EXTENSIONS] (the keys of that mapping are ASCII, and
    outside ASCII only U+0130 and U+212A, both in the table, lower to
    something with an ASCII character) or one of its language tags; the sort keys
    of the listings, which are arbitrary paths, are lower-cased by
    [str_lower] of the environment instead. *)
Definition lower_char (c : char) : str :=
  (if (65 <=? c) && (c <=? 90) then [c + 32]
   else if ((192 <=? c) && (c <=? 214)) || ((216 <=? c) && (c <=? 222))
        then [c + 32]
   else if c =? 304 then [105; 775]
   else if c =? 376 then [255]
   else if c =? 924 then [956]
   else if c =? 8490 then [107]
   else [c])%N.

Definition upper_char (c : char) : str :=
  (if (97 <=? c) && (c <=? 122) then [c - 32]
   else if c =? 181 then [924]
   else if c =? 223 then [83; 83]
   else if ((224 <=? c) && (c <=? 246)) || ((248 <=? c) && (c <=? 254))
        then [c - 32]
   else if c =? 255 then [376]
   else if c =? 305 then [73]
   else if c =? 383 then [83]
   else if c =? 956 then [924]
   else [c])%N.

Definition lower (s : str) : str := flat_map lower_char s.
Definition upper (s : str) : str := flat_map upper_char s.

(** [s.capitalize()]: first character upper-cased, the rest lower-cased. *)
Definition capitalize (s : str) : str :=
  match s with
  | [] => []
  | c :: rest => upper_char c ++ lower rest
  end.

Definition is_ascii (c : char) : bool := (c <? 128)%N.

(** *** Whitespace and [strip] *)
Definition isspace (c : char) : bool :=
  (((9 <=? c) && (c <=? 13)) || ((28 <=? c) && (c <=? 32)) || (c =? 133)
   || (c =? 160) || (c =? 5760) || ((8192 <=? c) && (c <=? 8202))
   || (c =? 8232) || (c =? 8233) || (c =? 8239) || (c =? 8287)
   || (c =? 12288))%N.

Fixpoint lstrip (s : str) : str :=
  match s with
  | [] => []
  | c :: rest => if isspace c then lstrip rest else s
  end.

Definition strip (s : str) : str := rev (lstrip (rev (lstrip s))).

(** *** Comparison: strings compare by code points, lexicographically *)
Fixpoint str_ltb (a b : str) : bool :=
  match a, b with
  | _, [] => false
  | [], _ :: _ => true
  | x :: a', y :: b' => (x <? y)%N || ((x =? y)%N && str_ltb a' b')
  end.

Definition str_leb (a b : str) : bool := negb (str_ltb b a).

Fixpoint str_eqb (a b : str) : bool :=
  match a, b with
  | [], [] => true
  | x :: a', y :: b' => (x =? y)%N && str_eqb a' b'
  | _, _ => false
  end.

(** [s.startswith(p)] *)
Fixpoint startswith (s p : str) {struct p} : bool :=
  match p, s with
  | [], _ => true
  | _ :: _, [] => false
  | y :: p', x :: s' => (x =? y)%N && startswith s' p'
  end.

(** [p in s]: [p] occurs in [s]. *)
Fixpoint contains (s p : str) : bool :=
  startswith s p ||
  match s with
  | [] => false
  | _ :: s' => contains s' p
  end.

(** [sep.join(parts)] *)
Fixpoint join_with (sep : str) (parts : list str) : str :=
  match parts with
  | [] => []
  | [x] => x
  | x :: rest => x ++ sep ++ join_with sep rest
  end.

(** [str(n)] for a non-negative integer. *)
Definition str_of_nat (n : nat) : str :=
  lit (NilEmpty.string_of_uint (Nat.to_uint n)).

(** *** Dictionaries with string keys, [d.get(k, default)] and [k in d] *)
Definition dict : Type := list (str * str).

Fixpoint dict_lookup (d : dict) (k : str) : option str :=
  match d with
  | [] => None
  | (k', v) :: d' => if str_eqb k' k then Some v else dict_lookup d' k
  end.

Definition dict_get (d : dict) (k : str) (default : str) : str :=
  match dict_lookup d k with
  | Some v => v
  | None => default
  end.

Definition dict_mem (d : dict) (k : str) : bool :=
  match dict_lookup d k with
  | Some _ => true
  | None => false
  end.

(** [d[k] = v]: a key that is present keeps its place and takes the new
    value; a new key goes to the end. *)
Fixpoint dict_set (d : dict) (k v : str) : dict :=
  match d with
  | [] => [(k, v)]
  | (k', v') :: d' =>
      if str_eqb k' k then (k', v) :: d' else (k', v') :: dict_set d' k v
  end.

(** *** [list.sort(key=...)]

    The sort is stable: elements with equal keys keep their order.  It is
    modelled by insertion from the right, where an element is put in front
    of the first one whose key is not smaller than its own. *)
Section Sort.
Variable A : Type.
Variable key : A -> str.

Fixpoint sort_insert (x : A) (l : list A) : list A :=
  match l with
  | [] => [x]
  | y :: l' =>
      if str_ltb (key y) (key x) then y :: sort_insert x l' else x :: l
  end.

Definition sort_by_key (l : list A) : list A := fold_right sort_insert [] l.
End Sort.

(** The newline and the double quote, which literals cannot hold. *)
Definition NL : str := [10%N].
Definition DQ : str := [34%N].

(** A block of text given line by line, every line ended by a newline. *)
Definition text_lines (ls : list str) : str :=
  flat_map (fun l => l ++ NL) ls.

End PyStr.

Import PyStr.

(** ** The world the scripts run in

    The scripts talk to an HTTP endpoint and to the file system.  Both are
    given by an [env]: what they answer may depend on everything the run
    has done so far (the [state]), so that no two calls need to agree. *)

Module World.

(** [config.json] *)
Record config : Type := mk_config {
  OUTPUT_DIR : str;
  OLLAMA_API_URL : str;
  OLLAMA_MODEL : str;
  CHUNK_SIZE_CHARACTERS : Z;
  EXCLUDE_DIRS : list str
}.

(** The exceptions the [try] blocks tell apart, each with its [str(e)]:
    the two classes of [requests.exceptions] that have a handler of their
    own, and every other subclass of [Exception]. *)
Inductive exn : Type :=
| ConnectionError (msg : str)
| HTTPError (msg : str)
| OtherException (msg : str).

Inductive outcome (A : Type) : Type :=
| Return (a : A)
| Raise (e : exn).
Arguments Return {A} a.
Arguments Raise {A} e.

(** The payload posted to the endpoint.  The temperature is kept in
    tenths (0.2 is 2). *)
Record request : Type := mk_request {
  req_url : str;
  req_model : str;
  req_prompt : str;
  req_stream : bool;
  req_temperature : Z;
  req_num_predict : Z
}.

(** What is read off a reply.  [status_error] is the message of the
    [HTTPError] that [raise_for_status()] raises, when the status of the
    reply makes it raise one (an error status, 4xx or 5xx).
    [json_response] is what [response.json()['response']] evaluates to: a
    string, or an exception (the body is not JSON, the key is missing, the
    value has no [strip]). *)
Record response : Type := mk_response {
  text : str;
  status_error : option str;
  json_response : str + str
}.

(** [requests.post] raises [ConnectionError], raises something else, or
    returns a reply. *)
Inductive post_result : Type :=
| PostConnectionError (msg : str)
| PostOtherException (msg : str)
| PostReturns (r : response).

(** What the run has done so far: the requests posted and the files
    written, oldest first. *)
Record state : Type := mk_state {
  sent : list request;
  written : list (str * str)
}.

Definition state_init : state := mk_state [] [].

Inductive encoding : Type := utf_8 | latin_1.

(** [open(path, 'r', encoding=...).read()] *)
Inductive read_result : Type :=
| ReadOk (content : str)
| ReadUnicodeDecodeError
| ReadOtherException (msg : str).

(** [os.path] is taken from the environment, and so is [str.lower] where
    it is applied to arbitrary paths (the sort keys of the listings): what
    it does beyond the table of [PyStr.lower] depends on the Unicode tables
    of the interpreter and, for the final sigma, on the context. *)
Record env : Type := mk_env {
  (* the endpoint *)
  endpoint : state -> request -> post_result;
  (* the source tree *)
  os_path_isdir : str -> bool;
  os_walk : str -> list (str * list str);
  open_read : encoding -> str -> read_result;
  (* the output tree: does [os.makedirs] succeed, does the write succeed *)
  makedirs_ok : state -> str -> bool;
  write_ok : state -> str -> str -> bool;
  (* os.path *)
  os_path_join : str -> str -> str;
  os_path_relpath : str -> str -> str;
  os_path_basename : str -> str;
  os_path_dirname : str -> str;
  os_path_splitext : str -> str * str;
  (* [str.lower] of the interpreter, over the whole of Unicode *)
  str_lower : str -> str
}.

(** How a run stops before its end: [sys.exit(code)] or an exception
    that nothing catches. *)
Inductive stop : Type :=
| SysExit (code : Z)
| Uncaught (what : str).

(** Computations: a state in, a value or a stop out, and the state after. *)
Definition M (A : Type) : Type := state -> (A + stop) * state.

Definition ret {A : Type} (a : A) : M A := fun st => (inl a, st).

Definition bind {A B : Type} (m : M A) (k : A -> M B) : M B :=
  fun st =>
    match m st with
    | (inl a, st') => k a st'
    | (inr e, st') => (inr e, st')
    end.

Definition sys_exit {A : Type} (code : Z) : M A :=
  fun st => (inr (SysExit code), st).

Definition lift {A : Type} (x : A + stop) : M A := fun st => (x, st).

Section Effects.
Variable E : env.

(** [requests.post(url, headers=..., data=json.dumps(payload))] *)
Definition requests_post (req : request) : M post_result :=
  fun st => (inl (endpoint E st req), mk_state (sent st ++ [req]) (written st)).

(** [os.makedirs(path, exist_ok=True)], outside any [try] *)
Definition os_makedirs (path : str) : M unit :=
  fun st =>
    if makedirs_ok E st path then (inl tt, st)
    else (inr (Uncaught (lit "OSError")), st).

(** [with open(path, 'w') as f: f.write(content)] inside [try]: true when
    the file was written. *)
Definition write_file (path content : str) : M bool :=
  fun st =>
    if write_ok E st path content
    then (inl true, mk_state (sent st) (written st ++ [(path, content)]))
    else (inl false, st).
End Effects.

End World.

Import World.

Declare Scope monad_scope.
Notation "x <- m ;; k" := (bind m (fun x => k))
  (at level 61, m at next level, right associativity) : monad_scope.
Local Open Scope monad_scope.

(** ** [code_documentation.py] *)

Module code_documentation.

(** The three local variables of [chunk_content]. *)
Record chunker : Type := mk_chunker {
  chunks : list str;
  current_chunk_lines : list str;
  current_length : Z
}.

Definition chunker_init : chunker := mk_chunker [] [] 0.

(** One iteration of [for line in lines]. *)
Definition chunk_step (chunk_size : Z) (st : chunker) (line : str) : chunker :=
  if (current_length st + len line >? chunk_size) && truthy (current_chunk_lines st)
  then mk_chunker (chunks st ++ [join (current_chunk_lines st)])
                  [line]
                  (len line)
  else mk_chunker (chunks st)
                  (current_chunk_lines st ++ [line])
                  (current_length st + len line).

(** What is returned after the loop. *)
Definition chunk_finish (st : chunker) : list str :=
  if truthy (current_chunk_lines st)
  then chunks st ++ [join (current_chunk_lines st)]
  else chunks st.

Definition chunk_content (content : str) (chunk_size : Z) : list str :=
  if negb (truthy content) then []
  else chunk_finish
         (fold_left (chunk_step chunk_size) (splitlines_keepends content)
                    chunker_init).

Definition SUPPORTED_EXTENSIONS : dict :=
  [ (lit ".cs", lit "csharp");
    (lit ".ts", lit "typescript");
    (lit ".java", lit "java");
    (lit ".py", lit "python");
    (lit ".js", lit "javascript");
    (lit ".json", lit "json");
    (lit ".config", lit "config");
    (lit ".xml", lit "xml");
    (lit ".yaml", lit "yaml");
    (lit ".yml", lit "yaml");
    (lit ".env", lit "environment configuration");
    (lit ".txt", lit "text");
    (lit ".sql", lit "sql");
    (lit ".go", lit "golang");
    (lit ".php", lit "php") ].

Definition get_file_type (extension : str) : str :=
  dict_get SUPPORTED_EXTENSIONS (lower extension) (lit "unknown").

Section Pipeline.
Variable E : env.
Variable CONFIG : config.

Definition scan_directory (root_dir : str) : list str :=
  flat_map
    (fun entry : str * list str =>
       let (dirpath, filenames) := entry in
       flat_map
         (fun filename =>
            let (_, ext) := os_path_splitext E filename in
            if dict_mem SUPPORTED_EXTENSIONS (lower ext)
            then [os_path_join E dirpath filename]
            else [])
         filenames)
    (os_walk E root_dir).

Definition read_file_content (file_path : str) : option str :=
  match open_read E utf_8 file_path with
  | ReadOk content => Some content
  | ReadUnicodeDecodeError =>
      match open_read E latin_1 file_path with
      | ReadOk content => Some content
      | _ => None
      end
  | ReadOtherException _ => None
  end.

(** The prompt of [document_with_ollama]. *)
Definition document_prompt (chunk_text file_name file_type part_info : str)
  : str :=
  text_lines [
    lit "You are an expert software engineer and technical writer.";
    lit "Your task is to analyze the following " ++ file_type ++ lit " code or configuration snippet from the file '" ++ file_name ++ lit "'.";
    part_info ++ lit " # This will be like " ++ DQ ++ lit "(Part 1 of 3)" ++ DQ ++ lit " or empty for single chunks.";
    [];
    lit "Provide a detailed, human-readable explanation of what this code/config snippet does, its purpose, and its inner workings.";
    lit "Focus on clarity and conciseness, making it easy for non-experts to understand.";
    [];
    lit "**Key Requirements:**";
    lit "1.  **For Code:** Identify any classes, functions, methods, or significant variables/enums within this snippet.";
    lit "    **Bold their names** using Markdown (e.g., **ClassName**, **function_name()**, **CONSTANT_NAME**).";
    lit "    Explain their roles and how they contribute to the overall functionality.";
    lit "2.  **For Configuration Files:** Explain the structure, purpose of different sections/keys, and what values they typically hold.";
    lit "3.  **Overall Context:** If this is part of a larger file, try to infer its context or contribution to the whole.";
    [];
    lit "Code/Configuration snippet:";
    chunk_text;
    lit "Documentation:"
  ].

Definition document_request (prompt : str) : request :=
  mk_request (OLLAMA_API_URL CONFIG) (OLLAMA_MODEL CONFIG) prompt false 2 1024.

(** The body of the [try]: [requests.post], [raise_for_status()], then
    [response.json()['response'].strip()].  Next to what the body returns
    or raises stands the local [response], bound once the post returned. *)
Definition try_response (r : post_result) : option response * outcome str :=
  match r with
  | PostConnectionError msg => (None, Raise (ConnectionError msg))
  | PostOtherException msg => (None, Raise (OtherException msg))
  | PostReturns resp =>
      (Some resp,
       match status_error resp with
       | Some err => Raise (HTTPError err)
       | None =>
           match json_response resp with
           | inl result => Return (strip result)
           | inr msg => Raise (OtherException msg)
           end
       end)
  end.

(** The three [except] clauses.  The second reads [response.text]; were
    [response] not bound there, the handler itself would raise.  What the
    handlers print before they return is left out here and is found in
    [logged]. *)
Definition document_result (r : post_result) : str + stop :=
  match try_response r with
  | (_, Return result) => inl result
  | (_, Raise (ConnectionError _)) =>
      inl (lit "**Error: Could not connect to Ollama.** Please ensure it's running at "
           ++ OLLAMA_API_URL CONFIG ++ lit " and the model '"
           ++ OLLAMA_MODEL CONFIG ++ lit "' is downloaded.")
  | (Some response, Raise (HTTPError _)) =>
      inl (lit "**Error from Ollama API:** " ++ text response
           ++ lit ". Check Ollama logs for details.")
  | (None, Raise (HTTPError _)) => inr (Uncaught (lit "UnboundLocalError"))
  | (_, Raise (OtherException e)) =>
      inl (lit "**Error:** An unexpected error occurred while communicating with Ollama: "
           ++ e)
  end.

Definition document_with_ollama
           (chunk_text file_name file_type part_info : str) : M str :=
  let prompt := document_prompt chunk_text file_name file_type part_info in
  r <- requests_post E (document_request prompt) ;;
  lift (document_result r).

Definition save_markdown (output_path markdown_content : str) : M bool :=
  _ <- os_makedirs E (os_path_dirname E output_path) ;;
  write_file E output_path markdown_content.

Definition toc_heading : str :=
  lit "# Project Documentation - Table of Contents" ++ NL ++ NL
  ++ lit "This file lists all documentation for project files." ++ NL ++ NL
  ++ lit "---" ++ NL ++ NL.

(** One line of the listing. *)
Definition toc_entry (output_dir : str) (entry : str * str) : str :=
  let (original_relative_path, md_full_path) := entry in
  let md_relative_to_toc := os_path_relpath E md_full_path output_dir in
  lit "* [`" ++ original_relative_path ++ lit "`](" ++ md_relative_to_toc
  ++ lit ")" ++ NL.

Definition toc_sort (documented_files_info : list (str * str))
  : list (str * str) :=
  sort_by_key (fun x => str_lower E (fst x)) documented_files_info.

Definition toc_text (documented_files_info : list (str * str))
           (output_dir : str) : str :=
  if negb (truthy documented_files_info)
  then toc_heading ++ lit "No supported files were documented." ++ NL
  else fold_left (fun toc_content entry => toc_content ++ toc_entry output_dir entry)
                 (toc_sort documented_files_info) toc_heading.

Definition generate_table_of_contents
           (documented_files_info : list (str * str)) (output_dir : str)
  : M unit :=
  let toc_file_path := os_path_join E output_dir (lit "TABLE_OF_CONTENTS.md") in
  _ <- save_markdown toc_file_path (toc_text documented_files_info output_dir) ;;
  ret tt.

(** The head of a per-file document. *)
Definition doc_heading (relative_path_of_code_file file_type : str) : str :=
  lit "# Documentation for `" ++ relative_path_of_code_file ++ lit "`" ++ NL ++ NL
  ++ lit "**Original File Type:** " ++ capitalize file_type ++ NL ++ NL
  ++ lit "--- " ++ NL ++ NL.

Definition part_info_of (i n : nat) : str :=
  lit "(Part " ++ str_of_nat (i + 1) ++ lit " of " ++ str_of_nat n ++ lit ")".

Definition part_section (i : nat) (chunk_doc : str) : str :=
  lit "## Part " ++ str_of_nat (i + 1) ++ NL ++ NL ++ chunk_doc ++ NL ++ NL
  ++ lit "---" ++ NL ++ NL.

(** [for i, chunk in enumerate(chunks)], from index [i] on; [n] is
    [len(chunks)] of the whole list. *)
Fixpoint document_chunks (base_name file_type : str) (n i : nat)
         (rest : list str) (full_markdown_doc : str) : M str :=
  match rest with
  | [] => ret full_markdown_doc
  | chunk :: rest' =>
      chunk_doc <- document_with_ollama chunk base_name file_type
                                       (part_info_of i n) ;;
      document_chunks base_name file_type n (S i) rest'
                      (full_markdown_doc ++ part_section i chunk_doc)
  end.

(** The document of one file, from its content. *)
Definition document_content
           (content relative_path_of_code_file base_name file_type : str)
  : M str :=
  let chunks := chunk_content content (CHUNK_SIZE_CHARACTERS CONFIG) in
  let full_markdown_doc := doc_heading relative_path_of_code_file file_type in
  if 1 <? len chunks
  then document_chunks base_name file_type (length chunks) 0 chunks
                       full_markdown_doc
  else
    single_doc <- document_with_ollama content base_name file_type [] ;;
    ret (full_markdown_doc ++ single_doc).

Definition output_path_of (file_path : str) (SOURCE_CODE_DIR DOC_OUTPUT_DIR : str)
  : str :=
  let relative_path_of_code_file := os_path_relpath E file_path SOURCE_CODE_DIR in
  let base_name := os_path_basename E file_path in
  let (file_name_without_ext, _) := os_path_splitext E base_name in
  let output_sub_dir :=
    os_path_join E DOC_OUTPUT_DIR (os_path_dirname E relative_path_of_code_file) in
  let output_file_name := file_name_without_ext ++ lit "_doc.md" in
  os_path_join E output_sub_dir output_file_name.

(** One iteration of [for file_path in file_paths]. *)
Definition document_file (SOURCE_CODE_DIR DOC_OUTPUT_DIR : str)
           (documented_files_info : list (str * str)) (file_path : str)
  : M (list (str * str)) :=
  let relative_path_of_code_file := os_path_relpath E file_path SOURCE_CODE_DIR in
  let base_name := os_path_basename E file_path in
  let (_, ext) := os_path_splitext E base_name in
  let file_type := get_file_type ext in
  let output_full_path_of_markdown_doc :=
    output_path_of file_path SOURCE_CODE_DIR DOC_OUTPUT_DIR in
  match read_file_content file_path with
  | None => ret documented_files_info
  | Some content =>
      full_markdown_doc <-
        document_content content relative_path_of_code_file base_name file_type ;;
      saved <- save_markdown output_full_path_of_markdown_doc full_markdown_doc ;;
      ret (if saved : bool
           then documented_files_info
                ++ [(relative_path_of_code_file, output_full_path_of_markdown_doc)]
           else documented_files_info)
  end.

Fixpoint document_files (SOURCE_CODE_DIR DOC_OUTPUT_DIR : str)
         (file_paths : list str) (documented_files_info : list (str * str))
  : M (list (str * str)) :=
  match file_paths with
  | [] => ret documented_files_info
  | file_path :: rest =>
      info <- document_file SOURCE_CODE_DIR DOC_OUTPUT_DIR
                            documented_files_info file_path ;;
      document_files SOURCE_CODE_DIR DOC_OUTPUT_DIR rest info
  end.

Definition main_documentation (source_code_path doc_output_path : str) : M unit :=
  if negb (os_path_isdir E source_code_path) then sys_exit 1
  else
    _ <- os_makedirs E doc_output_path ;;
    let file_paths := scan_directory source_code_path in
    if negb (truthy file_paths) then sys_exit 0
    else
      documented_files_info <-
        document_files source_code_path doc_output_path file_paths [] ;;
      generate_table_of_contents documented_files_info doc_output_path.

End Pipeline.

End code_documentation.

(** ** [deep_code_documentation.py]

    [SUPPORTED_EXTENSIONS], [get_file_type], [scan_directory],
    [read_file_content], [save_markdown] and [generate_table_of_contents]
    have the same text in this file as in [code_documentation.py]; they
    are taken from there. *)

Module deep_code_documentation.

Section Pipeline.
Variable E : env.
Variable CONFIG : config.

Definition get_file_type := code_documentation.get_file_type.
Definition scan_directory := code_documentation.scan_directory E.
Definition read_file_content := code_documentation.read_file_content E.
Definition save_markdown := code_documentation.save_markdown E.
Definition generate_table_of_contents :=
  code_documentation.generate_table_of_contents E.

Definition call_request (prompt model : str) (temperature num_predict : Z)
  : request :=
  mk_request (OLLAMA_API_URL CONFIG) model prompt false temperature num_predict.

Definition call_result (r : post_result) : str + stop :=
  match code_documentation.try_response r with
  | (_, Return result) => inl result
  | (_, Raise (ConnectionError _)) =>
      inl (lit "**Error: Could not connect to Ollama.** Please ensure it's running at "
           ++ OLLAMA_API_URL CONFIG ++ lit " and the model '"
           ++ OLLAMA_MODEL CONFIG ++ lit "' is downloaded.")
  | (Some response, Raise (HTTPError _)) =>
      inl (lit "**Error from Ollama API:** " ++ text response
           ++ lit ". Check Ollama logs for details.")
  | (None, Raise (HTTPError _)) => inr (Uncaught (lit "UnboundLocalError"))
  | (_, Raise (OtherException e)) =>
      inl (lit "**Error:** An unexpected error occurred while communicating with Ollama: "
           ++ e)
  end.

(** [call_ollama(prompt, model=OLLAMA_MODEL, temperature=0.2,
    num_predict=1024)]; the temperature is the only default a caller
    overrides. *)
Definition call_ollama (prompt : str) (temperature : Z) : M str :=
  r <- requests_post E (call_request prompt (OLLAMA_MODEL CONFIG) temperature 1024) ;;
  lift (call_result r).

Definition summary_prompt (file_content file_name file_type : str) : str :=
  text_lines [
    lit "You are an expert software engineer and technical writer.";
    lit "    Analyze the following " ++ file_type ++ lit " code/configuration from the file '" ++ file_name ++ lit "'.";
    lit "    Provide a concise, high-level summary of its primary purpose, what problem it solves, and its main functionalities.";
    lit "    Keep it to 2-3 paragraphs.";
    [];
    lit "    Code/Configuration:";
    lit "    ```" ++ file_type;
    lit "    " ++ file_content;
    lit "    ```";
    [];
    lit "    Summary:"
  ] ++ lit "    ".

Definition components_prompt (file_content file_name file_type : str) : str :=
  text_lines [
    lit "You are an expert software engineer and technical writer.";
    lit "    Analyze the following " ++ file_type ++ lit " code/configuration from the file '" ++ file_name ++ lit "'.";
    lit "    Identify and explain the purpose and role of all significant classes, functions, methods, variables, constants, and enums.";
    lit "    For each identified component, provide a clear, concise description.";
    lit "    **Bold their names** using Markdown (e.g., **ClassName**, **function_name()**, **CONSTANT_NAME**).";
    lit "    Organize this information clearly using subheadings (e.g., 'Classes', 'Functions', 'Variables').";
    [];
    lit "    Code/Configuration:";
    lit "    ```" ++ file_type;
    lit "    " ++ file_content;
    lit "    ```";
    [];
    lit "    Detailed Explanation of Components:"
  ] ++ lit "    ".

Definition examples_prompt (file_content file_name file_type : str) : str :=
  text_lines [
    lit "You are an expert software engineer and technical writer.";
    lit "    Consider the following " ++ file_type ++ lit " code from the file '" ++ file_name ++ lit "'.";
    lit "    Does this code require usage examples to be properly understood?";
    lit "    If YES, provide 1-3 clear and concise code examples demonstrating how to use the main functionalities of this code.";
    lit "    Use code blocks for examples. Explain what each example does.";
    lit "    If NO (e.g., it's a configuration file, a simple script that runs on its own, or a highly internal utility), just state 'N/A' or 'No specific usage examples are typically required for this type of file.'.";
    [];
    lit "    Code/Configuration:";
    lit "    ```" ++ file_type;
    lit "    " ++ file_content;
    lit "    ```";
    [];
    lit "    Usage Examples:"
  ] ++ lit "    ".

Definition facet_section (title facet_doc : str) : str :=
  title ++ NL ++ NL ++ facet_doc ++ NL ++ NL ++ lit "---" ++ NL ++ NL.

Definition document_file_with_ollama (file_content file_name file_type : str)
  : M str :=
  let markdown_doc := [] in
  summary <- call_ollama (summary_prompt file_content file_name file_type) 2 ;;
  let markdown_doc :=
    markdown_doc ++ facet_section (lit "## Overall Summary") summary in
  components_doc <-
    call_ollama (components_prompt file_content file_name file_type) 2 ;;
  let markdown_doc :=
    markdown_doc
    ++ facet_section (lit "## Properties, Variables, and Functions") components_doc in
  examples_doc <-
    call_ollama (examples_prompt file_content file_name file_type) 3 ;;
  let markdown_doc :=
    markdown_doc
    ++ facet_section (lit "## Examples on How to Use the Code") examples_doc in
  ret markdown_doc.

Definition doc_heading (relative_path_of_code_file file_type : str) : str :=
  lit "# Deep Documentation for `" ++ relative_path_of_code_file ++ lit "`" ++ NL ++ NL
  ++ lit "**Original File Type:** " ++ capitalize file_type ++ NL ++ NL
  ++ lit "--- " ++ NL ++ NL.

Definition output_path_of (file_path : str) (SOURCE_CODE_DIR DOC_OUTPUT_DIR : str)
  : str :=
  let relative_path_of_code_file := os_path_relpath E file_path SOURCE_CODE_DIR in
  let base_name := os_path_basename E file_path in
  let (file_name_without_ext, _) := os_path_splitext E base_name in
  let output_sub_dir :=
    os_path_join E DOC_OUTPUT_DIR (os_path_dirname E relative_path_of_code_file) in
  let output_file_name := file_name_without_ext ++ lit "_deep_doc.md" in
  os_path_join E output_sub_dir output_file_name.

(** The document of one file, from its content. *)
Definition document_content
           (content relative_path_of_code_file base_name file_type : str)
  : M str :=
  let full_markdown_doc := doc_heading relative_path_of_code_file file_type in
  documented_parts <- document_file_with_ollama content base_name file_type ;;
  ret (full_markdown_doc ++ documented_parts).

(** One iteration of [for file_path in file_paths]. *)
Definition document_file (SOURCE_CODE_DIR DOC_OUTPUT_DIR : str)
           (documented_files_info : list (str * str)) (file_path : str)
  : M (list (str * str)) :=
  let relative_path_of_code_file := os_path_relpath E file_path SOURCE_CODE_DIR in
  let base_name := os_path_basename E file_path in
  let (_, ext) := os_path_splitext E base_name in
  let file_type := get_file_type ext in
  let output_full_path_of_markdown_doc :=
    output_path_of file_path SOURCE_CODE_DIR DOC_OUTPUT_DIR in
  match read_file_content file_path with
  | None => ret documented_files_info
  | Some content =>
      full_markdown_doc <-
        document_content content relative_path_of_code_file base_name file_type ;;
      saved <- save_markdown output_full_path_of_markdown_doc full_markdown_doc ;;
      ret (if saved : bool
           then documented_files_info
                ++ [(relative_path_of_code_file, output_full_path_of_markdown_doc)]
           else documented_files_info)
  end.

Fixpoint document_files (SOURCE_CODE_DIR DOC_OUTPUT_DIR : str)
         (file_paths : list str) (documented_files_info : list (str * str))
  : M (list (str * str)) :=
  match file_paths with
  | [] => ret documented_files_info
  | file_path :: rest =>
      info <- document_file SOURCE_CODE_DIR DOC_OUTPUT_DIR
                            documented_files_info file_path ;;
      document_files SOURCE_CODE_DIR DOC_OUTPUT_DIR rest info
  end.

Definition main_documentation (source_code_path doc_output_path : str) : M unit :=
  if negb (os_path_isdir E source_code_path) then sys_exit 1
  else
    _ <- os_makedirs E doc_output_path ;;
    let file_paths := scan_directory source_code_path in
    if negb (truthy file_paths) then sys_exit 0
    else
      documented_files_info <-
        document_files source_code_path doc_output_path file_paths [] ;;
      generate_table_of_contents documented_files_info doc_output_path.

End Pipeline.

End deep_code_documentation.

(** ** [code_analyzer.py]: the inference wrapper *)

Module code_analyzer.

Section Wrapper.
Variable E : env.
Variable CONFIG : config.

Definition api_request (prompt : str) : request :=
  mk_request (OLLAMA_API_URL CONFIG) (OLLAMA_MODEL CONFIG) prompt false 3 2048.

(** The [try] body has the same text as in [code_documentation.py]; the
    messages of the handlers differ. *)
Definition api_result (r : post_result) : str + stop :=
  match code_documentation.try_response r with
  | (_, Return result) => inl result
  | (_, Raise (ConnectionError _)) =>
      inl (lit "**Error: Could not connect to Ollama.** Please ensure it's running.")
  | (Some response, Raise (HTTPError _)) =>
      inl (lit "**Error from Ollama API:** " ++ text response
           ++ lit ". Check Ollama logs.")
  | (None, Raise (HTTPError _)) => inr (Uncaught (lit "UnboundLocalError"))
  | (_, Raise (OtherException e)) =>
      inl (lit "**Error:** An unexpected error occurred while communicating with Ollama: "
           ++ e)
  end.

Definition call_ollama_api (prompt : str) : M str :=
  r <- requests_post E (api_request prompt) ;;
  lift (api_result r).

End Wrapper.

(** [get_file_type], [read_file_content] and [chunk_content] have the same
    text in this file as in [code_documentation.py]; [save_analysis_report]
    has the text of [save_markdown]. *)
Section Analysis.
Variable E : env.
Variable CONFIG : config.

Definition get_file_type := code_documentation.get_file_type.
Definition read_file_content := code_documentation.read_file_content E.
Definition chunk_content := code_documentation.chunk_content.
Definition save_analysis_report := code_documentation.save_markdown E.

(** [any(excluded_dir in dirpath for excluded_dir in EXCLUDE_DIRS)] *)
Definition excluded (dirpath : str) : bool :=
  existsb (fun excluded_dir => contains dirpath excluded_dir) (EXCLUDE_DIRS CONFIG).

Definition scan_directory (root_dir : str) : list str :=
  flat_map
    (fun entry : str * list str =>
       let (dirpath, filenames) := entry in
       if excluded dirpath then []
       else
         flat_map
           (fun filename =>
              let (_, ext) := os_path_splitext E filename in
              if dict_mem code_documentation.SUPPORTED_EXTENSIONS (lower ext)
              then [os_path_join E dirpath filename]
              else [])
           filenames)
    (os_walk E root_dir).

Definition analysis_prompt (file_content file_name file_type project_context : str)
  : str :=
  text_lines [
    lit "You are an expert software architect and refactoring specialist.";
    lit "Analyze the following " ++ file_type ++ lit " code snippet from the file '" ++ file_name ++ lit "'.";
    lit "Consider the overall '" ++ project_context ++ lit "' if provided, to infer design patterns or common practices.";
    [];
    lit "Provide detailed recommendations for:";
    [];
    lit "1.  **Code Reuse/Refactoring:**";
    lit "    * Identify duplicated code blocks or logic.";
    lit "    * Suggest opportunities to extract common functionalities into reusable functions, classes, or modules.";
    lit "    * Propose design pattern applications (e.g., Strategy, Factory, Singleton if appropriate) to improve maintainability and extensibility.";
    lit "    * Recommend breaking down large functions/classes into smaller, more focused units.";
    lit "    * Suggest improving code organization, modularity, and separation of concerns.";
    lit "    * Highlight any " ++ DQ ++ lit "code smells" ++ DQ ++ lit " (e.g., long methods, large classes, primitive obsession, feature envy) and suggest specific refactoring techniques to address them.";
    [];
    lit "2.  **Code Comments/IntelliSense Recommendations:**";
    lit "    * Identify areas where inline comments or block comments would significantly improve code clarity, especially for complex logic, tricky algorithms, or non-obvious design choices.";
    lit "    * Suggest appropriate docstrings/XML comments (e.g., for Python functions, C# methods, Java methods) detailing parameters, return values, exceptions, and overall purpose.";
    lit "    * Recommend type hints or interface definitions where missing to improve static analysis and IntelliSense support.";
    lit "    * Point out any unclear variable names, function names, or class names and suggest more descriptive alternatives.";
    [];
    lit "3.  **Potential Dead Code Audit:**";
    lit "    * Identify code blocks, functions, or variables that appear to be unused or unreachable based *solely on this snippet's context*.";
    lit "    * Note: Acknowledge that a complete dead code audit requires whole-project static analysis, but provide initial suspicions.";
    lit "    * Look for commented-out code that could potentially be removed.";
    [];
    lit "Present your findings clearly, using Markdown for formatting (e.g., bullet points, code blocks).";
    lit "Be specific in your recommendations, referencing line numbers or code patterns where possible.";
    [];
    lit "Code snippet:";
    lit "    " ++ file_content;
    [];
    lit "Analysis and Recommendations:"
  ].

Definition analyze_code_for_refactoring_and_reuse
           (file_content file_name file_type project_context : str) : M str :=
  call_ollama_api
    E CONFIG (analysis_prompt file_content file_name file_type project_context).

Definition report_heading (relative_path file_type : str) : str :=
  lit "# Code Analysis Report for `" ++ relative_path ++ lit "`" ++ NL ++ NL
  ++ lit "**Original File Type:** " ++ capitalize file_type ++ NL ++ NL
  ++ lit "--- " ++ NL ++ NL.

Definition project_context_of (i n : nat) : str :=
  lit "This is part " ++ str_of_nat (i + 1) ++ lit " of " ++ str_of_nat n
  ++ lit " of the file. Consider previous parts if they were processed, though this model only sees this chunk.".

Definition analysis_section (i : nat) (chunk_analysis : str) : str :=
  lit "## Part " ++ str_of_nat (i + 1) ++ lit " Analysis" ++ NL ++ NL
  ++ chunk_analysis ++ NL ++ NL ++ lit "---" ++ NL ++ NL.

(** [for i, chunk in enumerate(chunks)], from index [i] on. *)
Fixpoint analyze_chunks (base_name file_type : str) (n i : nat)
         (rest : list str) (full_analysis_report : str) : M str :=
  match rest with
  | [] => ret full_analysis_report
  | chunk :: rest' =>
      chunk_analysis <-
        analyze_code_for_refactoring_and_reuse
          chunk base_name file_type (project_context_of i n) ;;
      analyze_chunks base_name file_type n (S i) rest'
                     (full_analysis_report ++ analysis_section i chunk_analysis)
  end.

(** The report of one file, from its content. *)
Definition analyze_content (content relative_path base_name file_type : str)
  : M str :=
  let chunks := chunk_content content (CHUNK_SIZE_CHARACTERS CONFIG) in
  let full_analysis_report := report_heading relative_path file_type in
  if 1 <? len chunks
  then analyze_chunks base_name file_type (length chunks) 0 chunks
                      full_analysis_report
  else
    single_analysis <-
      analyze_code_for_refactoring_and_reuse content base_name file_type [] ;;
    ret (full_analysis_report ++ single_analysis).

Definition report_path_of (relative_path DOC_OUTPUT_DIR : str) : str :=
  let base_name := os_path_basename E relative_path in
  let (file_name_without_ext, _) := os_path_splitext E base_name in
  let output_sub_dir :=
    os_path_join E DOC_OUTPUT_DIR (os_path_dirname E relative_path) in
  let output_file_name := file_name_without_ext ++ lit "_analysis.md" in
  os_path_join E output_sub_dir output_file_name.

(** Phase 1: [all_file_contents], keyed by relative path. *)
Definition read_all (SOURCE_CODE_DIR : str) (file_paths : list str) : dict :=
  fold_left
    (fun all_file_contents file_path =>
       let relative_path := os_path_relpath E file_path SOURCE_CODE_DIR in
       match read_file_content file_path with
       | Some content => dict_set all_file_contents relative_path content
       | None => all_file_contents
       end)
    file_paths [].

(** Phase 2: one iteration of [for relative_path, content in
    all_file_contents.items()]. *)
Definition analyze_file (DOC_OUTPUT_DIR : str)
           (analyzed_files_info : list (str * str)) (item : str * str)
  : M (list (str * str)) :=
  let (relative_path, content) := item in
  let base_name := os_path_basename E relative_path in
  let (_, ext) := os_path_splitext E base_name in
  let file_type := get_file_type ext in
  let output_full_path := report_path_of relative_path DOC_OUTPUT_DIR in
  full_analysis_report <-
    analyze_content content relative_path base_name file_type ;;
  saved <- save_analysis_report output_full_path full_analysis_report ;;
  ret (if saved : bool
       then analyzed_files_info ++ [(relative_path, output_full_path)]
       else analyzed_files_info).

Fixpoint analyze_files (DOC_OUTPUT_DIR : str) (items : list (str * str))
         (analyzed_files_info : list (str * str)) : M (list (str * str)) :=
  match items with
  | [] => ret analyzed_files_info
  | item :: rest =>
      info <- analyze_file DOC_OUTPUT_DIR analyzed_files_info item ;;
      analyze_files DOC_OUTPUT_DIR rest info
  end.

Definition summary_heading : str :=
  lit "# Project Code Analysis Summary" ++ NL ++ NL
  ++ lit "This report provides an overall summary of potential code reuse/refactoring opportunities, comment recommendations, and dead code suspicions across the analyzed codebase."
  ++ NL ++ NL ++ lit "---" ++ NL ++ NL.

Definition summary_sort (analyzed_files_info : list (str * str))
  : list (str * str) :=
  sort_by_key (fun x => str_lower E (fst x)) analyzed_files_info.

Definition summary_entry (output_dir : str) (entry : str * str) : str :=
  let (original_relative_path, md_full_path) := entry in
  let md_relative_to_summary := os_path_relpath E md_full_path output_dir in
  lit "* [`" ++ original_relative_path ++ lit "`](" ++ md_relative_to_summary
  ++ lit ")" ++ NL.

(** One line of [file_list_str]. *)
Definition file_list_line (entry : str * str) : str :=
  let (path, _) := entry in
  lit "- " ++ path ++ lit " ("
  ++ get_file_type (snd (os_path_splitext E path)) ++ lit ")".

Definition overall_prompt (file_list_str : str) : str :=
  text_lines [
    lit "You are an expert software architect tasked with providing a high-level summary of a codebase.";
    lit "I have analyzed the following files in a project:";
    [];
    file_list_str;
    [];
    lit "Based on typical code analysis patterns, what are common themes or areas that might show:";
    lit "-   **Cross-file code reuse opportunities?** (e.g., similar utility functions across different files)";
    lit "-   **Major refactoring areas that might span multiple files?** (e.g., inconsistencies in error handling, data structures, or common design patterns not being consistently applied)";
    lit "-   **Overall documentation gaps or style inconsistencies?**";
    lit "-   **General indications of potential dead code across the project (e.g., unused libraries, deprecated features)?**";
    [];
    lit "Do not provide specific code examples, but rather high-level observations and recommendations for further investigation.";
    [];
    lit "Overall Codebase Analysis Summary:"
  ].

Definition summary_closing : str :=
  NL ++ NL ++ lit "---" ++ NL ++ NL
  ++ lit "### Important Note:" ++ NL
  ++ lit "This summary is generated by an AI and provides high-level observations. Detailed investigation of individual file reports is crucial for accurate assessment and implementation of recommendations."
  ++ NL
  ++ lit "For comprehensive dead code auditing, consider using specialized static analysis tools.".

Definition generate_overall_summary
           (all_file_contents : dict) (analyzed_files_info : list (str * str))
           (root_dir output_dir : str) : M unit :=
  let summary_file_path :=
    os_path_join E output_dir (lit "PROJECT_ANALYSIS_SUMMARY.md") in
  let summary_content := summary_heading in
  if negb (truthy analyzed_files_info)
  then
    _ <- save_analysis_report
           summary_file_path
           (summary_content ++ lit "No supported files were analyzed." ++ NL) ;;
    ret tt
  else
    let summary_content :=
      summary_content ++ lit "## Individual File Analysis Reports" ++ NL ++ NL in
    let analyzed_files_info := summary_sort analyzed_files_info in
    let summary_content :=
      fold_left (fun acc entry => acc ++ summary_entry output_dir entry)
                analyzed_files_info summary_content in
    let summary_content := summary_content ++ NL ++ lit "---" ++ NL ++ NL in
    let file_list_str := join_with NL (map file_list_line analyzed_files_info) in
    overall_analysis <- call_ollama_api E CONFIG (overall_prompt file_list_str) ;;
    let summary_content :=
      summary_content
      ++ lit "## Overall Codebase Observations and Cross-File Recommendations"
      ++ NL ++ NL ++ overall_analysis ++ summary_closing in
    _ <- save_analysis_report summary_file_path summary_content ;;
    ret tt.

Definition main_analysis (source_code_path doc_output_path : str) : M unit :=
  if negb (os_path_isdir E source_code_path) then sys_exit 1
  else
    _ <- os_makedirs E doc_output_path ;;
    let file_paths := scan_directory source_code_path in
    if negb (truthy file_paths) then sys_exit 0
    else
      let all_file_contents := read_all source_code_path file_paths in
      analyzed_files_info <-
        analyze_files doc_output_path all_file_contents [] ;;
      generate_overall_summary all_file_contents analyzed_files_info
                               source_code_path doc_output_path.

End Analysis.

End code_analyzer.

Import code_documentation.

(** ** Replies with their status, and the log

    Two refinements of the world above.  First, the reply of the endpoint
    as it arrives, with its status code: what the [try] bodies see of it
    is what [raise_for_status()] of the library makes of the status.
    Second, the log: every [print] of the scripts writes a line to the
    standard output, and that may raise. *)

Module Requests.







End Requests.

Import Requests.

Module Console.

(** The standard output and the texts of the errors that only the log
    shows.  [stdout st line] is [None] when the line is printed and
    [Some what] when [print] raises the exception [what]. *)
Record console : Type := mk_console {
  stdout : state -> str -> option str;
  (* [str(e)] of a write that failed, by path *)
  write_error : state -> str -> str;
  (* [str(e)] of a decoding that failed *)
  decode_error : encoding -> str -> str;
  os_path_abspath : str -> str
}.

(** [print(line)] where nothing catches what it raises. *)
Definition print (T : console) (line : str) : M unit :=
  fun st =>
    match stdout T st line with
    | None => (inl tt, st)
    | Some what => (inr (Uncaught what), st)
    end.

(** The state of the run, for the texts that depend on it. *)
Definition current_state : M state := fun st => (inl st, st).

(** [print(line)] inside a [try] with [except Exception as e]: the
    exception, if any, is handed to the handler. *)
Definition try_print (T : console) (line : str) : M (option str) :=
  fun st => (inl (stdout T st line), st).

End Console.

Import Console.

(** ** The scripts with their log

    The definitions of the scripts above leave every [print] out.  Here
    they are again with every [print] in its place.  A [print] inside a
    [try] is caught by its handler; a [print] inside a handler, or outside
    any [try], stops the run when it raises. *)

Module logged.

Module documentation.

Section Pipeline.
Variable E : env.
Variable T : console.
Variable CONFIG : config.

Definition scan_directory (root_dir : str) : M (list str) :=
  _ <- print T (lit "Starting scan of directory: " ++ root_dir) ;;
  let file_paths := code_documentation.scan_directory E root_dir in
  _ <- print T (lit "Found " ++ str_of_nat (length file_paths)
                ++ lit " supported files for documentation.") ;;
  ret file_paths.

Definition read_file_content (file_path : str) : M (option str) :=
  match open_read E utf_8 file_path with
  | ReadOk content => ret (Some content)
  | ReadUnicodeDecodeError =>
      match open_read E latin_1 file_path with
      | ReadOk content => ret (Some content)
      | ReadUnicodeDecodeError =>
          _ <- print T (lit "Error: Could not read file '" ++ file_path
                        ++ lit "' with UTF-8 or Latin-1 encoding. Details: "
                        ++ decode_error T latin_1 file_path) ;;
          ret None
      | ReadOtherException e =>
          _ <- print T (lit "Error: Could not read file '" ++ file_path
                        ++ lit "' with UTF-8 or Latin-1 encoding. Details: "
                        ++ e) ;;
          ret None
      end
  | ReadOtherException e =>
      _ <- print T (lit "Error: An unexpected error occurred while reading file '"
                    ++ file_path ++ lit "'. Details: " ++ e) ;;
      ret None
  end.

(** What the handler of the wrapper prints before it returns. *)
Definition document_log (r : post_result) : M unit :=
  match code_documentation.try_response r with
  | (_, Return _) => ret tt
  | (_, Raise (ConnectionError _)) =>
      _ <- print T (lit "Error: Could not connect to Ollama at "
                    ++ OLLAMA_API_URL CONFIG ++ lit ".") ;;
      print T (lit "Please ensure Ollama is running and the specified model is downloaded.")
  | (Some response, Raise (HTTPError err)) =>
      print T (lit "HTTP error occurred: " ++ err ++ lit " - Response: "
               ++ text response)
  | (None, Raise (HTTPError _)) => ret tt
  | (_, Raise (OtherException e)) =>
      print T (lit "An unexpected error occurred during Ollama request: " ++ e)
  end.

Definition document_with_ollama
           (chunk_text file_name file_type part_info : str) : M str :=
  let prompt :=
    code_documentation.document_prompt chunk_text file_name file_type part_info in
  r <- requests_post E (code_documentation.document_request CONFIG prompt) ;;
  _ <- document_log r ;;
  lift (code_documentation.document_result CONFIG r).

(** The write and the line "saved" are inside the [try]; the line of the
    handler is not. *)
Definition save_markdown (output_path markdown_content : str) : M bool :=
  _ <- os_makedirs E (os_path_dirname E output_path) ;;
  st <- current_state ;;
  wrote <- write_file E output_path markdown_content ;;
  if wrote : bool
  then
    failed <- try_print T (lit "Documentation saved to: " ++ output_path) ;;
    match failed with
    | None => ret true
    | Some e =>
        _ <- print T (lit "Error: Could not save markdown to '" ++ output_path
                      ++ lit "'. Details: " ++ e) ;;
        ret false
    end
  else
    _ <- print T (lit "Error: Could not save markdown to '" ++ output_path
                  ++ lit "'. Details: " ++ write_error T st output_path) ;;
    ret false.

Definition generate_table_of_contents
           (documented_files_info : list (str * str)) (output_dir : str)
  : M unit :=
  let toc_file_path := os_path_join E output_dir (lit "TABLE_OF_CONTENTS.md") in
  _ <- save_markdown toc_file_path
                     (code_documentation.toc_text E documented_files_info output_dir) ;;
  print T (NL ++ lit "Table of Contents generated at: " ++ toc_file_path).

Fixpoint document_chunks (base_name file_type : str) (n i : nat)
         (rest : list str) (full_markdown_doc : str) : M str :=
  match rest with
  | [] => ret full_markdown_doc
  | chunk :: rest' =>
      _ <- print T (lit "  Documenting chunk " ++ str_of_nat (i + 1) ++ lit "/"
                    ++ str_of_nat n ++ lit "...") ;;
      chunk_doc <- document_with_ollama chunk base_name file_type
                                       (code_documentation.part_info_of i n) ;;
      document_chunks base_name file_type n (S i) rest'
                      (full_markdown_doc
                       ++ code_documentation.part_section i chunk_doc)
  end.

Definition document_content
           (content relative_path_of_code_file base_name file_type : str)
  : M str :=
  let chunks :=
    code_documentation.chunk_content content (CHUNK_SIZE_CHARACTERS CONFIG) in
  let full_markdown_doc :=
    code_documentation.doc_heading relative_path_of_code_file file_type in
  if 1 <? len chunks
  then
    _ <- print T (lit "File is large, splitting into "
                  ++ str_of_nat (length chunks)
                  ++ lit " chunks for processing.") ;;
    document_chunks base_name file_type (length chunks) 0 chunks
                    full_markdown_doc
  else
    _ <- print T (lit "  Documenting as a single chunk.") ;;
    single_doc <- document_with_ollama content base_name file_type [] ;;
    ret (full_markdown_doc ++ single_doc).

Definition document_file (SOURCE_CODE_DIR DOC_OUTPUT_DIR : str)
           (documented_files_info : list (str * str)) (file_path : str)
  : M (list (str * str)) :=
  let relative_path_of_code_file := os_path_relpath E file_path SOURCE_CODE_DIR in
  let base_name := os_path_basename E file_path in
  let (_, ext) := os_path_splitext E base_name in
  let file_type := code_documentation.get_file_type ext in
  let output_full_path_of_markdown_doc :=
    code_documentation.output_path_of E file_path SOURCE_CODE_DIR DOC_OUTPUT_DIR in
  _ <- print T (NL ++ lit "Processing file: " ++ relative_path_of_code_file
                ++ lit " (Type: " ++ capitalize file_type ++ lit ")") ;;
  content <- read_file_content file_path ;;
  match content with
  | None => ret documented_files_info
  | Some content =>
      full_markdown_doc <-
        document_content content relative_path_of_code_file base_name file_type ;;
      saved <- save_markdown output_full_path_of_markdown_doc full_markdown_doc ;;
      ret (if saved : bool
           then documented_files_info
                ++ [(relative_path_of_code_file, output_full_path_of_markdown_doc)]
           else documented_files_info)
  end.

Fixpoint document_files (SOURCE_CODE_DIR DOC_OUTPUT_DIR : str)
         (file_paths : list str) (documented_files_info : list (str * str))
  : M (list (str * str)) :=
  match file_paths with
  | [] => ret documented_files_info
  | file_path :: rest =>
      info <- document_file SOURCE_CODE_DIR DOC_OUTPUT_DIR
                            documented_files_info file_path ;;
      document_files SOURCE_CODE_DIR DOC_OUTPUT_DIR rest info
  end.

Definition main_documentation (source_code_path doc_output_path : str) : M unit :=
  if negb (os_path_isdir E source_code_path)
  then
    _ <- print T (lit "Error: The provided source path '" ++ source_code_path
                  ++ lit "' is not a valid directory or does not exist.") ;;
    sys_exit 1
  else
    _ <- os_makedirs E doc_output_path ;;
    _ <- print T (lit "Output documentation will be saved in: "
                  ++ os_path_abspath T doc_output_path) ;;
    file_paths <- scan_directory source_code_path ;;
    if negb (truthy file_paths)
    then
      _ <- print T (lit "No supported files found in the specified directory. Exiting.") ;;
      sys_exit 0
    else
      documented_files_info <-
        document_files source_code_path doc_output_path file_paths [] ;;
      _ <- generate_table_of_contents documented_files_info doc_output_path ;;
      _ <- print T (NL ++ lit "Documentation generation complete!") ;;
      print T (lit "Check the '" ++ doc_output_path
               ++ lit "' directory for your generated Markdown files and the TABLE_OF_CONTENTS.md.").

End Pipeline.

End documentation.

Module analyzer.

Section Pipeline.
Variable E : env.
Variable T : console.
Variable CONFIG : config.

(** The supported files of one directory of the walk. *)
Definition supported_in (dirpath : str) (filenames : list str) : list str :=
  flat_map
    (fun filename =>
       let (_, ext) := os_path_splitext E filename in
       if dict_mem code_documentation.SUPPORTED_EXTENSIONS (lower ext)
       then [os_path_join E dirpath filename]
       else [])
    filenames.

(** [for dirpath, _, filenames in os.walk(root_dir)], with the line that
    is printed for every directory left out. *)
Fixpoint scan_walk (entries : list (str * list str)) (file_paths : list str)
  : M (list str) :=
  match entries with
  | [] => ret file_paths
  | (dirpath, filenames) :: rest =>
      if code_analyzer.excluded CONFIG dirpath
      then
        _ <- print T (lit "Skipping excluded directory: " ++ dirpath) ;;
        scan_walk rest file_paths
      else scan_walk rest (file_paths ++ supported_in dirpath filenames)
  end.

Definition scan_directory (root_dir : str) : M (list str) :=
  _ <- print T (lit "Starting scan of directory: " ++ root_dir) ;;
  file_paths <- scan_walk (os_walk E root_dir) [] ;;
  _ <- print T (lit "Found " ++ str_of_nat (length file_paths)
                ++ lit " supported files for analysis.") ;;
  ret file_paths.

(** [read_file_content] has the text it has in [code_documentation.py]. *)
Definition read_file_content := documentation.read_file_content E T.

(** The handlers print what those of [document_with_ollama] print. *)
Definition call_ollama_api (prompt : str) : M str :=
  r <- requests_post E (code_analyzer.api_request CONFIG prompt) ;;
  _ <- documentation.document_log T CONFIG r ;;
  lift (code_analyzer.api_result r).

Definition save_analysis_report (output_path report_content : str) : M bool :=
  _ <- os_makedirs E (os_path_dirname E output_path) ;;
  st <- current_state ;;
  wrote <- write_file E output_path report_content ;;
  if wrote : bool
  then
    failed <- try_print T (lit "Analysis report saved to: " ++ output_path) ;;
    match failed with
    | None => ret true
    | Some e =>
        _ <- print T (lit "Error: Could not save analysis report to '"
                      ++ output_path ++ lit "'. Details: " ++ e) ;;
        ret false
    end
  else
    _ <- print T (lit "Error: Could not save analysis report to '"
                  ++ output_path ++ lit "'. Details: "
                  ++ write_error T st output_path) ;;
    ret false.

Definition analyze_code_for_refactoring_and_reuse
           (file_content file_name file_type project_context : str) : M str :=
  call_ollama_api
    (code_analyzer.analysis_prompt file_content file_name file_type
                                   project_context).

Fixpoint analyze_chunks (base_name file_type : str) (n i : nat)
         (rest : list str) (full_analysis_report : str) : M str :=
  match rest with
  | [] => ret full_analysis_report
  | chunk :: rest' =>
      _ <- print T (lit "  Analyzing chunk " ++ str_of_nat (i + 1) ++ lit "/"
                    ++ str_of_nat n ++ lit "...") ;;
      chunk_analysis <-
        analyze_code_for_refactoring_and_reuse
          chunk base_name file_type (code_analyzer.project_context_of i n) ;;
      analyze_chunks base_name file_type n (S i) rest'
                     (full_analysis_report
                      ++ code_analyzer.analysis_section i chunk_analysis)
  end.

Definition analyze_content (content relative_path base_name file_type : str)
  : M str :=
  let chunks :=
    code_analyzer.chunk_content content (CHUNK_SIZE_CHARACTERS CONFIG) in
  let full_analysis_report :=
    code_analyzer.report_heading relative_path file_type in
  if 1 <? len chunks
  then
    _ <- print T (lit "File is large, splitting into "
                  ++ str_of_nat (length chunks)
                  ++ lit " chunks for analysis.") ;;
    analyze_chunks base_name file_type (length chunks) 0 chunks
                   full_analysis_report
  else
    _ <- print T (lit "  Analyzing as a single chunk.") ;;
    single_analysis <-
      analyze_code_for_refactoring_and_reuse content base_name file_type [] ;;
    ret (full_analysis_report ++ single_analysis).

(** Phase 1, file by file. *)
Fixpoint read_all (SOURCE_CODE_DIR : str) (file_paths : list str)
         (all_file_contents : dict) : M dict :=
  match file_paths with
  | [] => ret all_file_contents
  | file_path :: rest =>
      let relative_path := os_path_relpath E file_path SOURCE_CODE_DIR in
      content <- read_file_content file_path ;;
      match content with
      | Some content =>
          read_all SOURCE_CODE_DIR rest
                   (dict_set all_file_contents relative_path content)
      | None =>
          _ <- print T (lit "Skipping analysis for " ++ relative_path
                        ++ lit " due to read error.") ;;
          read_all SOURCE_CODE_DIR rest all_file_contents
      end
  end.

Definition analyze_file (DOC_OUTPUT_DIR : str)
           (analyzed_files_info : list (str * str)) (item : str * str)
  : M (list (str * str)) :=
  let (relative_path, content) := item in
  let base_name := os_path_basename E relative_path in
  let (_, ext) := os_path_splitext E base_name in
  let file_type := code_analyzer.get_file_type ext in
  let output_full_path :=
    code_analyzer.report_path_of E relative_path DOC_OUTPUT_DIR in
  _ <- print T (NL ++ lit "Analyzing file: " ++ relative_path
                ++ lit " (Type: " ++ capitalize file_type ++ lit ")") ;;
  full_analysis_report <-
    analyze_content content relative_path base_name file_type ;;
  saved <- save_analysis_report output_full_path full_analysis_report ;;
  ret (if saved : bool
       then analyzed_files_info ++ [(relative_path, output_full_path)]
       else analyzed_files_info).

Fixpoint analyze_files (DOC_OUTPUT_DIR : str) (items : list (str * str))
         (analyzed_files_info : list (str * str)) : M (list (str * str)) :=
  match items with
  | [] => ret analyzed_files_info
  | item :: rest =>
      info <- analyze_file DOC_OUTPUT_DIR analyzed_files_info item ;;
      analyze_files DOC_OUTPUT_DIR rest info
  end.

Definition generate_overall_summary
           (all_file_contents : dict) (analyzed_files_info : list (str * str))
           (root_dir output_dir : str) : M unit :=
  let summary_file_path :=
    os_path_join E output_dir (lit "PROJECT_ANALYSIS_SUMMARY.md") in
  let summary_content := code_analyzer.summary_heading in
  if negb (truthy analyzed_files_info)
  then
    _ <- save_analysis_report
           summary_file_path
           (summary_content ++ lit "No supported files were analyzed." ++ NL) ;;
    ret tt
  else
    let summary_content :=
      summary_content ++ lit "## Individual File Analysis Reports" ++ NL ++ NL in
    let analyzed_files_info := code_analyzer.summary_sort E analyzed_files_info in
    let summary_content :=
      fold_left (fun acc entry =>
                   acc ++ code_analyzer.summary_entry E output_dir entry)
                analyzed_files_info summary_content in
    let summary_content := summary_content ++ NL ++ lit "---" ++ NL ++ NL in
    let file_list_str :=
      join_with NL (map (code_analyzer.file_list_line E) analyzed_files_info) in
    _ <- print T (lit "Requesting overall project analysis summary from Ollama...") ;;
    overall_analysis <-
      call_ollama_api (code_analyzer.overall_prompt file_list_str) ;;
    let summary_content :=
      summary_content
      ++ lit "## Overall Codebase Observations and Cross-File Recommendations"
      ++ NL ++ NL ++ overall_analysis ++ code_analyzer.summary_closing in
    _ <- save_analysis_report summary_file_path summary_content ;;
    print T (lit "Overall project analysis summary generated at: "
             ++ summary_file_path).

Definition main_analysis (source_code_path doc_output_path : str) : M unit :=
  if negb (os_path_isdir E source_code_path)
  then
    _ <- print T (lit "Error: The provided source path '" ++ source_code_path
                  ++ lit "' is not a valid directory or does not exist.") ;;
    sys_exit 1
  else
    _ <- os_makedirs E doc_output_path ;;
    _ <- print T (lit "Analysis reports will be saved in: "
                  ++ os_path_abspath T doc_output_path) ;;
    file_paths <- scan_directory source_code_path ;;
    if negb (truthy file_paths)
    then
      _ <- print T (lit "No supported files found in the specified directory for analysis. Exiting.") ;;
      sys_exit 0
    else
      _ <- print T (NL ++ lit "Phase 1: Reading file contents...") ;;
      all_file_contents <- read_all source_code_path file_paths [] ;;
      _ <- print T (NL ++ lit "Phase 2: Analyzing individual files...") ;;
      analyzed_files_info <-
        analyze_files doc_output_path all_file_contents [] ;;
      _ <- print T (NL ++ lit "Phase 3: Generating overall project summary (if applicable)...") ;;
      _ <- generate_overall_summary all_file_contents analyzed_files_info
                                    source_code_path doc_output_path ;;
      _ <- print T (NL ++ lit "Code analysis complete!") ;;
      print T (lit "Check the '" ++ doc_output_path
               ++ lit "' directory for your generated Markdown analysis reports.").

End Pipeline.

End analyzer.

End logged.

(** ** A small world to run the scripts in

    A source tree "src" with four files, one of them unreadable and one
    with an extension that is not supported; paths are POSIX-like and
    never need normalising; the endpoint fails in three different ways
    before it starts to answer. *)

Module Sample.

Fixpoint rsplit (sep : char) (s : str) : option (str * str) :=
  match s with
  | [] => None
  | c :: s' =>
      match rsplit sep s' with
      | Some (a, b) => Some (c :: a, b)
      | None => if (c =? sep)%N then Some ([], s') else None
      end
  end.

(** [os.path.join] of two parts: the second part alone when it is
    absolute, else the two parts with one slash between them. *)
Definition path_join (a b : str) : str :=
  if startswith b (lit "/") then b
  else if negb (truthy a) || startswith (rev a) (lit "/") then a ++ b
  else a ++ lit "/" ++ b.

Definition relpath (path start : str) : str := skipn (length start + 1) path.

Definition basename (path : str) : str :=
  match rsplit 47%N path with
  | Some (_, b) => b
  | None => path
  end.

Definition dirname (path : str) : str :=
  match rsplit 47%N path with
  | Some (a, _) => a
  | None => []
  end.

Definition splitext (name : str) : str * str :=
  match rsplit 46%N name with
  | Some (a, b) => (a, 46%N :: b)
  | None => (name, [])
  end.

Definition answers (st : state) (req : request) : post_result :=
  match length (sent st) with
  | 0%nat => PostConnectionError (lit "connection refused")
  | 1%nat => PostReturns (mk_response (lit "model not found")
                                      (Some (lit "500 Server Error"))
                                      (inr (lit "no JSON")))
  | 2%nat => PostOtherException (lit "timed out")
  | _ => PostReturns (mk_response (lit "{...}") None
                                  (inl (lit "  Documented. " ++ NL)))
  end.

Definition b_py : str := lit "import os" ++ NL ++ lit "print(os.name)" ++ NL.
Definition A_py : str := lit "x = 1" ++ NL.

Definition read (enc : encoding) (path : str) : read_result :=
  if str_eqb path (lit "src/c.txt") then ReadOtherException (lit "Permission denied")
  else if str_eqb path (lit "src/b.py") then ReadOk b_py
  else ReadOk A_py.

Definition tree (root : str) : list (str * list str) :=
  [ (root, [lit "b.py"; lit "A.py"; lit "c.txt"; lit "notes.md"]) ].

Definition make_world (tree : str -> list (str * list str))
           (read : encoding -> str -> read_result) : env :=
  mk_env answers
         (fun path => str_eqb path (lit "src"))
         tree
         read
         (fun _ _ => true)
         (fun _ _ _ => true)
         path_join relpath basename dirname splitext
         lower.

Definition world : env := make_world tree read.

(** The same world with a source tree that holds no supported file. *)
Definition empty_world : env :=
  make_world (fun root => [ (root, [lit "notes.md"; lit "Makefile"]) ]) read.


Definition settings : config :=
  mk_config (lit "out") (lit "http://localhost:11434/api/generate")
            (lit "llama3") 12 [].

(** A source tree with folders, and settings that exclude one of them. *)
Definition folders (root : str) : list (str * list str) :=
  [ (root, [lit "b.py"]);
    (root ++ lit "/node_modules/x", [lit "index.js"]);
    (root ++ lit "/lib", [lit "util.py"; lit "README"]) ].

Definition folder_world : env := make_world folders read.

Definition excluding (dirs : list str) : config :=
  mk_config (lit "out") (lit "http://localhost:11434/api/generate")
            (lit "llama3") 12 dirs.






(** A console that prints every line. *)
Definition quiet : console :=
  mk_console (fun _ _ => None)
             (fun _ _ => lit "Permission denied")
             (fun _ _ => lit "invalid start byte")
             (fun path => lit "/home/user/" ++ path).


End Sample.

(** ** Vocabulary of the statements *)

(** A text without a line boundary, and a text that is one line for
    [splitlines]. *)
Definition no_break (s : str) : Prop :=
  Forall (fun c => is_linebreak c = false) s.

Definition single_line (l : str) : Prop := splitlines_keepends l = [l].

(** A closed chunk, as the lines it was joined from: it fits the budget
    or it is one line. *)
Definition group_ok (chunk_size : Z) (g : list str) : Prop :=
  g <> [] /\ (len (join g) <= chunk_size \/ exists l, g = [l]).

(** The state of the chunker after the lines [done] have been read: the
    closed chunks and the open one are the lines read, grouped in order. *)
Definition chunker_inv (chunk_size : Z) (done : list str) (st : chunker) : Prop :=
  exists G : list (list str),
    chunks st = map join G
    /\ concat G ++ current_chunk_lines st = done
    /\ current_length st = len (join (current_chunk_lines st))
    /\ Forall (group_ok chunk_size) G
    /\ (current_chunk_lines st = []
        \/ group_ok chunk_size (current_chunk_lines st)).

(** Two runs of the chunker over the same lines, [st1] with the smaller
    budget: [st1] has closed more chunks than [st2], or as many and then
    its open chunk is at least as long. *)
Definition ahead (st1 st2 : chunker) : Prop :=
  truthy (current_chunk_lines st1) = truthy (current_chunk_lines st2)
  /\ 0 <= current_length st1
  /\ ((length (chunks st2) < length (chunks st1))%nat
      \/ (length (chunks st2) = length (chunks st1)
          /\ current_length st2 <= current_length st1)).

(** [x] comes no later than [y] in the order of the keys. *)
Definition key_le {A : Type} (key : A -> str) (x y : A) : Prop :=
  str_leb (key x) (key y) = true.



(** The run was stopped by a [print] that raised. *)
Definition print_raised (T : console) (e : stop) : Prop :=
  exists (s : state) (line what : str),
    stdout T s line = Some what /\ e = Uncaught what.

(** [m] only writes to the log: it returns [a] and leaves the state as it
    is, unless one of its [print]s raises. *)
Definition logs_only (T : console) {A : Type} (m : M A) (a : A) : Prop :=
  forall st,
    m st = (inl a, st)
    \/ exists e, m st = (inr e, st) /\ print_raised T e.

(** [m] stops before its end only by an [os.makedirs] that failed or by a
    [print] that raised. *)
Definition contained (T : console) {A : Type} (m : M A) : Prop :=
  forall st e st',
    m st = (inr e, st') -> e = Uncaught (lit "OSError") \/ print_raised T e.

(** The elements with the key [k], in the order they have in the list. *)
Definition with_key {A : Type} (key : A -> str) (k : str) (l : list A)
  : list A :=
  filter (fun x => str_eqb (key x) k) l.


(** The state after one more request. *)
Definition after_request (st : state) (req : request) : state :=
  mk_state (sent st ++ [req]) (written st).

(** The texts that the handlers of [document_with_ollama] make of the
    endpoint's answers to the requests [reqs], posted one after the other
    from the state [st]. *)
Inductive answered (E : env) (CONFIG : config)
  : state -> list request -> list str -> Prop :=
| answered_nil (st : state) : answered E CONFIG st [] []
| answered_cons (st : state) (req : request) (reqs : list request)
                (r : str) (rs : list str) :
    document_result CONFIG (endpoint E st req) = inl r ->
    answered E CONFIG (after_request st req) reqs rs ->
    answered E CONFIG st (req :: reqs) (r :: rs).

(** Numbering from [k] on: [(k, x0); (k+1, x1); ...]. *)
Definition numbered_from {A : Type} (k : nat) (l : list A) : list (nat * A) :=
  combine (seq k (length l)) l.

(** The annotation "(Part k of n)" and the section "## Part k". *)
Definition part_annotation (k n : nat) : str :=
  lit "(Part " ++ str_of_nat k ++ lit " of " ++ str_of_nat n ++ lit ")".

Definition numbered_section (kr : nat * str) : str :=
  lit "## Part " ++ str_of_nat (fst kr) ++ NL ++ NL ++ snd kr ++ NL ++ NL
  ++ lit "---" ++ NL ++ NL.

(** The request for chunk number [k] of [n]. *)
Definition part_request (CONFIG : config) (base_name file_type : str) (n : nat)
           (kc : nat * str) : request :=
  document_request
    CONFIG
    (document_prompt (snd kc) base_name file_type (part_annotation (fst kc) n)).

(** [s] occurs in [t]. *)
Definition occurs_in (s t : str) : Prop := exists pre post, t = pre ++ s ++ post.

(** Where the table of contents goes, and the entry of a source file. *)
Definition toc_path (E : env) (output_dir : str) : str :=
  os_path_join E output_dir (lit "TABLE_OF_CONTENTS.md").


(** The order of the listing: by lower-cased relative path. *)
Definition toc_le (E : env) (a b : str * str) : Prop :=
  str_leb (str_lower E (fst a)) (str_lower E (fst b)) = true.

(** Chunks as groups of lines, packed tightly: the first line of a chunk
    did not fit the budget of the chunk before it. *)
Definition adjacent_tight (chunk_size : Z) (G : list (list str)) : Prop :=
  forall (i : nat) (g g' : list str),
    nth_error G i = Some g -> nth_error G (S i) = Some g' ->
    exists l rest, g' = l :: rest /\ chunk_size < len (join g) + len l.

(** The groups of the chunker: the closed ones and the open one. *)
Definition all_groups (G : list (list str)) (cur : list str) : list (list str) :=
  G ++ (if truthy cur then [cur] else []).

Definition tight_inv (chunk_size : Z) (done : list str) (st : chunker) : Prop :=
  exists G : list (list str),
    chunks st = map join G
    /\ concat G ++ current_chunk_lines st = done
    /\ current_length st = len (join (current_chunk_lines st))
    /\ (current_chunk_lines st = [] -> G = [])
    /\ adjacent_tight chunk_size (all_groups G (current_chunk_lines st)).

(** The number of requests a content costs: one per chunk, and one all
    the same when there is no chunk. *)
Definition requests_for (CONFIG : config) (content : str) : nat :=
  Nat.max 1 (length (chunk_content content (CHUNK_SIZE_CHARACTERS CONFIG))).

Definition requests_of_file (E : env) (CONFIG : config) (file_path : str) : nat :=
  match read_file_content E file_path with
  | Some content => requests_for CONFIG content
  | None => 0
  end.

(** The files of a list that can be read. *)
Definition readable (E : env) (file_paths : list str) : list str :=
  filter (fun file_path =>
            match read_file_content E file_path with
            | Some _ => true
            | None => false
            end)
         file_paths.

(** The same vocabulary for the analyzer: the texts its wrapper makes of
    the answers, the hint of chunk [k] of [n], its section and its request. *)
Inductive api_answered (E : env)
  : state -> list request -> list str -> Prop :=
| api_answered_nil (st : state) : api_answered E st [] []
| api_answered_cons (st : state) (req : request) (reqs : list request)
                    (r : str) (rs : list str) :
    code_analyzer.api_result (endpoint E st req) = inl r ->
    api_answered E (after_request st req) reqs rs ->
    api_answered E st (req :: reqs) (r :: rs).

Definition part_context (k n : nat) : str :=
  lit "This is part " ++ str_of_nat k ++ lit " of " ++ str_of_nat n
  ++ lit " of the file. Consider previous parts if they were processed, though this model only sees this chunk.".

Definition numbered_analysis (kr : nat * str) : str :=
  lit "## Part " ++ str_of_nat (fst kr) ++ lit " Analysis" ++ NL ++ NL
  ++ snd kr ++ NL ++ NL ++ lit "---" ++ NL ++ NL.

Definition analysis_request (CONFIG : config) (base_name file_type : str)
           (n : nat) (kc : nat * str) : request :=
  code_analyzer.api_request
    CONFIG
    (code_analyzer.analysis_prompt (snd kc) base_name file_type
                                   (part_context (fst kc) n)).


(** * Properties *)

(** ** Lines *)

Section Lines.

Lemma len_app (A : Type) (a b : list A) : len (a ++ b) = len a + len b.
Proof. unfold len. rewrite length_app. lia. Qed.

Lemma len_nonneg (A : Type) (a : list A) : 0 <= len a.
Proof. unfold len. lia. Qed.

Lemma join_app (a b : list str) : join (a ++ b) = join a ++ join b.
Proof. apply concat_app. Qed.

Lemma join_single (l : str) : join [l] = l.
Proof. unfold join. simpl. apply app_nil_r. Qed.

Lemma truthy_false (A : Type) (l : list A) : truthy l = false <-> l = [].
Proof. destruct l; simpl; split; congruence. Qed.

Lemma truthy_true (A : Type) (l : list A) : truthy l = true <-> l <> [].
Proof. destruct l; simpl; split; congruence. Qed.

(** Joining the lines gives back the text read. *)
Lemma join_splitlines_from (cur s : str) :
  join (splitlines_from cur s) = cur ++ s.
Proof.
  unfold join.
  functional induction (splitlines_from cur s);
    cbn [concat]; rewrite ?IHl, ?app_nil_r, <- ?app_assoc; try reflexivity.
  apply truthy_false in e0. now subst.
Qed.

Lemma join_splitlines (s : str) : join (splitlines_keepends s) = s.
Proof. apply join_splitlines_from. Qed.

(** No line is empty. *)
Lemma splitlines_from_nonempty (cur s : str) :
  Forall (fun l => l <> []) (splitlines_from cur s).
Proof.
  functional induction (splitlines_from cur s);
    try (constructor; [ now destruct cur | assumption ]); auto.
  constructor; [ now apply truthy_true | constructor ].
Qed.

End Lines.

(** The answers of Python on the same inputs. *)
Example splitlines_boundaries :
  splitlines_keepends
    (lit "a" ++ [13] ++ lit "b" ++ [13; 10] ++ lit "c" ++ [11] ++ lit "d" ++ [12]
     ++ lit "e" ++ [28] ++ lit "f" ++ [29] ++ lit "g" ++ [30] ++ lit "h" ++ [133]
     ++ lit "i" ++ [8232] ++ lit "j" ++ [8233] ++ lit "k" ++ [31] ++ lit "l"
     ++ [10; 10] ++ lit "m")%N
  = [ lit "a" ++ [13]; lit "b" ++ [13; 10]; lit "c" ++ [11]; lit "d" ++ [12];
      lit "e" ++ [28]; lit "f" ++ [29]; lit "g" ++ [30]; lit "h" ++ [133];
      lit "i" ++ [8232]; lit "j" ++ [8233]; lit "k" ++ [31] ++ lit "l" ++ [10];
      [10]; lit "m" ]%N.
Proof. reflexivity. Qed.

Example splitlines_cr_lf :
  splitlines_keepends [13; 10; 13]%N = [[13; 10]; [13]]%N
  /\ splitlines_keepends [10; 13]%N = [[10]; [13]]%N
  /\ splitlines_keepends [] = [].
Proof. repeat split. Qed.

Example chunk_content_three_lines :
  chunk_content (lit "ab" ++ [10%N] ++ lit "cdef" ++ [13%N; 10%N] ++ lit "g") 4
  = [lit "ab" ++ [10%N]; lit "cdef" ++ [13%N; 10%N]; lit "g"].
Proof. reflexivity. Qed.

(** Two short lines share a chunk; the third line opens the next one. *)
Example chunk_content_packs :
  chunk_content (lit "a" ++ NL ++ lit "b" ++ NL ++ lit "cd" ++ NL) 4
  = [lit "a" ++ NL ++ lit "b" ++ NL; lit "cd" ++ NL].
Proof. reflexivity. Qed.

(** ** One line is one line *)

Section SingleLine.

Lemma splitlines_from_skip (cur2 : str) :
  no_break cur2 ->
  forall cur1 s,
    splitlines_from cur1 (cur2 ++ s) = splitlines_from (cur1 ++ cur2) s.
Proof.
  induction 1 as [| c cur2 Hc _ IH]; intros cur1 s.
  - now rewrite app_nil_r.
  - cbn [app]. rewrite splitlines_from_equation, Hc, IH, <- app_assoc.
    reflexivity.
Qed.

Lemma single_line_end (cur : str) :
  no_break cur -> cur <> [] -> single_line cur.
Proof.
  intros Hb Hne. unfold single_line, splitlines_keepends.
  rewrite <- (app_nil_r cur) at 1.
  rewrite splitlines_from_skip by assumption. cbn [app].
  rewrite splitlines_from_equation.
  apply truthy_true in Hne. now rewrite Hne.
Qed.

Lemma single_line_break (cur : str) (c : char) :
  no_break cur -> is_linebreak c = true -> single_line (cur ++ [c]).
Proof.
  intros Hb Hc. unfold single_line, splitlines_keepends.
  rewrite splitlines_from_skip by assumption. cbn [app].
  rewrite splitlines_from_equation, Hc.
  destruct (c =? 13)%N; reflexivity.
Qed.

Lemma single_line_crlf (cur : str) :
  no_break cur -> single_line (cur ++ [13%N; 10%N]).
Proof.
  intros Hb. unfold single_line, splitlines_keepends.
  rewrite splitlines_from_skip by assumption. reflexivity.
Qed.

Lemma splitlines_from_single (cur s : str) :
  no_break cur -> Forall single_line (splitlines_from cur s).
Proof.
  functional induction (splitlines_from cur s); intros Hb.
  - constructor; [| constructor].
    apply single_line_end; [assumption | now apply truthy_true].
  - constructor.
  - apply N.eqb_eq in e1, e3. subst.
    constructor; [now apply single_line_crlf | apply IHl; constructor].
  - constructor; [now apply single_line_break | apply IHl; constructor].
  - constructor; [now apply single_line_break | apply IHl; constructor].
  - constructor; [now apply single_line_break | apply IHl; constructor].
  - apply IHl. apply Forall_app. split; [assumption |].
    constructor; [assumption | constructor].
Qed.

Lemma splitlines_single (s : str) :
  Forall single_line (splitlines_keepends s).
Proof. apply splitlines_from_single. constructor. Qed.

End SingleLine.

(** ** The chunker keeps lines together *)

Section Groups.
Variable chunk_size : Z.

Lemma chunker_inv_init : chunker_inv chunk_size [] chunker_init.
Proof.
  exists []. cbn. repeat split; auto.
Qed.

Lemma chunker_inv_step (done : list str) (st : chunker) (line : str) :
  chunker_inv chunk_size done st ->
  chunker_inv chunk_size (done ++ [line]) (chunk_step chunk_size st line).
Proof.
  intros (G & HG & Hdone & Hlen & HGok & Hcur).
  unfold chunk_step.
  destruct ((current_length st + len line >? chunk_size)
            && truthy (current_chunk_lines st)) eqn:Hif.
  - apply andb_true_iff in Hif. destruct Hif as [_ Hne].
    apply truthy_true in Hne.
    exists (G ++ [current_chunk_lines st]).
    cbn [chunks current_chunk_lines current_length].
    repeat split.
    + now rewrite map_app, HG.
    + rewrite concat_app. cbn [concat].
      rewrite app_nil_r, <- Hdone, <- app_assoc. reflexivity.
    + now rewrite join_single.
    + apply Forall_app. split; [assumption |].
      constructor; [| constructor].
      destruct Hcur as [Hcur | Hcur]; [contradiction | assumption].
    + right. split; [discriminate | right; now exists line].
  - exists G. cbn [chunks current_chunk_lines current_length].
    repeat split; try assumption.
    + now rewrite <- Hdone, <- app_assoc.
    + now rewrite join_app, len_app, join_single, Hlen.
    + right. split; [now destruct (current_chunk_lines st) |].
      apply andb_false_iff in Hif. destruct Hif as [Hfit | Hemp].
      * left. rewrite join_app, len_app, join_single, <- Hlen. lia.
      * apply truthy_false in Hemp. rewrite Hemp. right. now exists line.
Qed.

Lemma chunker_inv_fold (lines done : list str) (st : chunker) :
  chunker_inv chunk_size done st ->
  chunker_inv chunk_size (done ++ lines) (fold_left (chunk_step chunk_size) lines st).
Proof.
  revert done st. induction lines as [| line lines IH]; intros done st Hinv.
  - now rewrite app_nil_r.
  - cbn [fold_left].
    replace (done ++ line :: lines) with ((done ++ [line]) ++ lines)
      by now rewrite <- app_assoc.
    apply IH. now apply chunker_inv_step.
Qed.

Lemma chunk_finish_groups (done : list str) (st : chunker) :
  chunker_inv chunk_size done st ->
  exists G : list (list str),
    chunk_finish st = map join G /\ concat G = done /\ Forall (group_ok chunk_size) G.
Proof.
  intros (G & HG & Hdone & _ & HGok & Hcur).
  unfold chunk_finish. destruct (current_chunk_lines st) as [| l cur] eqn:Ecur.
  - exists G. cbn. rewrite app_nil_r in Hdone. auto.
  - exists (G ++ [l :: cur]). cbn [truthy]. repeat split.
    + now rewrite map_app, HG.
    + rewrite concat_app. cbn [concat]. now rewrite app_nil_r.
    + apply Forall_app. split; [assumption |].
      constructor; [| constructor].
      destruct Hcur as [Hcur | Hcur]; [discriminate | assumption].
Qed.

(** The chunks are the lines of the text, grouped in order. *)
Lemma chunk_content_groups (content : str) :
  exists G : list (list str),
    chunk_content content chunk_size = map join G
    /\ concat G = splitlines_keepends content
    /\ Forall (group_ok chunk_size) G.
Proof.
  unfold chunk_content. destruct content as [| c content].
  - exists []. cbn. auto.
  - cbn [truthy negb].
    apply chunk_finish_groups.
    apply (chunker_inv_fold _ chunker_inv_init).
Qed.

End Groups.

(** ** The chunker: round trip, budget, line boundaries *)

Section ChunkerClaims.

Lemma join_map_join (G : list (list str)) :
  join (map join G) = join (concat G).
Proof.
  induction G as [| g G IH]; [reflexivity |].
  cbn [map concat]. rewrite join_app, <- IH. reflexivity.
Qed.

Lemma chunk_content_join (text : str) (budget : Z) :
  join (chunk_content text budget) = text.
Proof.
  destruct (chunk_content_groups budget text) as (G & HG & Hlines & _).
  now rewrite HG, join_map_join, Hlines, join_splitlines.
Qed.

Lemma chunk_content_single_line (text : str) (budget : Z) :
  single_line text -> chunk_content text budget = [text].
Proof.
  unfold single_line, chunk_content. intros Hline.
  destruct text as [| c text]; [discriminate |].
  cbn [truthy negb]. rewrite Hline. cbn [fold_left].
  unfold chunk_step, chunk_finish. cbn [current_chunk_lines truthy].
  rewrite andb_false_r.
  cbn [current_chunk_lines chunks chunker_init truthy app].
  now rewrite join_single.
Qed.

(** C1.  Joining the chunks of a text, in order, gives the text back,
    whatever the budget (positive or not).  In particular the empty text
    gives no chunk, and a text that is one line, however long, is its own
    single chunk. *)
Theorem chunk_content_round_trip (text : str) (budget : Z) :
  join (chunk_content text budget) = text
  /\ chunk_content [] budget = []
  /\ (single_line text -> budget < len text ->
      chunk_content text budget = [text]).
Proof.
  split; [apply chunk_content_join |].
  split; [reflexivity |].
  intros Hline _. now apply chunk_content_single_line.
Qed.

Lemma chunk_content_round_trip_witness :
  single_line (lit "a line longer than 5")
  /\ 5 < len (lit "a line longer than 5")
  /\ chunk_content (lit "a line longer than 5") 5
     = [lit "a line longer than 5"].
Proof.
  split; [reflexivity |]. split; [reflexivity |].
  apply (chunk_content_round_trip (lit "a line longer than 5") 5);
    reflexivity.
Defined.

Lemma In_concat_group (A : Type) (G : list (list A)) (g : list A) (x : A) :
  In g G -> In x g -> In x (concat G).
Proof. intros Hg Hx. apply in_concat. now exists g. Qed.

(** C2.  A chunk is no longer than the budget, unless it is exactly one
    line of the text, emitted alone. *)
Theorem chunk_content_budget (text : str) (budget : Z) (c : str) :
  In c (chunk_content text budget) ->
  len c <= budget
  \/ (In c (splitlines_keepends text) /\ single_line c).
Proof.
  intros Hc.
  destruct (chunk_content_groups budget text) as (G & HG & Hlines & Hok).
  rewrite HG in Hc. apply in_map_iff in Hc. destruct Hc as (g & <- & Hg).
  rewrite Forall_forall in Hok.
  destruct (Hok g Hg) as (_ & [Hfit | (l & ->)]); [now left | right].
  rewrite join_single.
  assert (Hl : In l (splitlines_keepends text)).
  { rewrite <- Hlines. eapply In_concat_group; [exact Hg | now left]. }
  split; [assumption |].
  pose proof (splitlines_single text) as Hs.
  rewrite Forall_forall in Hs. now apply Hs.
Qed.

Lemma chunk_content_budget_witness :
  In (lit "cdefgh" ++ NL)
     (chunk_content (lit "ab" ++ NL ++ lit "cdefgh" ++ NL ++ lit "i") 4)
  /\ (len (lit "cdefgh" ++ NL) <= 4
      \/ (In (lit "cdefgh" ++ NL)
             (splitlines_keepends
                (lit "ab" ++ NL ++ lit "cdefgh" ++ NL ++ lit "i"))
          /\ single_line (lit "cdefgh" ++ NL))).
Proof.
  assert (H : In (lit "cdefgh" ++ NL)
                 (chunk_content
                    (lit "ab" ++ NL ++ lit "cdefgh" ++ NL ++ lit "i") 4))
    by (vm_compute; tauto).
  split; [exact H |].
  exact (chunk_content_budget _ 4 _ H).
Defined.

(** C9.  A text that is not empty gives at least one chunk; no chunk is
    empty; the chunks are the lines of the text, taken in order and
    grouped without cutting any. *)
Theorem chunk_content_lines (text : str) (budget : Z) :
  text <> [] ->
  chunk_content text budget <> []
  /\ Forall (fun c => c <> []) (chunk_content text budget)
  /\ exists G : list (list str),
       chunk_content text budget = map join G
       /\ concat G = splitlines_keepends text
       /\ Forall (fun g => g <> []) G.
Proof.
  intros Htext.
  destruct (chunk_content_groups budget text) as (G & HG & Hlines & Hok).
  assert (HGne : Forall (fun g : list str => g <> []) G).
  { eapply Forall_impl; [| exact Hok]. now intros g (Hg & _). }
  split; [| split].
  - intros Hnil. apply Htext.
    rewrite <- (chunk_content_join text budget), Hnil. reflexivity.
  - rewrite HG. apply Forall_map. rewrite Forall_forall. intros g Hg.
    rewrite Forall_forall in HGne. specialize (HGne g Hg).
    destruct g as [| l g]; [congruence |].
    assert (Hl : l <> []).
    { pose proof (splitlines_from_nonempty [] text) as Hne.
      rewrite Forall_forall in Hne. apply Hne.
      fold (splitlines_keepends text). rewrite <- Hlines.
      eapply In_concat_group; [exact Hg | now left]. }
    unfold join. cbn [concat]. now destruct l.
  - now exists G.
Qed.

Lemma chunk_content_lines_witness :
  lit "ab" ++ NL ++ lit "cd" <> []
  /\ chunk_content (lit "ab" ++ NL ++ lit "cd") 3 <> [].
Proof.
  split; [discriminate |].
  apply (@chunk_content_lines (lit "ab" ++ NL ++ lit "cd") 3).
  discriminate.
Defined.

End ChunkerClaims.

(** ** A smaller budget never gives fewer chunks *)

Section Monotone.
Variables b1 b2 : Z.
Hypothesis b1_le_b2 : b1 <= b2.

Lemma truthy_snoc (A : Type) (l : list A) (x : A) : truthy (l ++ [x]) = true.
Proof. now destruct l. Qed.

Lemma ahead_init : ahead chunker_init chunker_init.
Proof. unfold ahead. cbn. split; [reflexivity | split; [lia | right; lia]]. Qed.

Lemma ahead_step (st1 st2 : chunker) (line : str) :
  ahead st1 st2 ->
  ahead (chunk_step b1 st1 line) (chunk_step b2 st2 line).
Proof.
  intros (Hsame & Hpos & Hcount).
  pose proof (len_nonneg line) as Hline.
  unfold chunk_step, ahead. rewrite <- Hsame.
  destruct (truthy (current_chunk_lines st1));
    destruct (current_length st1 + len line >? b1) eqn:H1;
    destruct (current_length st2 + len line >? b2) eqn:H2;
    cbn [andb chunks current_chunk_lines current_length];
    rewrite ?length_app, ?truthy_snoc; cbn [length truthy];
    (split; [reflexivity | split; [lia |]]);
    destruct Hcount as [Hlt | (Heq & Hle)]; lia.
Qed.

Lemma ahead_fold (lines : list str) (st1 st2 : chunker) :
  ahead st1 st2 ->
  ahead (fold_left (chunk_step b1) lines st1)
        (fold_left (chunk_step b2) lines st2).
Proof.
  revert st1 st2. induction lines as [| line lines IH]; intros st1 st2 H.
  - exact H.
  - cbn [fold_left]. apply IH. now apply ahead_step.
Qed.

Lemma ahead_finish (st1 st2 : chunker) :
  ahead st1 st2 ->
  (length (chunk_finish st2) <= length (chunk_finish st1))%nat.
Proof.
  intros (Hsame & _ & Hcount). unfold chunk_finish. rewrite <- Hsame.
  destruct (truthy (current_chunk_lines st1));
    rewrite ?length_app; cbn [length]; lia.
Qed.

Lemma chunk_content_count_le (text : str) :
  (length (chunk_content text b2) <= length (chunk_content text b1))%nat.
Proof.
  unfold chunk_content. destruct (negb (truthy text)); [reflexivity |].
  apply ahead_finish, ahead_fold, ahead_init.
Qed.

End Monotone.

(** C6.  For a fixed text and budgets [b1 <= b2] (positive or not), the
    smaller budget gives at least as many chunks as the larger one. *)
Theorem chunk_count_monotone (text : str) (b1 b2 : Z) :
  b1 <= b2 ->
  len (chunk_content text b2) <= len (chunk_content text b1).
Proof.
  intros Hle. unfold len. apply Nat2Z.inj_le.
  now apply chunk_content_count_le.
Qed.

Lemma chunk_count_monotone_witness :
  3 <= 7
  /\ len (chunk_content (lit "ab" ++ NL ++ lit "cd" ++ NL ++ lit "ef") 7)
     <= len (chunk_content (lit "ab" ++ NL ++ lit "cd" ++ NL ++ lit "ef") 3).
Proof.
  split; [lia |].
  apply (@chunk_count_monotone (lit "ab" ++ NL ++ lit "cd" ++ NL ++ lit "ef") 3 7).
  lia.
Defined.

(** ** Language detection *)

Section FileType.

Ltac bool_props :=
  repeat (rewrite ?andb_true_iff, ?andb_false_iff, ?orb_true_iff,
           ?orb_false_iff, ?N.leb_le, ?N.leb_gt, ?N.eqb_eq, ?N.eqb_neq,
           ?N.ltb_lt, ?N.ltb_ge in * ).

Ltac split_ifs :=
  repeat match goal with
         | |- context [if ?b then _ else _] =>
             let E := fresh "E" in destruct b eqn:E
         end.

Lemma lower_app (a b : str) : lower (a ++ b) = lower a ++ lower b.
Proof. apply flat_map_app. Qed.

Lemma lower_char_idem (c : char) : lower (lower_char c) = lower_char c.
Proof.
  unfold lower_char. split_ifs; try reflexivity;
    cbn [lower flat_map app]; unfold lower_char; split_ifs;
    try reflexivity; bool_props; exfalso; lia.
Qed.

Lemma lower_idem (s : str) : lower (lower s) = lower s.
Proof.
  induction s as [| c s IH]; [reflexivity |].
  change (lower (c :: s)) with (lower_char c ++ lower s).
  now rewrite lower_app, lower_char_idem, IH.
Qed.

Lemma lower_upper_char_ascii (c : char) :
  is_ascii c = true -> lower (upper_char c) = lower_char c.
Proof.
  unfold is_ascii. intros Hc. apply N.ltb_lt in Hc.
  unfold upper_char. split_ifs;
    cbn [lower flat_map app]; unfold lower_char; split_ifs;
    bool_props; try (exfalso; lia); try reflexivity.
  all: cbn [app]; f_equal; lia.
Qed.

Lemma lower_upper_ascii (s : str) :
  forallb is_ascii s = true -> lower (upper s) = lower s.
Proof.
  induction s as [| c s IH]; [reflexivity |].
  cbn [forallb]. intros H. apply andb_true_iff in H. destruct H as [Hc Hs].
  change (upper (c :: s)) with (upper_char c ++ upper s).
  change (lower (c :: s)) with (lower_char c ++ lower s).
  now rewrite lower_app, lower_upper_char_ascii, IH.
Qed.

End FileType.

Section FileTypeClaims.

Example case_mappings :
  lower (lit ".PY") = lit ".py"
  /\ upper (lit ".py") = lit ".PY"
  /\ upper [383%N] = lit "S"
  /\ lower [383%N] = [383%N]
  /\ lower [8490%N] = lit "k"
  /\ upper [223%N] = lit "SS".
Proof. repeat split. Qed.

(** C10, as stated, fails: the extension ".c" followed by U+017F (long s)
    is not in the mapping, its upper-cased form ".CS" is. *)
Lemma get_file_type_upper_counterexample :
  get_file_type (lit ".c" ++ [383%N]) = lit "unknown"
  /\ get_file_type (upper (lit ".c" ++ [383%N])) = lit "csharp"
  /\ get_file_type (lit ".c" ++ [383%N])
     <> get_file_type (upper (lit ".c" ++ [383%N])).
Proof. repeat split. discriminate. Qed.

(** C10, amended.  [get_file_type] of an extension and of its lower-cased
    form agree; for an extension of ASCII characters so does that of its
    upper-cased form; the result is the tag of the lower-cased extension
    in the mapping, and 'unknown' when it has none. *)
Theorem get_file_type_case (e : str) :
  get_file_type e = get_file_type (lower e)
  /\ (forallb is_ascii e = true -> get_file_type e = get_file_type (upper e))
  /\ (forall tag, dict_lookup SUPPORTED_EXTENSIONS (lower e) = Some tag ->
                  get_file_type e = tag)
  /\ (dict_lookup SUPPORTED_EXTENSIONS (lower e) = None ->
      get_file_type e = lit "unknown").
Proof.
  unfold get_file_type, dict_get. repeat split.
  - now rewrite lower_idem.
  - intros Hascii. now rewrite lower_upper_ascii.
  - intros tag Htag. now rewrite Htag.
  - intros Hnone. now rewrite Hnone.
Qed.

Lemma get_file_type_case_witness :
  forallb is_ascii (lit ".Py") = true
  /\ get_file_type (lit ".Py") = get_file_type (upper (lit ".Py"))
  /\ dict_lookup SUPPORTED_EXTENSIONS (lower (lit ".Py")) = Some (lit "python")
  /\ get_file_type (lit ".Py") = lit "python".
Proof.
  destruct (get_file_type_case (lit ".Py")) as (_ & Hupper & Htag & _).
  split; [reflexivity |].
  split; [apply Hupper; reflexivity |].
  split; [reflexivity |].
  apply Htag. reflexivity.
Defined.

End FileTypeClaims.

(** ** The inference wrappers *)

Section Wrappers.
Variable E : env.
Variable CONFIG : config.

(** [document_with_ollama] always returns a text: what the handlers make
    of the reply. *)
Lemma document_with_ollama_returns
      (chunk_text file_name file_type part_info : str) (st : state) :
  let req := document_request
               CONFIG (document_prompt chunk_text file_name file_type part_info) in
  exists result,
    document_with_ollama E CONFIG chunk_text file_name file_type part_info st
    = (inl result, after_request st req)
    /\ document_result CONFIG (endpoint E st req) = inl result.
Proof.
  cbv zeta. unfold document_with_ollama, bind, requests_post, lift, after_request.
  destruct (endpoint E st _) as [msg | msg | resp]; cbn.
  - eexists. split; reflexivity.
  - eexists. split; reflexivity.
  - unfold document_result, try_response.
    destruct (status_error resp); [eexists; split; reflexivity |].
    destruct (json_response resp); eexists; split; reflexivity.
Qed.

Lemma call_ollama_api_returns (prompt : str) (st : state) :
  exists result,
    code_analyzer.call_ollama_api E CONFIG prompt st
    = (inl result, after_request st (code_analyzer.api_request CONFIG prompt))
    /\ code_analyzer.api_result
         (endpoint E st (code_analyzer.api_request CONFIG prompt))
       = inl result.
Proof.
  unfold code_analyzer.call_ollama_api, bind, requests_post, lift, after_request.
  destruct (endpoint E st _) as [msg | msg | resp]; cbn.
  - eexists. split; reflexivity.
  - eexists. split; reflexivity.
  - unfold code_analyzer.api_result, try_response.
    destruct (status_error resp); [eexists; split; reflexivity |].
    destruct (json_response resp); eexists; split; reflexivity.
Qed.

Lemma call_ollama_returns (prompt : str) (temperature : Z) (st : state) :
  let req := deep_code_documentation.call_request
               CONFIG prompt (OLLAMA_MODEL CONFIG) temperature 1024 in
  exists result,
    deep_code_documentation.call_ollama E CONFIG prompt temperature st
    = (inl result, after_request st req)
    /\ deep_code_documentation.call_result CONFIG (endpoint E st req)
       = inl result.
Proof.
  cbv zeta.
  unfold deep_code_documentation.call_ollama, bind, requests_post, lift,
    after_request.
  destruct (endpoint E st _) as [msg | msg | resp]; cbn.
  - eexists. split; reflexivity.
  - eexists. split; reflexivity.
  - unfold deep_code_documentation.call_result, try_response.
    destruct (status_error resp); [eexists; split; reflexivity |].
    destruct (json_response resp); eexists; split; reflexivity.
Qed.

End Wrappers.

Section WireFailures.
Variable T : console.
Variable CONFIG : config.







(** When its lines are printed, the log of the handlers changes nothing. *)
Lemma document_log_printed (r : post_result) (st : state) :
  (forall line, stdout T st line = None) ->
  logged.documentation.document_log T CONFIG r st = (inl tt, st).
Proof.
  intros Hquiet. unfold logged.documentation.document_log.
  destruct (try_response r) as [[response |] [result | [msg | msg | msg]]];
    unfold ret, bind, print; rewrite ?Hquiet; reflexivity.
Qed.

End WireFailures.




(** ** The per-file document *)

Section Occurs.

Lemma occurs_in_here (s post : str) : occurs_in s (s ++ post).
Proof. exists [], post. reflexivity. Qed.

Lemma occurs_in_app_l (s t u : str) : occurs_in s t -> occurs_in s (t ++ u).
Proof.
  intros (pre & post & ->). exists pre, (post ++ u).
  now rewrite <- !app_assoc.
Qed.

Lemma occurs_in_app_r (s t u : str) : occurs_in s t -> occurs_in s (u ++ t).
Proof.
  intros (pre & post & ->). exists (u ++ pre), post.
  now rewrite <- !app_assoc.
Qed.

Lemma text_lines_cons (l : str) (ls : list str) :
  text_lines (l :: ls) = (l ++ NL) ++ text_lines ls.
Proof. reflexivity. Qed.

End Occurs.

Section PerFile.
Variable E : env.
Variable CONFIG : config.
Variables base_name file_type : str.

(** The prompt holds the annotation and the text it is given. *)
Lemma document_prompt_carries (chunk_text part_info : str) :
  occurs_in part_info (document_prompt chunk_text base_name file_type part_info)
  /\ occurs_in chunk_text
               (document_prompt chunk_text base_name file_type part_info).
Proof.
  unfold document_prompt. split.
  - do 2 (rewrite text_lines_cons; apply occurs_in_app_r).
    rewrite text_lines_cons. do 2 apply occurs_in_app_l. apply occurs_in_here.
  - do 15 (rewrite text_lines_cons; apply occurs_in_app_r).
    rewrite text_lines_cons. apply occurs_in_app_l. apply occurs_in_here.
Qed.

Lemma document_chunks_sections (n : nat) (rest : list str) :
  forall (i : nat) (doc : str) (st : state),
  exists results : list str,
    length results = length rest
    /\ answered E CONFIG st
                (map (part_request CONFIG base_name file_type n)
                     (numbered_from (S i) rest))
                results
    /\ document_chunks E CONFIG base_name file_type n i rest doc st
       = (inl (doc ++ concat (map numbered_section (numbered_from (S i) results))),
          mk_state (sent st ++ map (part_request CONFIG base_name file_type n)
                                   (numbered_from (S i) rest))
                   (written st)).
Proof.
  induction rest as [| chunk rest' IH]; intros i doc st.
  - exists []. cbn. rewrite !app_nil_r. repeat split; [constructor |].
    now destruct st.
  - destruct (document_with_ollama_returns
                E CONFIG chunk base_name file_type (part_info_of i n) st)
      as (r & Hrun & Hres).
    cbv zeta in Hrun, Hres.
    destruct (IH (S i) (doc ++ part_section i r)
                 (after_request st
                    (document_request
                       CONFIG
                       (document_prompt chunk base_name file_type
                                        (part_info_of i n)))))
      as (rs & Hlen & Hans & Hrest).
    assert (Hinfo : part_info_of i n = part_annotation (S i) n).
    { unfold part_info_of, part_annotation. now rewrite Nat.add_1_r. }
    assert (Hsec : part_section i r = numbered_section (S i, r)).
    { unfold part_section, numbered_section. cbn [fst snd].
      now rewrite Nat.add_1_r. }
    exists (r :: rs). split; [cbn [length]; now rewrite Hlen |].
    unfold numbered_from in *. cbn [length seq combine map].
    unfold part_request at 1 3. cbn [fst snd]. rewrite <- Hinfo.
    split; [now constructor |].
    cbn [document_chunks]. unfold bind at 1. rewrite Hrun, Hrest.
    cbn [concat]. rewrite <- Hsec, <- !app_assoc.
    unfold after_request. cbn [sent written]. rewrite <- app_assoc.
    reflexivity.
Qed.

Lemma part_requests_carry (n k : nat) (chunks : list str) :
  Forall (fun kc : nat * str =>
            occurs_in (part_annotation (fst kc) n)
                      (req_prompt (part_request CONFIG base_name file_type n kc))
            /\ occurs_in (snd kc)
                         (req_prompt (part_request CONFIG base_name file_type n kc)))
         (numbered_from k chunks).
Proof.
  apply Forall_forall. intros [j chunk] _. cbn [fst snd].
  unfold part_request, document_request. cbn [req_prompt fst snd].
  apply document_prompt_carries.
Qed.

End PerFile.

(** C5.  When the content of a file gives [n > 1] chunks, the document is
    the heading followed by [n] sections, one per chunk and in the order of
    the chunks, headed "## Part 1" to "## Part n"; section [k] holds the
    text returned for the request whose prompt carries chunk [k] and the
    annotation "(Part k of n)".  When it gives one chunk, the document is
    the heading followed by the text returned for the whole content, asked
    with an empty annotation, under no part header. *)
Theorem document_content_parts
        (E : env) (CONFIG : config)
        (content relative_path base_name file_type : str) (st : state) :
  ((1 < length (chunk_content content (CHUNK_SIZE_CHARACTERS CONFIG)))%nat ->
   exists results : list str,
     length results
     = length (chunk_content content (CHUNK_SIZE_CHARACTERS CONFIG))
     /\ answered E CONFIG st
                 (map (part_request
                         CONFIG base_name file_type
                         (length (chunk_content content
                                                (CHUNK_SIZE_CHARACTERS CONFIG))))
                      (numbered_from
                         1 (chunk_content content (CHUNK_SIZE_CHARACTERS CONFIG))))
                 results
     /\ document_content E CONFIG content relative_path base_name file_type st
        = (inl (code_documentation.doc_heading relative_path file_type
                ++ concat (map numbered_section (numbered_from 1 results))),
           mk_state
             (sent st
              ++ map (part_request
                        CONFIG base_name file_type
                        (length (chunk_content content
                                               (CHUNK_SIZE_CHARACTERS CONFIG))))
                     (numbered_from
                        1 (chunk_content content (CHUNK_SIZE_CHARACTERS CONFIG))))
             (written st))
     /\ Forall
          (fun kc : nat * str =>
             occurs_in
               (part_annotation
                  (fst kc)
                  (length (chunk_content content (CHUNK_SIZE_CHARACTERS CONFIG))))
               (req_prompt
                  (part_request
                     CONFIG base_name file_type
                     (length (chunk_content content
                                            (CHUNK_SIZE_CHARACTERS CONFIG)))
                     kc))
             /\ occurs_in
                  (snd kc)
                  (req_prompt
                     (part_request
                        CONFIG base_name file_type
                        (length (chunk_content content
                                               (CHUNK_SIZE_CHARACTERS CONFIG)))
                        kc)))
          (numbered_from
             1 (chunk_content content (CHUNK_SIZE_CHARACTERS CONFIG))))
  /\ (length (chunk_content content (CHUNK_SIZE_CHARACTERS CONFIG)) = 1%nat ->
      exists result : str,
        document_result
          CONFIG
          (endpoint E st
             (document_request
                CONFIG (document_prompt content base_name file_type [])))
        = inl result
        /\ document_content E CONFIG content relative_path base_name file_type st
           = (inl (code_documentation.doc_heading relative_path file_type
                   ++ result),
              after_request
                st
                (document_request
                   CONFIG (document_prompt content base_name file_type [])))).
Proof.
  split.
  - intros Hmany.
    destruct (document_chunks_sections
                E CONFIG base_name file_type
                (length (chunk_content content (CHUNK_SIZE_CHARACTERS CONFIG)))
                (chunk_content content (CHUNK_SIZE_CHARACTERS CONFIG))
                0 (code_documentation.doc_heading relative_path file_type) st)
      as (results & Hlen & Hans & Hrun).
    exists results. split; [exact Hlen |]. split; [exact Hans |].
    split; [| apply part_requests_carry].
    unfold document_content.
    replace (1 <? len (chunk_content content (CHUNK_SIZE_CHARACTERS CONFIG)))
      with true by (symmetry; apply Z.ltb_lt; unfold len; lia).
    exact Hrun.
  - intros Hone.
    destruct (document_with_ollama_returns
                E CONFIG content base_name file_type [] st)
      as (result & Hrun & Hres).
    cbv zeta in Hrun, Hres.
    exists result. split; [exact Hres |].
    unfold document_content.
    replace (1 <? len (chunk_content content (CHUNK_SIZE_CHARACTERS CONFIG)))
      with false by (symmetry; apply Z.ltb_ge; unfold len; lia).
    unfold bind. rewrite Hrun. reflexivity.
Qed.

Lemma document_content_parts_witness :
  (1 < length (chunk_content Sample.b_py (CHUNK_SIZE_CHARACTERS Sample.settings)))%nat
  /\ (exists results : list str,
        length results = 2%nat
        /\ fst (document_content Sample.world Sample.settings Sample.b_py
                                 (lit "b.py") (lit "b.py") (lit "python") state_init)
           = inl (code_documentation.doc_heading (lit "b.py") (lit "python")
                  ++ concat (map numbered_section (numbered_from 1 results))))
  /\ length (chunk_content Sample.A_py (CHUNK_SIZE_CHARACTERS Sample.settings)) = 1%nat
  /\ (exists result : str,
        fst (document_content Sample.world Sample.settings Sample.A_py
                              (lit "A.py") (lit "A.py") (lit "python") state_init)
        = inl (code_documentation.doc_heading (lit "A.py") (lit "python") ++ result)).
Proof.
  assert (Hmany : (1 < length (chunk_content
                                 Sample.b_py
                                 (CHUNK_SIZE_CHARACTERS Sample.settings)))%nat)
    by (vm_compute; lia).
  assert (Hone : length (chunk_content
                           Sample.A_py
                           (CHUNK_SIZE_CHARACTERS Sample.settings)) = 1%nat)
    by reflexivity.
  split; [exact Hmany |]. split; [| split; [exact Hone |]].
  - destruct (document_content_parts
                Sample.world Sample.settings Sample.b_py
                (lit "b.py") (lit "b.py") (lit "python") state_init)
      as (Hparts & _).
    destruct (Hparts Hmany) as (results & Hlen & _ & Hrun & _).
    exists results. split; [exact Hlen | now rewrite Hrun].
  - destruct (document_content_parts
                Sample.world Sample.settings Sample.A_py
                (lit "A.py") (lit "A.py") (lit "python") state_init)
      as (_ & Hsingle).
    destruct (Hsingle Hone) as (result & _ & Hrun).
    exists result. now rewrite Hrun.
Defined.

Example document_content_b_py :
  fst (document_content Sample.world Sample.settings Sample.b_py
                        (lit "b.py") (lit "b.py") (lit "python") state_init)
  = inl (lit "# Documentation for `b.py`" ++ NL ++ NL
         ++ lit "**Original File Type:** Python" ++ NL ++ NL
         ++ lit "--- " ++ NL ++ NL
         ++ lit "## Part 1" ++ NL ++ NL
         ++ lit "**Error: Could not connect to Ollama.** Please ensure it's running at http://localhost:11434/api/generate and the model 'llama3' is downloaded."
         ++ NL ++ NL ++ lit "---" ++ NL ++ NL
         ++ lit "## Part 2" ++ NL ++ NL
         ++ lit "**Error from Ollama API:** model not found. Check Ollama logs for details."
         ++ NL ++ NL ++ lit "---" ++ NL ++ NL).
Proof. vm_compute. reflexivity. Qed.

(** ** Deep documentation *)

Section Deep.
Variable E : env.
Variable CONFIG : config.
Variables file_content file_name file_type : str.


End Deep.


(** The sample file "b.py" is longer than the chunk size of the sample
    settings; its deep documentation still takes three requests. *)
Example deep_document_b_py :
  (CHUNK_SIZE_CHARACTERS Sample.settings < len Sample.b_py)
  /\ length (sent (snd (deep_code_documentation.document_content
                          Sample.world Sample.settings Sample.b_py
                          (lit "b.py") (lit "b.py") (lit "python") state_init)))
     = 3%nat.
Proof. split; reflexivity. Qed.

(** ** Sorting by key *)

Section StrOrder.

Lemma str_ltb_asym (a : str) :
  forall b, str_ltb a b = true -> str_ltb b a = false.
Proof.
  induction a as [| x a IH]; intros [| y b]; cbn; try congruence.
  intros H. apply orb_true_iff in H.
  apply orb_false_iff. destruct H as [H | H].
  - apply N.ltb_lt in H. split; [apply N.ltb_ge; lia |].
    apply andb_false_iff. left. apply N.eqb_neq. lia.
  - apply andb_true_iff in H. destruct H as [Hxy Hab].
    apply N.eqb_eq in Hxy. subst y. split; [apply N.ltb_irrefl |].
    rewrite N.eqb_refl. cbn. now apply IH.
Qed.

Lemma str_leb_trans (a : str) :
  forall b c, str_leb a b = true -> str_leb b c = true -> str_leb a c = true.
Proof.
  unfold str_leb. induction a as [| x a IH]; intros [| y b] [| z c]; cbn;
    try congruence.
  rewrite !negb_true_iff, !orb_false_iff, !andb_false_iff.
  rewrite !N.ltb_ge, !N.eqb_neq.
  intros (Hyx & Hba) (Hzy & Hcb). split; [lia |].
  destruct (N.eq_dec z x) as [-> | Hne]; [right | left; assumption].
  assert (y = x) by lia. subst y.
  destruct Hba as [Hba | Hba]; [congruence |].
  destruct Hcb as [Hcb | Hcb]; [congruence |].
  specialize (IH b c). rewrite !negb_true_iff in IH. now apply IH.
Qed.

End StrOrder.

Section SortProps.
Variable A : Type.
Variable key : A -> str.

Lemma sort_insert_perm (x : A) (l : list A) :
  Permutation (sort_insert key x l) (x :: l).
Proof.
  induction l as [| y l IH]; cbn; [reflexivity |].
  destruct (str_ltb (key y) (key x)); [| reflexivity].
  rewrite IH. apply perm_swap.
Qed.


Lemma sort_insert_sorted (x : A) (l : list A) :
  StronglySorted (key_le key) l -> StronglySorted (key_le key) (sort_insert key x l).
Proof.
  induction 1 as [| y l Hsorted IH Hy]; cbn.
  - constructor; constructor.
  - destruct (str_ltb (key y) (key x)) eqn:Hlt.
    + constructor; [exact IH |].
      eapply Permutation_Forall; [symmetry; apply sort_insert_perm |].
      constructor; [| exact Hy].
      unfold key_le, str_leb. now rewrite (str_ltb_asym _ _ Hlt).
    + assert (Hxy : key_le key x y) by (unfold key_le, str_leb; now rewrite Hlt).
      constructor; [now constructor |].
      constructor; [exact Hxy |].
      eapply Forall_impl; [| exact Hy].
      intros z Hyz. unfold key_le in *. eapply str_leb_trans; eassumption.
Qed.

Lemma sort_by_key_sorted (l : list A) : StronglySorted (key_le key) (sort_by_key key l).
Proof.
  induction l as [| x l IH]; cbn; [constructor |].
  now apply sort_insert_sorted.
Qed.

End SortProps.

(** ** The loop over the files and the table of contents *)

Section FileLoop.
Variable E : env.
Variable CONFIG : config.
Variables SOURCE_CODE_DIR DOC_OUTPUT_DIR : str.

Lemma save_markdown_cases (path content : str) (st : state) :
  save_markdown E path content st
  = (inl true, mk_state (sent st) (written st ++ [(path, content)]))
  \/ save_markdown E path content st = (inl false, st)
  \/ exists e, save_markdown E path content st = (inr e, st).
Proof.
  unfold save_markdown, bind, os_makedirs, write_file.
  destruct (makedirs_ok E st (os_path_dirname E path)).
  - destruct (write_ok E st path content); [left | right; left]; reflexivity.
  - right. right. eexists. reflexivity.
Qed.






Lemma generate_table_of_contents_cases (info : list (str * str)) (st st' : state) :
  generate_table_of_contents E info DOC_OUTPUT_DIR st = (inl tt, st') ->
  written st'
  = written st ++ [(toc_path E DOC_OUTPUT_DIR, toc_text E info DOC_OUTPUT_DIR)]
  \/ written st' = written st.
Proof.
  unfold generate_table_of_contents, bind.
  destruct (save_markdown_cases
              (os_path_join E DOC_OUTPUT_DIR (lit "TABLE_OF_CONTENTS.md"))
              (toc_text E info DOC_OUTPUT_DIR) st)
    as [Hsave | [Hsave | (e & Hsave)]]; rewrite Hsave; unfold ret;
    intros Heq; inversion Heq; subst; [left | right]; reflexivity.
Qed.

End FileLoop.

Section IndexExact.
Variable E : env.
Variable CONFIG : config.
Variables SOURCE_CODE_DIR DOC_OUTPUT_DIR : str.





End IndexExact.



(** The run of the sample world: "c.txt" cannot be read and has no entry;
    "A.py" comes before "b.py" although it was scanned after it. *)
Example main_documentation_sample_index :
  In (lit "out/TABLE_OF_CONTENTS.md",
      toc_heading
      ++ lit "* [`A.py`](A_doc.md)" ++ NL
      ++ lit "* [`b.py`](b_doc.md)" ++ NL)
     (written (snd (main_documentation Sample.world Sample.settings
                                       (lit "src") (lit "out") state_init))).
Proof. vm_compute. tauto. Qed.

(** ** The run that finds no file *)

Section ZeroWork.
Variable E : env.
Variable CONFIG : config.
Variables SOURCE_CODE_DIR DOC_OUTPUT_DIR : str.


End ZeroWork.




(** * Further properties *)

(** ** More on the chunker *)

Section ChunkerMore.
Variable chunk_size : Z.

(** While everything read so far and the lines to come fit the budget, no
    chunk is closed. *)
Lemma fold_chunk_step_fits (lines : list str) :
  forall st : chunker,
    current_length st + len (join lines) <= chunk_size ->
    fold_left (chunk_step chunk_size) lines st
    = mk_chunker (chunks st) (current_chunk_lines st ++ lines)
                 (current_length st + len (join lines)).
Proof.
  induction lines as [| line lines IH]; intros st Hfit.
  - cbn. rewrite app_nil_r, Z.add_0_r. now destruct st.
  - cbn [fold_left]. change (join (line :: lines)) with (line ++ join lines) in *.
    rewrite len_app in *. pose proof (len_nonneg (join lines)) as Hrest.
    assert (Hstep : chunk_step chunk_size st line
                    = mk_chunker (chunks st) (current_chunk_lines st ++ [line])
                                 (current_length st + len line)).
    { unfold chunk_step.
      destruct (current_length st + len line >? chunk_size) eqn:Hgt;
        [| reflexivity].
      apply Z.gtb_lt in Hgt. lia. }
    rewrite Hstep, IH; cbn [chunks current_chunk_lines current_length].
    + rewrite <- app_assoc. cbn [app]. f_equal. lia.
    + lia.
Qed.

End ChunkerMore.

(** X1.  A text that is not empty and no longer than the budget is not
    split: it is returned as one chunk. *)
Theorem chunk_content_fits (text : str) (budget : Z) :
  text <> [] -> len text <= budget -> chunk_content text budget = [text].
Proof.
  intros Htext Hfit. unfold chunk_content.
  apply truthy_true in Htext. rewrite Htext. cbn [negb].
  rewrite fold_chunk_step_fits
    by (cbn [chunker_init current_length]; now rewrite join_splitlines).
  unfold chunk_finish. cbn [chunker_init chunks current_chunk_lines app].
  destruct (splitlines_keepends text) as [| l ls] eqn:Hlines.
  - exfalso. apply truthy_true in Htext. apply Htext.
    rewrite <- (join_splitlines text), Hlines. reflexivity.
  - cbn [truthy app]. now rewrite <- Hlines, join_splitlines.
Qed.

Lemma chunk_content_fits_witness :
  lit "ab" ++ NL ++ lit "cd" ++ NL <> []
  /\ len (lit "ab" ++ NL ++ lit "cd" ++ NL) <= 6
  /\ chunk_content (lit "ab" ++ NL ++ lit "cd" ++ NL) 6
     = [lit "ab" ++ NL ++ lit "cd" ++ NL].
Proof.
  split; [discriminate |]. split; [vm_compute; discriminate |].
  apply chunk_content_fits; [discriminate | vm_compute; discriminate].
Defined.

(** ** The packing is greedy *)

Section Tight.
Variable chunk_size : Z.

Lemma adjacent_tight_short (G : list (list str)) :
  (length G <= 1)%nat -> adjacent_tight chunk_size G.
Proof.
  intros Hlen i g g' _ Hg'.
  assert (nth_error G (S i) = None) by (apply nth_error_None; lia).
  congruence.
Qed.

Lemma adjacent_tight_snoc (H : list (list str)) (g : list str) (l : str)
      (rest : list str) :
  adjacent_tight chunk_size (H ++ [g]) ->
  chunk_size < len (join g) + len l ->
  adjacent_tight chunk_size ((H ++ [g]) ++ [l :: rest]).
Proof.
  intros Htight Hbig i a b Ha Hb.
  destruct (Nat.lt_ge_cases (S i) (length (H ++ [g]))) as [Hin | Hout].
  - rewrite nth_error_app1 in Ha, Hb by lia. now apply (Htight i).
  - assert (Hi : S i = length (H ++ [g])).
    { apply Nat.le_antisymm; [| exact Hout].
      assert (Hlt : (S i < length ((H ++ [g]) ++ [l :: rest]))%nat)
        by (apply nth_error_Some; congruence).
      rewrite length_app in Hlt. cbn in Hlt. lia. }
    rewrite nth_error_app2, Hi, Nat.sub_diag in Hb by lia.
    injection Hb as <-.
    rewrite length_app in Hi. cbn in Hi.
    assert (i = length H) by lia. subst i.
    rewrite nth_error_app1 in Ha by (rewrite length_app; cbn; lia).
    rewrite nth_error_app2, Nat.sub_diag in Ha by lia.
    injection Ha as <-. now exists l, rest.
Qed.

Lemma adjacent_tight_grow (H : list (list str)) (l x : str) (rest : list str) :
  adjacent_tight chunk_size (H ++ [l :: rest]) ->
  adjacent_tight chunk_size (H ++ [(l :: rest) ++ [x]]).
Proof.
  intros Htight i a b Ha Hb.
  assert (Hlt : (S i < length (H ++ [(l :: rest) ++ [x]]))%nat)
    by (apply nth_error_Some; congruence).
  rewrite length_app in Hlt. cbn [length] in Hlt.
  destruct (Nat.lt_ge_cases (S i) (length H)) as [Hin | Hout].
  - rewrite nth_error_app1 in Ha, Hb by lia.
    apply (Htight i); now rewrite nth_error_app1 by lia.
  - assert (Hi : S i = length H) by lia.
    rewrite nth_error_app1 in Ha by lia.
    rewrite nth_error_app2, Hi, Nat.sub_diag in Hb by lia.
    injection Hb as <-.
    destruct (Htight i a (l :: rest)) as (l0 & rest0 & Heq & Hbig).
    + now rewrite nth_error_app1 by lia.
    + now rewrite nth_error_app2, Hi, Nat.sub_diag by lia.
    + injection Heq as <- <-. exists l, (rest ++ [x]). split; [reflexivity | exact Hbig].
Qed.

Lemma tight_inv_init : tight_inv chunk_size [] chunker_init.
Proof.
  exists []. cbn. repeat split; auto.
  apply adjacent_tight_short. cbn. lia.
Qed.

Lemma tight_inv_step (done : list str) (st : chunker) (line : str) :
  tight_inv chunk_size done st ->
  tight_inv chunk_size (done ++ [line]) (chunk_step chunk_size st line).
Proof.
  intros (G & HG & Hdone & Hlen & Hempty & Htight).
  unfold chunk_step, tight_inv, all_groups in *.
  destruct (current_chunk_lines st) as [| l cur].
  - rewrite andb_false_r. exists G.
    cbn [chunks current_chunk_lines current_length app truthy].
    repeat split; try assumption.
    + now rewrite <- Hdone, <- app_assoc.
    + rewrite Hlen. now rewrite join_single.
    + discriminate.
    + rewrite (Hempty eq_refl). apply adjacent_tight_short. cbn. lia.
  - cbn [truthy] in *. rewrite andb_true_r.
    destruct (current_length st + len line >? chunk_size) eqn:Hgt.
    + apply Z.gtb_lt in Hgt.
      exists (G ++ [l :: cur]).
      cbn [chunks current_chunk_lines current_length truthy].
      repeat split.
      * now rewrite map_app, HG.
      * rewrite concat_app. cbn [concat].
        rewrite app_nil_r, <- Hdone, <- app_assoc. reflexivity.
      * now rewrite join_single.
      * discriminate.
      * apply adjacent_tight_snoc; [exact Htight | lia].
    + exists G.
      cbn [chunks current_chunk_lines current_length].
      repeat split; try assumption.
      * now rewrite <- Hdone, <- app_assoc.
      * now rewrite join_app, len_app, join_single, Hlen.
      * discriminate.
      * cbn [app truthy]. now apply (adjacent_tight_grow G l line cur).
Qed.

Lemma tight_inv_fold (lines done : list str) (st : chunker) :
  tight_inv chunk_size done st ->
  tight_inv chunk_size (done ++ lines) (fold_left (chunk_step chunk_size) lines st).
Proof.
  revert done st. induction lines as [| line lines IH]; intros done st Hinv.
  - now rewrite app_nil_r.
  - cbn [fold_left].
    replace (done ++ line :: lines) with ((done ++ [line]) ++ lines)
      by now rewrite <- app_assoc.
    apply IH. now apply tight_inv_step.
Qed.

Lemma chunk_finish_tight (done : list str) (st : chunker) :
  tight_inv chunk_size done st ->
  exists G : list (list str),
    chunk_finish st = map join G /\ concat G = done
    /\ adjacent_tight chunk_size G.
Proof.
  intros (G & HG & Hdone & _ & _ & Htight).
  unfold chunk_finish, all_groups in *.
  destruct (current_chunk_lines st) as [| l cur]; cbn [truthy] in *.
  - exists G. rewrite !app_nil_r in *. auto.
  - exists (G ++ [l :: cur]). repeat split.
    + now rewrite map_app, HG.
    + rewrite concat_app. cbn [concat]. now rewrite app_nil_r.
    + exact Htight.
Qed.

End Tight.

(** X2.  The packing is greedy: the chunks are the lines of the text
    grouped in order, and for any two neighbouring chunks the first line of
    the second one did not fit into the first one (their lengths together
    exceed the budget). *)
Theorem chunk_content_greedy (text : str) (budget : Z) :
  exists G : list (list str),
    chunk_content text budget = map join G
    /\ concat G = splitlines_keepends text
    /\ forall (i : nat) (g g' : list str),
         nth_error G i = Some g -> nth_error G (S i) = Some g' ->
         exists l rest, g' = l :: rest /\ budget < len (join g) + len l.
Proof.
  unfold chunk_content. destruct text as [| c text].
  - exists []. repeat split. intros [| i] g g' Hg; discriminate.
  - cbn [truthy negb].
    destruct (chunk_finish_tight
                (tight_inv_fold (splitlines_keepends (c :: text))
                                (tight_inv_init budget)))
      as (G & HG & Hlines & Htight).
    exists G. repeat split; assumption.
Qed.

Example chunk_content_greedy_lines :
  chunk_content (lit "a" ++ NL ++ lit "b" ++ NL ++ lit "cd" ++ NL) 4
  = map join [[lit "a" ++ NL; lit "b" ++ NL]; [lit "cd" ++ NL]]
  /\ 4 < len (join [lit "a" ++ NL; lit "b" ++ NL]) + len (lit "cd" ++ NL).
Proof. split; reflexivity. Qed.

(** X3.  There are never more chunks than lines. *)
Theorem chunk_count_le_lines (text : str) (budget : Z) :
  len (chunk_content text budget) <= len (splitlines_keepends text).
Proof.
  destruct (chunk_content_groups budget text) as (G & HG & Hlines & Hok).
  rewrite HG, <- Hlines. unfold len. rewrite length_map. apply Nat2Z.inj_le.
  clear HG Hlines. induction Hok as [| g G (Hg & _) _ IH]; [reflexivity |].
  cbn [concat length]. rewrite length_app.
  destruct g; [congruence | cbn [length]; lia].
Qed.

(** ** The text of a successful call *)

Section Strip.

Lemma lstrip_split (s : str) :
  exists ws, s = ws ++ lstrip s /\ forallb isspace ws = true.
Proof.
  induction s as [| c s (ws & Hs & Hws)]; [now exists [] |].
  cbn [lstrip]. destruct (isspace c) eqn:Hc.
  - exists (c :: ws). cbn [app forallb]. rewrite Hc, Hws. split; [congruence | reflexivity].
  - now exists [].
Qed.

Lemma lstrip_head (s : str) (c : char) (rest : str) :
  lstrip s = c :: rest -> isspace c = false.
Proof.
  induction s as [| d s IH]; [discriminate |].
  cbn [lstrip]. destruct (isspace d) eqn:Hd; [exact IH |].
  intros Heq. injection Heq as <- _. exact Hd.
Qed.

Lemma forallb_rev (A : Type) (f : A -> bool) (l : list A) :
  forallb f (rev l) = forallb f l.
Proof.
  induction l as [| x l IH]; [reflexivity |].
  cbn [rev forallb]. rewrite forallb_app, IH. cbn. rewrite andb_true_r.
  apply andb_comm.
Qed.

(** [strip] removes a run of whitespace at each end and nothing else. *)
Lemma strip_split (s : str) :
  exists before after,
    s = before ++ strip s ++ after
    /\ forallb isspace before = true /\ forallb isspace after = true.
Proof.
  destruct (lstrip_split s) as (before & Hs & Hbefore).
  destruct (lstrip_split (rev (lstrip s))) as (ws & Hrev & Hws).
  exists before, (rev ws). unfold strip. repeat split.
  - rewrite <- rev_app_distr, <- Hrev, rev_involutive. exact Hs.
  - exact Hbefore.
  - now rewrite forallb_rev.
Qed.

Lemma strip_first (s : str) (c : char) (rest : str) :
  strip s = c :: rest -> isspace c = false.
Proof.
  intros Hstrip.
  destruct (lstrip_split (rev (lstrip s))) as (ws & Hrev & _).
  apply (f_equal (@rev char)) in Hrev.
  rewrite rev_involutive, rev_app_distr in Hrev.
  fold (strip s) in Hrev. rewrite Hstrip in Hrev. cbn [app] in Hrev.
  now apply (lstrip_head s Hrev).
Qed.

Lemma strip_last (s : str) (c : char) (front : str) :
  strip s = front ++ [c] -> isspace c = false.
Proof.
  unfold strip. intros Hstrip.
  apply (f_equal (@rev char)) in Hstrip.
  rewrite rev_involutive, rev_app_distr in Hstrip. cbn [rev app] in Hstrip.
  now apply (lstrip_head _ Hstrip).
Qed.

Lemma strip_blank (s : str) : forallb isspace s = true -> strip s = [].
Proof.
  intros Hblank. unfold strip.
  assert (Hl : lstrip s = []).
  { induction s as [| c s IH]; [reflexivity |].
    cbn [forallb] in Hblank. apply andb_true_iff in Hblank.
    destruct Hblank as [Hc Hs]. cbn [lstrip]. rewrite Hc. now apply IH. }
  now rewrite Hl.
Qed.

End Strip.

(** X4.  When the endpoint replies without an error status and its JSON
    holds the string [answer] under 'response', [document_with_ollama]
    returns [answer] without the whitespace at its two ends, and nothing
    else is removed: the text returned neither starts nor ends with a
    whitespace character, and it is empty when [answer] is blank. *)
Theorem document_with_ollama_strips
        (E : env) (CONFIG : config) (st : state)
        (chunk_text file_name file_type part_info body answer : str) :
  endpoint E st
           (document_request
              CONFIG (document_prompt chunk_text file_name file_type part_info))
  = PostReturns (mk_response body None (inl answer)) ->
  exists result before after,
    fst (document_with_ollama E CONFIG chunk_text file_name file_type part_info st)
    = inl result
    /\ answer = before ++ result ++ after
    /\ forallb isspace before = true
    /\ forallb isspace after = true
    /\ (forall c rest, result = c :: rest -> isspace c = false)
    /\ (forall c front, result = front ++ [c] -> isspace c = false)
    /\ (forallb isspace answer = true -> result = []).
Proof.
  intros Hreply.
  destruct (strip_split answer) as (before & after & Hsplit & Hb & Ha).
  exists (strip answer), before, after.
  split.
  - unfold document_with_ollama, bind, requests_post, lift.
    rewrite Hreply. reflexivity.
  - split; [exact Hsplit |]. split; [exact Hb |]. split; [exact Ha |].
    split; [intros c rest; apply strip_first |].
    split; [intros c front; apply strip_last | apply strip_blank].
Qed.

Lemma document_with_ollama_strips_witness :
  endpoint Sample.world
           (mk_state [document_request Sample.settings [];
                      document_request Sample.settings [];
                      document_request Sample.settings []] [])
           (document_request
              Sample.settings
              (document_prompt (lit "x = 1") (lit "A.py") (lit "python") []))
  = PostReturns (mk_response (lit "{...}") None (inl (lit "  Documented. " ++ NL)))
  /\ exists result before after,
      fst (document_with_ollama
             Sample.world Sample.settings
             (lit "x = 1") (lit "A.py") (lit "python") []
             (mk_state [document_request Sample.settings [];
                        document_request Sample.settings [];
                        document_request Sample.settings []] []))
      = inl result
      /\ lit "  Documented. " ++ NL = before ++ result ++ after.
Proof.
  split; [reflexivity |].
  destruct (@document_with_ollama_strips
              Sample.world Sample.settings
              (mk_state [document_request Sample.settings [];
                         document_request Sample.settings [];
                         document_request Sample.settings []] [])
              (lit "x = 1") (lit "A.py") (lit "python") []
              (lit "{...}") (lit "  Documented. " ++ NL) eq_refl)
    as (result & before & after & Hrun & Hsplit & _).
  exists result, before, after. split; assumption.
Defined.

(** ** How a run stops, and what it costs *)

Section RunShape.
Variable E : env.
Variable CONFIG : config.
Variables SOURCE_CODE_DIR DOC_OUTPUT_DIR : str.

Lemma save_markdown_stop (path content : str) (st st' : state) (e : stop) :
  save_markdown E path content st = (inr e, st') ->
  e = Uncaught (lit "OSError") /\ st' = st.
Proof.
  unfold save_markdown, bind, os_makedirs, write_file.
  destruct (makedirs_ok E st (os_path_dirname E path)).
  - destruct (write_ok E st path content); discriminate.
  - intros Heq. inversion Heq. split; reflexivity.
Qed.

Lemma save_markdown_sent (path content : str) (st : state) :
  sent (snd (save_markdown E path content st)) = sent st.
Proof.
  destruct (save_markdown_cases E path content st)
    as [Hsave | [Hsave | (e & Hsave)]]; now rewrite Hsave.
Qed.

Lemma numbered_from_length (A : Type) (k : nat) (l : list A) :
  length (numbered_from k l) = length l.
Proof.
  unfold numbered_from. rewrite length_combine, length_seq. apply Nat.min_id.
Qed.

(** Documenting a content costs one request per chunk, and one request
    when there is no chunk. *)
Lemma document_content_count
      (content relative_path base_name file_type : str) (st : state) :
  exists (doc : str) (st' : state),
    document_content E CONFIG content relative_path base_name file_type st
    = (inl doc, st')
    /\ written st' = written st
    /\ length (sent st') = (length (sent st) + requests_for CONFIG content)%nat.
Proof.
  unfold document_content, requests_for.
  destruct (1 <? len (chunk_content content (CHUNK_SIZE_CHARACTERS CONFIG)))
    eqn:Hmany.
  - apply Z.ltb_lt in Hmany. unfold len in Hmany.
    destruct (document_chunks_sections
                E CONFIG base_name file_type
                (length (chunk_content content (CHUNK_SIZE_CHARACTERS CONFIG)))
                (chunk_content content (CHUNK_SIZE_CHARACTERS CONFIG))
                0 (code_documentation.doc_heading relative_path file_type) st)
      as (results & _ & _ & Hrun).
    rewrite Hrun. eexists. eexists. split; [reflexivity |].
    cbn [sent written]. split; [reflexivity |].
    rewrite length_app, length_map, numbered_from_length. lia.
  - apply Z.ltb_ge in Hmany. unfold len in Hmany.
    destruct (document_with_ollama_returns
                E CONFIG content base_name file_type [] st)
      as (result & Hrun & _).
    cbv zeta in Hrun. unfold bind. rewrite Hrun.
    eexists. eexists. split; [reflexivity |].
    unfold after_request. cbn [sent written]. split; [reflexivity |].
    rewrite length_app. cbn [length]. lia.
Qed.

Lemma document_file_shape
      (info : list (str * str)) (file_path : str) (st : state) :
  match document_file E CONFIG SOURCE_CODE_DIR DOC_OUTPUT_DIR info file_path st with
  | (inl _, st') =>
      length (sent st')
      = (length (sent st) + requests_of_file E CONFIG file_path)%nat
  | (inr e, _) => e = Uncaught (lit "OSError")
  end.
Proof.
  unfold document_file, requests_of_file.
  destruct (os_path_splitext E (os_path_basename E file_path)) as [stem ext].
  destruct (read_file_content E file_path) as [content |].
  - destruct (document_content_count
                content (os_path_relpath E file_path SOURCE_CODE_DIR)
                (os_path_basename E file_path) (get_file_type ext) st)
      as (doc & st1 & Hdoc & _ & Hsent).
    unfold bind at 1. rewrite Hdoc. unfold bind.
    pose proof (save_markdown_sent
                  (output_path_of E file_path SOURCE_CODE_DIR DOC_OUTPUT_DIR)
                  doc st1) as Hkeep.
    destruct (save_markdown
                E (output_path_of E file_path SOURCE_CODE_DIR DOC_OUTPUT_DIR)
                doc st1) as [[saved | e] st2] eqn:Hsave.
    + unfold ret. cbn [snd] in Hkeep. now rewrite Hkeep.
    + now apply save_markdown_stop in Hsave.
  - unfold ret. lia.
Qed.

Lemma document_files_shape (file_paths : list str) :
  forall (info : list (str * str)) (st : state),
    match document_files E CONFIG SOURCE_CODE_DIR DOC_OUTPUT_DIR file_paths info st
    with
    | (inl _, st') =>
        length (sent st')
        = (length (sent st)
           + list_sum (map (requests_of_file E CONFIG) file_paths))%nat
    | (inr e, _) => e = Uncaught (lit "OSError")
    end.
Proof.
  induction file_paths as [| file_path rest IH]; intros info st.
  - cbn. lia.
  - cbn [document_files map list_sum fold_right]. unfold bind.
    pose proof (document_file_shape info file_path st) as Hone.
    destruct (document_file E CONFIG SOURCE_CODE_DIR DOC_OUTPUT_DIR info
                            file_path st) as [[info1 | e] st1];
      cbv beta iota; [| exact Hone].
    specialize (IH info1 st1).
    destruct (document_files E CONFIG SOURCE_CODE_DIR DOC_OUTPUT_DIR rest info1 st1)
      as [[info2 | e] st2]; cbv beta iota in *;
      [unfold list_sum in *; lia | exact IH].
Qed.

Lemma generate_table_of_contents_shape (info : list (str * str)) (st : state) :
  match generate_table_of_contents E info DOC_OUTPUT_DIR st with
  | (inl _, st') => sent st' = sent st
  | (inr e, _) => e = Uncaught (lit "OSError")
  end.
Proof.
  unfold generate_table_of_contents, bind.
  pose proof (save_markdown_sent
                (os_path_join E DOC_OUTPUT_DIR (lit "TABLE_OF_CONTENTS.md"))
                (toc_text E info DOC_OUTPUT_DIR) st) as Hkeep.
  destruct (save_markdown
              E (os_path_join E DOC_OUTPUT_DIR (lit "TABLE_OF_CONTENTS.md"))
              (toc_text E info DOC_OUTPUT_DIR) st) as [[saved | e] st1] eqn:Hsave.
  - exact Hkeep.
  - now apply save_markdown_stop in Hsave.
Qed.

End RunShape.

(** ** The log, and how a run stops *)

Lemma bind_inr_inv (A B : Type) (m : M A) (k : A -> M B)
      (st st' : state) (e : stop) :
  bind m k st = (inr e, st') ->
  m st = (inr e, st')
  \/ exists a st1, m st = (inl a, st1) /\ k a st1 = (inr e, st').
Proof.
  unfold bind. destruct (m st) as [[a | e1] st1]; intros Hrun.
  - right. now exists a, st1.
  - left. inversion Hrun. reflexivity.
Qed.

Lemma os_makedirs_inl (E : env) (path : str) (st st1 : state) (u : unit) :
  os_makedirs E path st = (inl u, st1) ->
  st1 = st /\ makedirs_ok E st path = true.
Proof.
  unfold os_makedirs. destruct (makedirs_ok E st path); intros Heq;
    inversion Heq. split; reflexivity.
Qed.

Section Log.
Variable T : console.

Lemma logs_only_ret (A : Type) (a : A) : logs_only T (ret a) a.
Proof. intros st. now left. Qed.

Lemma logs_only_print (line : str) : logs_only T (print T line) tt.
Proof.
  intros st. unfold print. destruct (stdout T st line) as [what |] eqn:Hout.
  - right. eexists. split; [reflexivity |]. now exists st, line, what.
  - now left.
Qed.

Lemma logs_only_bind (A B : Type) (m : M A) (k : A -> M B) (a : A) (b : B) :
  logs_only T m a -> logs_only T (k a) b -> logs_only T (bind m k) b.
Proof.
  intros Hm Hk st. unfold bind.
  destruct (Hm st) as [-> | (e & -> & He)].
  - apply Hk.
  - right. now exists e.
Qed.

Lemma logs_only_inl (A : Type) (m : M A) (a a' : A) (st st1 : state) :
  logs_only T m a -> m st = (inl a', st1) -> a' = a /\ st1 = st.
Proof.
  intros Hm Hrun. destruct (Hm st) as [Heq | (e & Heq & _)];
    rewrite Heq in Hrun; inversion Hrun. split; reflexivity.
Qed.

Lemma logs_only_inr (A : Type) (m : M A) (a : A) (st st' : state) (e : stop) :
  logs_only T m a -> m st = (inr e, st') -> st' = st /\ print_raised T e.
Proof.
  intros Hm Hrun. destruct (Hm st) as [Heq | (e' & Heq & He)];
    rewrite Heq in Hrun; inversion Hrun; subst. now split.
Qed.

Lemma logs_only_contained (A : Type) (m : M A) (a : A) :
  logs_only T m a -> contained T m.
Proof.
  intros Hm st e st' Hrun. right. eapply logs_only_inr; eassumption.
Qed.

Lemma print_inl (line : str) (st st1 : state) (u : unit) :
  print T line st = (inl u, st1) -> st1 = st.
Proof.
  intros Hrun. eapply logs_only_inl in Hrun; [| apply logs_only_print].
  now destruct Hrun.
Qed.

Lemma contained_ret (A : Type) (a : A) : contained T (ret a).
Proof. intros st e st' Hrun. discriminate. Qed.

Lemma contained_print (line : str) : contained T (print T line).
Proof. eapply logs_only_contained. apply logs_only_print. Qed.

Lemma contained_try_print (line : str) : contained T (try_print T line).
Proof. intros st e st' Hrun. discriminate. Qed.

Lemma contained_bind (A B : Type) (m : M A) (k : A -> M B) :
  contained T m -> (forall a, contained T (k a)) -> contained T (bind m k).
Proof.
  intros Hm Hk st e st' Hrun. apply bind_inr_inv in Hrun.
  destruct Hrun as [Hrun | (a & st1 & _ & Hrun)].
  - eapply Hm. exact Hrun.
  - eapply Hk. exact Hrun.
Qed.

Lemma contained_current_state : contained T current_state.
Proof. intros st e st' Hrun. discriminate. Qed.

Lemma contained_requests_post (E : env) (req : request) :
  contained T (requests_post E req).
Proof. intros st e st' Hrun. discriminate. Qed.

Lemma contained_os_makedirs (E : env) (path : str) :
  contained T (os_makedirs E path).
Proof.
  intros st e st'. unfold os_makedirs.
  destruct (makedirs_ok E st path); intros Hrun; inversion Hrun. now left.
Qed.

Lemma contained_write_file (E : env) (path content : str) :
  contained T (write_file E path content).
Proof.
  intros st e st'. unfold write_file.
  destruct (write_ok E st path content); discriminate.
Qed.

(** The handlers of the wrappers return a text in every case: the branch
    where [response] would be unbound is never taken. *)
Lemma document_result_total (CONFIG : config) (r : post_result) :
  exists result, document_result CONFIG r = inl result.
Proof.
  unfold document_result, try_response.
  destruct r as [msg | msg | resp]; cbn; [eexists; reflexivity .. |].
  destruct (status_error resp); [eexists; reflexivity |].
  destruct (json_response resp); eexists; reflexivity.
Qed.

Lemma api_result_total (r : post_result) :
  exists result, code_analyzer.api_result r = inl result.
Proof.
  unfold code_analyzer.api_result, try_response.
  destruct r as [msg | msg | resp]; cbn; [eexists; reflexivity .. |].
  destruct (status_error resp); [eexists; reflexivity |].
  destruct (json_response resp); eexists; reflexivity.
Qed.

Lemma contained_document_result (CONFIG : config) (r : post_result) :
  contained T (lift (document_result CONFIG r)).
Proof.
  destruct (document_result_total CONFIG r) as (result & ->).
  intros st e st' Hrun. discriminate.
Qed.

Lemma contained_api_result (r : post_result) :
  contained T (lift (code_analyzer.api_result r)).
Proof.
  destruct (api_result_total r) as (result & ->).
  intros st e st' Hrun. discriminate.
Qed.

End Log.

Ltac contained_step :=
  match goal with
  | |- contained _ (bind _ _) => apply contained_bind; [| intros ?]
  | |- contained _ (ret _) => apply contained_ret
  | |- contained _ (print _ _) => apply contained_print
  | |- contained _ (try_print _ _) => apply contained_try_print
  | |- contained _ (os_makedirs _ _) => apply contained_os_makedirs
  | |- contained _ (write_file _ _ _) => apply contained_write_file
  | |- contained _ (requests_post _ _) => apply contained_requests_post
  | |- contained _ (lift (document_result _ _)) => apply contained_document_result
  | |- contained _ (lift (code_analyzer.api_result _)) => apply contained_api_result
  | |- contained _ current_state => apply contained_current_state
  | |- contained _ (match ?x with _ => _ end) => destruct x
  end.

Section LoggedDocumentation.
Variable E : env.
Variable T : console.
Variable CONFIG : config.

Lemma logged_scan_directory (root_dir : str) :
  logs_only T (logged.documentation.scan_directory E T root_dir)
            (scan_directory E root_dir).
Proof.
  unfold logged.documentation.scan_directory.
  eapply logs_only_bind; [apply logs_only_print |].
  eapply logs_only_bind; [apply logs_only_print |].
  apply logs_only_ret.
Qed.

Lemma contained_read_file_content (file_path : str) :
  contained T (logged.documentation.read_file_content E T file_path).
Proof.
  unfold logged.documentation.read_file_content. repeat contained_step.
Qed.

Lemma contained_document_log (r : post_result) :
  contained T (logged.documentation.document_log T CONFIG r).
Proof.
  unfold logged.documentation.document_log. repeat contained_step.
Qed.

Lemma contained_document_with_ollama
      (chunk_text file_name file_type part_info : str) :
  contained T (logged.documentation.document_with_ollama
                 E T CONFIG chunk_text file_name file_type part_info).
Proof.
  unfold logged.documentation.document_with_ollama.
  contained_step; [contained_step |].
  contained_step; [apply contained_document_log |]. contained_step.
Qed.

Lemma contained_save_markdown (output_path markdown_content : str) :
  contained T (logged.documentation.save_markdown
                 E T output_path markdown_content).
Proof.
  unfold logged.documentation.save_markdown. repeat contained_step.
Qed.

Lemma contained_generate_table_of_contents
      (documented_files_info : list (str * str)) (output_dir : str) :
  contained T (logged.documentation.generate_table_of_contents
                 E T documented_files_info output_dir).
Proof.
  unfold logged.documentation.generate_table_of_contents.
  contained_step; [apply contained_save_markdown | contained_step].
Qed.

Lemma contained_document_chunks (base_name file_type : str) (n : nat)
      (rest : list str) :
  forall (i : nat) (full_markdown_doc : str),
    contained T (logged.documentation.document_chunks
                   E T CONFIG base_name file_type n i rest full_markdown_doc).
Proof.
  induction rest as [| chunk rest IH]; intros i full_markdown_doc;
    cbn [logged.documentation.document_chunks].
  - contained_step.
  - contained_step; [contained_step |].
    contained_step; [apply contained_document_with_ollama | apply IH].
Qed.

Lemma contained_document_content
      (content relative_path_of_code_file base_name file_type : str) :
  contained T (logged.documentation.document_content
                 E T CONFIG content relative_path_of_code_file base_name
                 file_type).
Proof.
  unfold logged.documentation.document_content.
  destruct (1 <? len (chunk_content content (CHUNK_SIZE_CHARACTERS CONFIG))).
  - contained_step; [contained_step | apply contained_document_chunks].
  - contained_step; [contained_step |].
    contained_step; [apply contained_document_with_ollama | contained_step].
Qed.

Lemma contained_document_file (SOURCE_CODE_DIR DOC_OUTPUT_DIR : str)
      (documented_files_info : list (str * str)) (file_path : str) :
  contained T (logged.documentation.document_file
                 E T CONFIG SOURCE_CODE_DIR DOC_OUTPUT_DIR
                 documented_files_info file_path).
Proof.
  unfold logged.documentation.document_file.
  destruct (os_path_splitext E (os_path_basename E file_path)) as [stem ext].
  contained_step; [contained_step |].
  contained_step; [apply contained_read_file_content |].
  destruct a0 as [content |]; [| contained_step].
  contained_step; [apply contained_document_content |].
  contained_step; [apply contained_save_markdown | contained_step].
Qed.

Lemma contained_document_files (SOURCE_CODE_DIR DOC_OUTPUT_DIR : str)
      (file_paths : list str) :
  forall documented_files_info,
    contained T (logged.documentation.document_files
                   E T CONFIG SOURCE_CODE_DIR DOC_OUTPUT_DIR file_paths
                   documented_files_info).
Proof.
  induction file_paths as [| file_path rest IH]; intros documented_files_info;
    cbn [logged.documentation.document_files].
  - contained_step.
  - contained_step; [apply contained_document_file | apply IH].
Qed.

End LoggedDocumentation.

(** X5.  A run of [main_documentation], with everything it prints, that
    does not reach its end stops in one of four ways: exit status 1 when
    the source path is not a directory, exit status 0 when no supported
    file is found (in both cases nothing was posted and nothing written),
    the error of an [os.makedirs] that failed, or the exception of a
    [print] that raised.  No other exit status occurs, and nothing that
    the endpoint, the reads or the writes raise escapes. *)
Theorem main_documentation_stops
        (E : env) (T : console) (CONFIG : config)
        (source_code_path doc_output_path : str) (st st' : state) (e : stop) :
  logged.documentation.main_documentation
    E T CONFIG source_code_path doc_output_path st
  = (inr e, st') ->
  (e = SysExit 1 /\ os_path_isdir E source_code_path = false /\ st' = st)
  \/ (e = SysExit 0 /\ os_path_isdir E source_code_path = true
      /\ scan_directory E source_code_path = [] /\ st' = st)
  \/ e = Uncaught (lit "OSError")
  \/ print_raised T e.
Proof.
  unfold logged.documentation.main_documentation.
  destruct (os_path_isdir E source_code_path); cbn [negb]; intros Hrun.
  - apply bind_inr_inv in Hrun.
    destruct Hrun as [Hrun | (u & st1 & Hdir & Hrun)].
    { apply (contained_os_makedirs T) in Hrun. tauto. }
    apply os_makedirs_inl in Hdir. destruct Hdir as (-> & _).
    apply bind_inr_inv in Hrun.
    destruct Hrun as [Hrun | (u1 & st1 & Hline & Hrun)].
    { apply (contained_print T) in Hrun. tauto. }
    apply print_inl in Hline. subst st1.
    apply bind_inr_inv in Hrun.
    destruct Hrun as [Hrun | (file_paths & st1 & Hscan & Hrun)].
    { eapply logs_only_inr in Hrun; [| apply logged_scan_directory]. tauto. }
    eapply logs_only_inl in Hscan; [| apply logged_scan_directory].
    destruct Hscan as (-> & ->).
    destruct (scan_directory E source_code_path) as [| p ps] eqn:Hfiles;
      cbn [truthy negb] in Hrun.
    + apply bind_inr_inv in Hrun.
      destruct Hrun as [Hrun | (u2 & st1 & Hline & Hrun)].
      { apply (contained_print T) in Hrun. tauto. }
      apply print_inl in Hline. subst st1.
      unfold sys_exit in Hrun. inversion Hrun; subst. right. left. auto.
    + assert (Hrest : contained
                        T
                        (documented_files_info <-
                           logged.documentation.document_files
                             E T CONFIG source_code_path doc_output_path
                             (p :: ps) [] ;;
                         _ <- logged.documentation.generate_table_of_contents
                                E T documented_files_info doc_output_path ;;
                         _ <- print T (NL ++ lit "Documentation generation complete!") ;;
                         print T (lit "Check the '" ++ doc_output_path
                                  ++ lit "' directory for your generated Markdown files and the TABLE_OF_CONTENTS.md."))).
      { contained_step; [apply contained_document_files |].
        contained_step; [apply contained_generate_table_of_contents |].
        contained_step; contained_step. }
      apply Hrest in Hrun. tauto.
  - apply bind_inr_inv in Hrun.
    destruct Hrun as [Hrun | (u & st1 & Hline & Hrun)].
    { apply (contained_print T) in Hrun. tauto. }
    apply print_inl in Hline. subst st1.
    unfold sys_exit in Hrun. inversion Hrun; subst. left. auto.
Qed.

Lemma main_documentation_stops_witness :
  logged.documentation.main_documentation
    Sample.world Sample.quiet Sample.settings (lit "nowhere") (lit "out")
    state_init
  = (inr (SysExit 1), state_init)
  /\ os_path_isdir Sample.world (lit "nowhere") = false.
Proof.
  split; [reflexivity |].
  destruct (@main_documentation_stops
              Sample.world Sample.quiet Sample.settings (lit "nowhere") (lit "out")
              state_init state_init (SysExit 1) eq_refl)
    as [(_ & Hdir & _) | [(Hexit & _) | [Hexit | (s & line & what & Hout & _)]]];
    [exact Hdir | discriminate | discriminate | discriminate].
Defined.

(** X6.  A run of [main_documentation] that reaches its end has posted one
    request per chunk of every scanned file that could be read, one
    request for a readable file without chunks (an empty file), and none
    for a file that could not be read; the table of contents costs no
    request. *)
Theorem main_documentation_requests
        (E : env) (CONFIG : config) (source_code_path doc_output_path : str)
        (st st' : state) :
  main_documentation E CONFIG source_code_path doc_output_path st = (inl tt, st') ->
  length (sent st')
  = (length (sent st)
     + list_sum (map (requests_of_file E CONFIG)
                     (scan_directory E source_code_path)))%nat.
Proof.
  unfold main_documentation.
  destruct (os_path_isdir E source_code_path); cbn [negb];
    [| unfold sys_exit; discriminate].
  unfold bind at 1. unfold os_makedirs.
  destruct (makedirs_ok E st doc_output_path); [| discriminate].
  destruct (truthy (scan_directory E source_code_path)); cbn [negb];
    [| unfold sys_exit; discriminate].
  unfold bind.
  pose proof (document_files_shape
                E CONFIG source_code_path doc_output_path
                (scan_directory E source_code_path) [] st) as Hloop.
  destruct (document_files E CONFIG source_code_path doc_output_path
                           (scan_directory E source_code_path) [] st)
    as [[info | e1] st1]; [| discriminate].
  pose proof (generate_table_of_contents_shape E doc_output_path info st1) as Htoc.
  destruct (generate_table_of_contents E info doc_output_path st1)
    as [[u | e2] st2]; [| discriminate].
  intros Heq. inversion Heq; subst. now rewrite Htoc.
Qed.

Lemma main_documentation_requests_witness :
  exists st' : state,
    main_documentation Sample.world Sample.settings (lit "src") (lit "out")
                       state_init
    = (inl tt, st')
    /\ length (sent st') = 3%nat.
Proof.
  eexists. split; [vm_compute; reflexivity |].
  rewrite (@main_documentation_requests
             Sample.world Sample.settings (lit "src") (lit "out") state_init _
             ltac:(vm_compute; reflexivity)).
  reflexivity.
Defined.

(** ** The deep run *)

Section DeepRun.
Variable E : env.
Variable CONFIG : config.
Variables SOURCE_CODE_DIR DOC_OUTPUT_DIR : str.

Lemma deep_document_content_count
      (content relative_path base_name file_type : str) (st : state) :
  exists (doc : str) (st' : state),
    deep_code_documentation.document_content
      E CONFIG content relative_path base_name file_type st
    = (inl doc, st')
    /\ written st' = written st
    /\ length (sent st') = (length (sent st) + 3)%nat.
Proof.
  unfold deep_code_documentation.document_content,
    deep_code_documentation.document_file_with_ollama, bind.
  destruct (call_ollama_returns
              E CONFIG
              (deep_code_documentation.summary_prompt content base_name file_type)
              2 st) as (t1 & Hrun1 & _).
  cbv zeta in Hrun1. rewrite Hrun1.
  destruct (call_ollama_returns
              E CONFIG
              (deep_code_documentation.components_prompt content base_name file_type)
              2 (after_request
                   st
                   (deep_code_documentation.call_request
                      CONFIG
                      (deep_code_documentation.summary_prompt
                         content base_name file_type)
                      (OLLAMA_MODEL CONFIG) 2 1024))) as (t2 & Hrun2 & _).
  cbv zeta in Hrun2. rewrite Hrun2.
  match goal with
  | |- context [deep_code_documentation.call_ollama _ _ _ 3 ?s] =>
      destruct (call_ollama_returns
                  E CONFIG
                  (deep_code_documentation.examples_prompt
                     content base_name file_type) 3 s) as (t3 & Hrun3 & _)
  end.
  cbv zeta in Hrun3. rewrite Hrun3.
  eexists. eexists. split; [reflexivity |].
  unfold after_request. cbn [sent written]. split; [reflexivity |].
  rewrite !length_app. cbn [length]. lia.
Qed.

Lemma deep_document_file_shape
      (info : list (str * str)) (file_path : str) (st : state) :
  match deep_code_documentation.document_file
          E CONFIG SOURCE_CODE_DIR DOC_OUTPUT_DIR info file_path st with
  | (inl _, st') =>
      length (sent st')
      = (length (sent st) + 3 * length (readable E [file_path]))%nat
  | (inr e, _) => e = Uncaught (lit "OSError")
  end.
Proof.
  unfold deep_code_documentation.document_file, readable,
    deep_code_documentation.read_file_content.
  destruct (os_path_splitext E (os_path_basename E file_path)) as [stem ext].
  cbn [filter].
  destruct (read_file_content E file_path) as [content |].
  - destruct (deep_document_content_count
                content (os_path_relpath E file_path SOURCE_CODE_DIR)
                (os_path_basename E file_path)
                (deep_code_documentation.get_file_type ext) st)
      as (doc & st1 & Hdoc & _ & Hsent).
    unfold bind at 1. rewrite Hdoc. unfold bind.
    unfold deep_code_documentation.save_markdown.
    pose proof (save_markdown_sent
                  E (deep_code_documentation.output_path_of
                       E file_path SOURCE_CODE_DIR DOC_OUTPUT_DIR)
                  doc st1) as Hkeep.
    destruct (save_markdown
                E (deep_code_documentation.output_path_of
                     E file_path SOURCE_CODE_DIR DOC_OUTPUT_DIR)
                doc st1) as [[saved | e] st2] eqn:Hsave.
    + unfold ret. cbn [snd length] in *. rewrite Hkeep. lia.
    + now apply save_markdown_stop in Hsave.
  - unfold ret. cbn. lia.
Qed.

Lemma readable_cons (file_path : str) (rest : list str) :
  length (readable E (file_path :: rest))
  = (length (readable E [file_path]) + length (readable E rest))%nat.
Proof.
  unfold readable. cbn [filter].
  destruct (read_file_content E file_path); reflexivity.
Qed.

Lemma deep_document_files_shape (file_paths : list str) :
  forall (info : list (str * str)) (st : state),
    match deep_code_documentation.document_files
            E CONFIG SOURCE_CODE_DIR DOC_OUTPUT_DIR file_paths info st
    with
    | (inl _, st') =>
        length (sent st')
        = (length (sent st) + 3 * length (readable E file_paths))%nat
    | (inr e, _) => e = Uncaught (lit "OSError")
    end.
Proof.
  induction file_paths as [| file_path rest IH]; intros info st.
  - cbn. lia.
  - cbn [deep_code_documentation.document_files]. unfold bind.
    pose proof (deep_document_file_shape info file_path st) as Hone.
    destruct (deep_code_documentation.document_file
                E CONFIG SOURCE_CODE_DIR DOC_OUTPUT_DIR info file_path st)
      as [[info1 | e] st1]; cbv beta iota; [| exact Hone].
    specialize (IH info1 st1).
    destruct (deep_code_documentation.document_files
                E CONFIG SOURCE_CODE_DIR DOC_OUTPUT_DIR rest info1 st1)
      as [[info2 | e] st2]; cbv beta iota in *; [| exact IH].
    rewrite readable_cons. lia.
Qed.

End DeepRun.

(** X7.  A deep run that reaches its end has posted exactly three requests
    for every scanned file that could be read, whatever the sizes of the
    files, and none for the others. *)
Theorem deep_main_documentation_requests
        (E : env) (CONFIG : config) (source_code_path doc_output_path : str)
        (st st' : state) :
  deep_code_documentation.main_documentation
    E CONFIG source_code_path doc_output_path st = (inl tt, st') ->
  length (sent st')
  = (length (sent st)
     + 3 * length (readable E (scan_directory E source_code_path)))%nat.
Proof.
  unfold deep_code_documentation.main_documentation,
    deep_code_documentation.scan_directory.
  destruct (os_path_isdir E source_code_path); cbn [negb];
    [| unfold sys_exit; discriminate].
  unfold bind at 1. unfold os_makedirs.
  destruct (makedirs_ok E st doc_output_path); [| discriminate].
  destruct (truthy (scan_directory E source_code_path)); cbn [negb];
    [| unfold sys_exit; discriminate].
  unfold bind.
  pose proof (deep_document_files_shape
                E CONFIG source_code_path doc_output_path
                (scan_directory E source_code_path) [] st) as Hloop.
  destruct (deep_code_documentation.document_files
              E CONFIG source_code_path doc_output_path
              (scan_directory E source_code_path) [] st)
    as [[info | e1] st1]; [| discriminate].
  unfold deep_code_documentation.generate_table_of_contents.
  pose proof (generate_table_of_contents_shape E doc_output_path info st1) as Htoc.
  destruct (generate_table_of_contents E info doc_output_path st1)
    as [[u | e2] st2]; [| discriminate].
  intros Heq. inversion Heq; subst. now rewrite Htoc.
Qed.

Lemma deep_main_documentation_requests_witness :
  exists st' : state,
    deep_code_documentation.main_documentation
      Sample.world Sample.settings (lit "src") (lit "out") state_init
    = (inl tt, st')
    /\ length (sent st') = 6%nat.
Proof.
  eexists. split; [vm_compute; reflexivity |].
  rewrite (@deep_main_documentation_requests
             Sample.world Sample.settings (lit "src") (lit "out") state_init _
             ltac:(vm_compute; reflexivity)).
  reflexivity.
Defined.

(** ** The order of the listing is stable *)

Section Stable.
Variable A : Type.
Variable key : A -> str.

Lemma str_ltb_irrefl (a : str) : str_ltb a a = false.
Proof.
  induction a as [| x a IH]; [reflexivity |].
  cbn. now rewrite N.ltb_irrefl, N.eqb_refl, IH.
Qed.

Lemma str_eqb_eq (a : str) : forall b, str_eqb a b = true <-> a = b.
Proof.
  induction a as [| x a IH]; intros [| y b]; cbn; split; try congruence.
  - intros H. apply andb_true_iff in H. destruct H as [Hxy Hab].
    apply N.eqb_eq in Hxy. apply IH in Hab. congruence.
  - intros H. injection H as -> ->. rewrite N.eqb_refl. now apply IH.
Qed.

Lemma sort_insert_stable (k : str) (x : A) (l : list A) :
  filter (fun y => str_eqb (key y) k) (sort_insert key x l)
  = filter (fun y => str_eqb (key y) k) (x :: l).
Proof.
  induction l as [| y l IH]; [reflexivity |].
  cbn [sort_insert]. destruct (str_ltb (key y) (key x)) eqn:Hlt; [| reflexivity].
  cbn [filter] in *. rewrite IH.
  destruct (str_eqb (key y) k) eqn:Hy; destruct (str_eqb (key x) k) eqn:Hx;
    try reflexivity.
  apply str_eqb_eq in Hy, Hx. rewrite Hy, Hx, str_ltb_irrefl in Hlt.
  discriminate.
Qed.

Lemma sort_by_key_stable (k : str) (l : list A) :
  filter (fun y => str_eqb (key y) k) (sort_by_key key l)
  = filter (fun y => str_eqb (key y) k) l.
Proof.
  induction l as [| x l IH]; [reflexivity |].
  cbn [sort_by_key fold_right]. fold (sort_by_key key l).
  rewrite sort_insert_stable. cbn [filter]. now rewrite IH.
Qed.

Lemma str_eqb_refl (a : str) : str_eqb a a = true.
Proof. now apply str_eqb_eq. Qed.

Lemma str_ltb_total (a : str) :
  forall b, str_ltb a b = false -> str_ltb b a = false -> a = b.
Proof.
  induction a as [| x a IH]; intros [| y b]; cbn; try congruence.
  rewrite !orb_false_iff, !andb_false_iff, !N.ltb_ge, !N.eqb_neq.
  intros (Hyx & Hab) (Hxy & Hba).
  assert (x = y) by lia. subst y. f_equal. apply IH.
  - destruct Hab as [Hne | Hab]; [congruence | exact Hab].
  - destruct Hba as [Hne | Hba]; [congruence | exact Hba].
Qed.

Lemma key_le_antisym (x y : A) :
  key_le key x y -> key_le key y x -> key x = key y.
Proof.
  unfold key_le, str_leb. rewrite !negb_true_iff. intros Hyx Hxy.
  now apply str_ltb_total.
Qed.

Lemma with_key_head (x : A) (l : list A) :
  with_key key (key x) (x :: l) = x :: with_key key (key x) l.
Proof. unfold with_key. cbn [filter]. now rewrite str_eqb_refl. Qed.

Lemma with_key_In (k : str) (x : A) (l rest : list A) :
  with_key key k l = x :: rest -> In x l.
Proof.
  unfold with_key. intros Heq.
  assert (Hin : In x (filter (fun y => str_eqb (key y) k) l))
    by (rewrite Heq; now left).
  now apply filter_In in Hin.
Qed.

(** A list has one arrangement only that is sorted by key and keeps, key
    by key, the order of the elements. *)
Lemma stable_sorted_unique (l1 : list A) :
  forall l2,
    StronglySorted (key_le key) l1 ->
    StronglySorted (key_le key) l2 ->
    (forall k, with_key key k l1 = with_key key k l2) ->
    l1 = l2.
Proof.
  induction l1 as [| x l1 IH]; intros [| y l2] H1 H2 Hsame.
  - reflexivity.
  - specialize (Hsame (key y)). rewrite with_key_head in Hsame. discriminate.
  - specialize (Hsame (key x)). rewrite with_key_head in Hsame. discriminate.
  - inversion H1 as [| ? ? Hs1 Hall1]; subst.
    inversion H2 as [| ? ? Hs2 Hall2]; subst.
    assert (Hkey : key x = key y).
    { destruct (str_eqb (key x) (key y)) eqn:Hxy; [now apply str_eqb_eq |].
      assert (Hyx : str_eqb (key y) (key x) = false).
      { destruct (str_eqb (key y) (key x)) eqn:Hyx; [| reflexivity].
        apply str_eqb_eq in Hyx. rewrite Hyx, str_eqb_refl in Hxy.
        discriminate. }
      pose proof (Hsame (key x)) as Hx. rewrite with_key_head in Hx.
      unfold with_key in Hx. cbn [filter] in Hx. rewrite Hyx in Hx.
      symmetry in Hx. apply (with_key_In (key x) l2) in Hx.
      pose proof (Hsame (key y)) as Hy. rewrite (with_key_head y) in Hy.
      unfold with_key in Hy. cbn [filter] in Hy. rewrite Hxy in Hy.
      apply (with_key_In (key y) l1) in Hy.
      rewrite Forall_forall in Hall1, Hall2.
      apply key_le_antisym; [now apply Hall1 | now apply Hall2]. }
    pose proof (Hsame (key x)) as Hx.
    rewrite with_key_head, Hkey, with_key_head in Hx.
    injection Hx as Hxy _. subst y. f_equal.
    apply IH; [assumption | assumption |].
    intros k. specialize (Hsame k). unfold with_key in *. cbn [filter] in Hsame.
    destruct (str_eqb (key x) k); [now injection Hsame | exact Hsame].
Qed.

End Stable.

(** X8.  The listing of the table of contents is the stable sort of the
    entries by lower-cased relative path, and nothing of it depends on how
    [list.sort] goes about it: the listing is in the order of the keys,
    the entries with the same key (paths that differ only in case) keep
    the order in which they were documented, and no other arrangement of
    the entries has these two properties. *)
Theorem toc_sort_stable (E : env) (documented_files_info : list (str * str)) :
  StronglySorted (toc_le E) (toc_sort E documented_files_info)
  /\ (forall k,
        with_key (fun entry => str_lower E (fst entry)) k
                 (toc_sort E documented_files_info)
        = with_key (fun entry => str_lower E (fst entry)) k
                   documented_files_info)
  /\ (forall listing,
        StronglySorted (toc_le E) listing ->
        (forall k,
            with_key (fun entry => str_lower E (fst entry)) k listing
            = with_key (fun entry => str_lower E (fst entry)) k
                       documented_files_info) ->
        listing = toc_sort E documented_files_info).
Proof.
  split; [| split].
  - apply (sort_by_key_sorted (fun x : str * str => str_lower E (fst x))).
  - intros k.
    apply (sort_by_key_stable (fun x : str * str => str_lower E (fst x))).
  - intros listing Hsorted Hsame.
    apply (@stable_sorted_unique _ (fun x : str * str => str_lower E (fst x))).
    + exact Hsorted.
    + apply (sort_by_key_sorted (fun x : str * str => str_lower E (fst x))).
    + intros k. rewrite Hsame. symmetry.
      apply (sort_by_key_stable (fun x : str * str => str_lower E (fst x))).
Qed.

Lemma toc_sort_stable_witness :
  toc_sort Sample.world
           [(lit "b.py", lit "1"); (lit "B.py", lit "2"); (lit "a.py", lit "3")]
  = [(lit "a.py", lit "3"); (lit "b.py", lit "1"); (lit "B.py", lit "2")].
Proof.
  destruct (toc_sort_stable
              Sample.world
              [(lit "b.py", lit "1"); (lit "B.py", lit "2"); (lit "a.py", lit "3")])
    as (_ & _ & Hunique).
  symmetry. apply Hunique.
  - repeat constructor.
  - intros k. unfold with_key. cbn [filter fst].
    change (str_lower Sample.world) with lower.
    change (lower (lit "b.py")) with (lit "b.py").
    change (lower (lit "B.py")) with (lit "b.py").
    change (lower (lit "a.py")) with (lit "a.py").
    destruct (str_eqb (lit "b.py") k) eqn:Hb;
      destruct (str_eqb (lit "a.py") k) eqn:Ha; try reflexivity.
    apply str_eqb_eq in Hb, Ha. subst k. discriminate.
Defined.

Example toc_sort_same_key :
  toc_sort Sample.world
           [(lit "b.py", lit "1"); (lit "README.txt", lit "2");
            (lit "B.py", lit "3"); (lit "a.py", lit "4")]
  = [(lit "a.py", lit "4"); (lit "b.py", lit "1"); (lit "B.py", lit "3");
     (lit "README.txt", lit "2")].
Proof. reflexivity. Qed.

(** ** The scan of the analyzer *)

Section AnalyzerScan.
Variable E : env.
Variable CONFIG : config.

Lemma startswith_spec (p : str) :
  forall s, startswith s p = true <-> exists post, s = p ++ post.
Proof.
  induction p as [| y p IH]; intros s; cbn.
  - split; [intros _; now exists s | reflexivity].
  - destruct s as [| x s].
    + split; [discriminate | intros (post & H); discriminate].
    + rewrite andb_true_iff, N.eqb_eq, IH. split.
      * intros (-> & post & ->). now exists post.
      * intros (post & H). injection H as -> ->. split; [reflexivity | now exists post].
Qed.

(** [p in s] holds exactly when [p] occurs in [s]. *)
Lemma contains_spec (p s : str) : contains s p = true <-> occurs_in p s.
Proof.
  induction s as [| x s IH]; cbn [contains].
  - rewrite orb_false_r, startswith_spec. split.
    + intros (post & H). exists [], post. exact H.
    + intros (pre & post & H). destruct pre; [now exists post | discriminate].
  - rewrite orb_true_iff, startswith_spec, IH. split.
    + intros [(post & H) | (pre & post & H)].
      * exists [], post. exact H.
      * exists (x :: pre), post. now rewrite H.
    + intros (pre & post & H). destruct pre as [| y pre].
      * left. now exists post.
      * right. injection H as _ H. now exists pre, post.
Qed.

Lemma excluded_spec (dirpath : str) :
  code_analyzer.excluded CONFIG dirpath = false
  <-> forall x, In x (EXCLUDE_DIRS CONFIG) -> ~ occurs_in x dirpath.
Proof.
  unfold code_analyzer.excluded. split.
  - intros Hno x Hx Hocc. apply contains_spec in Hocc.
    assert (Hyes : existsb (fun d => contains dirpath d) (EXCLUDE_DIRS CONFIG) = true)
      by (apply existsb_exists; now exists x).
    congruence.
  - intros Hnone.
    destruct (existsb (fun d => contains dirpath d) (EXCLUDE_DIRS CONFIG)) eqn:Hex;
      [| reflexivity].
    apply existsb_exists in Hex. destruct Hex as (x & Hx & Hocc).
    apply contains_spec in Hocc. now destruct (Hnone x Hx).
Qed.

End AnalyzerScan.

(** X9.  The scan of the analyzer returns exactly the supported files of
    the walked directories whose path holds none of [EXCLUDE_DIRS] as a
    substring: the test is on the whole directory path, not on the names of
    its components. *)
Theorem analyzer_scan_directory_spec
        (E : env) (CONFIG : config) (root_dir file_path : str) :
  In file_path (code_analyzer.scan_directory E CONFIG root_dir)
  <-> exists dirpath filenames filename,
      In (dirpath, filenames) (os_walk E root_dir)
      /\ In filename filenames
      /\ (forall x, In x (EXCLUDE_DIRS CONFIG) -> ~ occurs_in x dirpath)
      /\ dict_mem SUPPORTED_EXTENSIONS (lower (snd (os_path_splitext E filename)))
         = true
      /\ file_path = os_path_join E dirpath filename.
Proof.
  unfold code_analyzer.scan_directory. rewrite in_flat_map. split.
  - intros ([dirpath filenames] & Hwalk & Hin).
    destruct (code_analyzer.excluded CONFIG dirpath) eqn:Hex; [destruct Hin |].
    apply in_flat_map in Hin. destruct Hin as (filename & Hfile & Hin).
    exists dirpath, filenames, filename.
    destruct (os_path_splitext E filename) as [stem ext]. cbn [snd].
    destruct (dict_mem SUPPORTED_EXTENSIONS (lower ext)) eqn:Hsup;
      [| destruct Hin].
    destruct Hin as [<- | []].
    repeat split; try assumption. now apply excluded_spec.
  - intros (dirpath & filenames & filename & Hwalk & Hfile & Hex & Hsup & ->).
    exists (dirpath, filenames). split; [exact Hwalk |].
    apply excluded_spec in Hex. rewrite Hex.
    apply in_flat_map. exists filename. split; [exact Hfile |].
    destruct (os_path_splitext E filename) as [stem ext]. cbn [snd] in Hsup.
    rewrite Hsup. now left.
Qed.

Example analyzer_scan_folders :
  code_analyzer.scan_directory
    Sample.folder_world (Sample.excluding [lit "node_modules"]) (lit "src")
  = [lit "src/b.py"; lit "src/lib/util.py"]
  /\ code_analyzer.scan_directory
       Sample.folder_world (Sample.excluding [lit "li"]) (lit "src")
     = [lit "src/b.py"; lit "src/node_modules/x/index.js"].
Proof. split; reflexivity. Qed.

(** X10.  Without excluded directories the analyzer scans the same files,
    in the same order, as the documentation scripts; with any exclusion
    list it scans files that those would scan too. *)
Theorem analyzer_scan_directory_subset
        (E : env) (CONFIG : config) (root_dir : str) :
  (EXCLUDE_DIRS CONFIG = [] ->
   code_analyzer.scan_directory E CONFIG root_dir = scan_directory E root_dir)
  /\ (forall file_path,
        In file_path (code_analyzer.scan_directory E CONFIG root_dir) ->
        In file_path (scan_directory E root_dir)).
Proof.
  unfold code_analyzer.scan_directory, scan_directory, code_analyzer.excluded.
  split.
  - intros ->. cbn [existsb]. reflexivity.
  - intros file_path Hin. apply in_flat_map in Hin.
    destruct Hin as ([dirpath filenames] & Hwalk & Hin).
    apply in_flat_map. exists (dirpath, filenames). split; [exact Hwalk |].
    destruct (existsb (fun d => contains dirpath d) (EXCLUDE_DIRS CONFIG));
      [destruct Hin | exact Hin].
Qed.

Lemma analyzer_scan_directory_subset_witness :
  EXCLUDE_DIRS Sample.settings = []
  /\ code_analyzer.scan_directory Sample.folder_world Sample.settings (lit "src")
     = scan_directory Sample.folder_world (lit "src")
  /\ In (lit "src/lib/util.py")
        (code_analyzer.scan_directory
           Sample.folder_world (Sample.excluding [lit "node_modules"]) (lit "src"))
  /\ In (lit "src/lib/util.py") (scan_directory Sample.folder_world (lit "src")).
Proof.
  split; [reflexivity |].
  split; [apply (analyzer_scan_directory_subset
                   Sample.folder_world Sample.settings (lit "src")); reflexivity |].
  assert (Hin : In (lit "src/lib/util.py")
                   (code_analyzer.scan_directory
                      Sample.folder_world (Sample.excluding [lit "node_modules"])
                      (lit "src")))
    by (vm_compute; tauto).
  split; [exact Hin |].
  now apply (analyzer_scan_directory_subset
               Sample.folder_world (Sample.excluding [lit "node_modules"])
               (lit "src")).
Defined.



(** ** The report of the analyzer for one file *)

Section AnalyzerReport.
Variable E : env.
Variable CONFIG : config.
Variables base_name file_type : str.

Lemma analysis_prompt_carries (file_content project_context : str) :
  occurs_in project_context
            (code_analyzer.analysis_prompt
               file_content base_name file_type project_context)
  /\ occurs_in file_content
               (code_analyzer.analysis_prompt
                  file_content base_name file_type project_context).
Proof.
  unfold code_analyzer.analysis_prompt. split.
  - do 2 (rewrite text_lines_cons; apply occurs_in_app_r).
    rewrite text_lines_cons. do 2 apply occurs_in_app_l.
    apply occurs_in_app_r. apply occurs_in_here.
  - do 29 (rewrite text_lines_cons; apply occurs_in_app_r).
    rewrite text_lines_cons. do 2 apply occurs_in_app_l.
    apply occurs_in_app_r. exists [], []. now rewrite app_nil_r.
Qed.

Lemma analyze_code_returns (file_content project_context : str) (st : state) :
  exists result,
    code_analyzer.analyze_code_for_refactoring_and_reuse
      E CONFIG file_content base_name file_type project_context st
    = (inl result,
       after_request
         st
         (code_analyzer.api_request
            CONFIG
            (code_analyzer.analysis_prompt
               file_content base_name file_type project_context)))
    /\ code_analyzer.api_result
         (endpoint
            E st
            (code_analyzer.api_request
               CONFIG
               (code_analyzer.analysis_prompt
                  file_content base_name file_type project_context)))
       = inl result.
Proof.
  unfold code_analyzer.analyze_code_for_refactoring_and_reuse.
  apply call_ollama_api_returns.
Qed.

Lemma analyze_chunks_sections (n : nat) (rest : list str) :
  forall (i : nat) (report : str) (st : state),
  exists results : list str,
    length results = length rest
    /\ api_answered E st
                    (map (analysis_request CONFIG base_name file_type n)
                         (numbered_from (S i) rest))
                    results
    /\ code_analyzer.analyze_chunks E CONFIG base_name file_type n i rest report st
       = (inl (report
               ++ concat (map numbered_analysis (numbered_from (S i) results))),
          mk_state (sent st ++ map (analysis_request CONFIG base_name file_type n)
                                   (numbered_from (S i) rest))
                   (written st)).
Proof.
  induction rest as [| chunk rest' IH]; intros i report st.
  - exists []. cbn. rewrite !app_nil_r. repeat split; [constructor |].
    now destruct st.
  - destruct (analyze_code_returns chunk (code_analyzer.project_context_of i n) st)
      as (r & Hrun & Hres).
    destruct (IH (S i) (report ++ code_analyzer.analysis_section i r)
                 (after_request
                    st
                    (code_analyzer.api_request
                       CONFIG
                       (code_analyzer.analysis_prompt
                          chunk base_name file_type
                          (code_analyzer.project_context_of i n)))))
      as (rs & Hlen & Hans & Hrest).
    assert (Hinfo : code_analyzer.project_context_of i n = part_context (S i) n).
    { unfold code_analyzer.project_context_of, part_context.
      now rewrite Nat.add_1_r. }
    assert (Hsec : code_analyzer.analysis_section i r = numbered_analysis (S i, r)).
    { unfold code_analyzer.analysis_section, numbered_analysis. cbn [fst snd].
      now rewrite Nat.add_1_r. }
    exists (r :: rs). split; [cbn [length]; now rewrite Hlen |].
    unfold numbered_from in *. cbn [length seq combine map].
    unfold analysis_request at 1 3. cbn [fst snd]. rewrite <- Hinfo.
    split; [now constructor |].
    cbn [code_analyzer.analyze_chunks]. unfold bind at 1. rewrite Hrun, Hrest.
    cbn [concat]. rewrite <- Hsec, <- !app_assoc.
    unfold after_request. cbn [sent written]. rewrite <- app_assoc.
    reflexivity.
Qed.

Lemma analysis_requests_carry (n k : nat) (chunks : list str) :
  Forall (fun kc : nat * str =>
            occurs_in (part_context (fst kc) n)
                      (req_prompt (analysis_request CONFIG base_name file_type n kc))
            /\ occurs_in (snd kc)
                         (req_prompt
                            (analysis_request CONFIG base_name file_type n kc)))
         (numbered_from k chunks).
Proof.
  apply Forall_forall. intros [j chunk] _. cbn [fst snd].
  unfold analysis_request, code_analyzer.api_request. cbn [req_prompt fst snd].
  apply analysis_prompt_carries.
Qed.

End AnalyzerReport.

(** X12.  The analyzer builds the report of a file like the documentation
    script builds its document.  For [n > 1] chunks the report is the
    heading followed by [n] sections "## Part k Analysis", [k] from 1 to
    [n] in the order of the chunks; section [k] holds the text returned for
    the request whose prompt carries chunk [k] and the hint "This is part k
    of n of the file".  For one chunk the report is the heading followed by
    the text returned for the whole content, asked with an empty hint. *)
Theorem analyze_content_parts
        (E : env) (CONFIG : config)
        (content relative_path base_name file_type : str) (st : state) :
  ((1 < length (chunk_content content (CHUNK_SIZE_CHARACTERS CONFIG)))%nat ->
   exists results : list str,
     length results
     = length (chunk_content content (CHUNK_SIZE_CHARACTERS CONFIG))
     /\ api_answered
          E st
          (map (analysis_request
                  CONFIG base_name file_type
                  (length (chunk_content content (CHUNK_SIZE_CHARACTERS CONFIG))))
               (numbered_from
                  1 (chunk_content content (CHUNK_SIZE_CHARACTERS CONFIG))))
          results
     /\ code_analyzer.analyze_content
          E CONFIG content relative_path base_name file_type st
        = (inl (code_analyzer.report_heading relative_path file_type
                ++ concat (map numbered_analysis (numbered_from 1 results))),
           mk_state
             (sent st
              ++ map (analysis_request
                        CONFIG base_name file_type
                        (length (chunk_content content
                                               (CHUNK_SIZE_CHARACTERS CONFIG))))
                     (numbered_from
                        1 (chunk_content content (CHUNK_SIZE_CHARACTERS CONFIG))))
             (written st))
     /\ Forall
          (fun kc : nat * str =>
             occurs_in
               (part_context
                  (fst kc)
                  (length (chunk_content content (CHUNK_SIZE_CHARACTERS CONFIG))))
               (req_prompt
                  (analysis_request
                     CONFIG base_name file_type
                     (length (chunk_content content
                                            (CHUNK_SIZE_CHARACTERS CONFIG)))
                     kc))
             /\ occurs_in
                  (snd kc)
                  (req_prompt
                     (analysis_request
                        CONFIG base_name file_type
                        (length (chunk_content content
                                               (CHUNK_SIZE_CHARACTERS CONFIG)))
                        kc)))
          (numbered_from
             1 (chunk_content content (CHUNK_SIZE_CHARACTERS CONFIG))))
  /\ (length (chunk_content content (CHUNK_SIZE_CHARACTERS CONFIG)) = 1%nat ->
      exists result : str,
        code_analyzer.api_result
          (endpoint
             E st
             (code_analyzer.api_request
                CONFIG
                (code_analyzer.analysis_prompt content base_name file_type [])))
        = inl result
        /\ code_analyzer.analyze_content
             E CONFIG content relative_path base_name file_type st
           = (inl (code_analyzer.report_heading relative_path file_type ++ result),
              after_request
                st
                (code_analyzer.api_request
                   CONFIG
                   (code_analyzer.analysis_prompt content base_name file_type [])))).
Proof.
  split.
  - intros Hmany.
    destruct (analyze_chunks_sections
                E CONFIG base_name file_type
                (length (chunk_content content (CHUNK_SIZE_CHARACTERS CONFIG)))
                (chunk_content content (CHUNK_SIZE_CHARACTERS CONFIG))
                0 (code_analyzer.report_heading relative_path file_type) st)
      as (results & Hlen & Hans & Hrun).
    exists results. split; [exact Hlen |]. split; [exact Hans |].
    split; [| apply analysis_requests_carry].
    unfold code_analyzer.analyze_content, code_analyzer.chunk_content.
    replace (1 <? len (chunk_content content (CHUNK_SIZE_CHARACTERS CONFIG)))
      with true by (symmetry; apply Z.ltb_lt; unfold len; lia).
    exact Hrun.
  - intros Hone.
    destruct (analyze_code_returns E CONFIG base_name file_type content [] st)
      as (result & Hrun & Hres).
    exists result. split; [exact Hres |].
    unfold code_analyzer.analyze_content, code_analyzer.chunk_content.
    replace (1 <? len (chunk_content content (CHUNK_SIZE_CHARACTERS CONFIG)))
      with false by (symmetry; apply Z.ltb_ge; unfold len; lia).
    unfold bind. rewrite Hrun. reflexivity.
Qed.

Lemma analyze_content_parts_witness :
  (1 < length (chunk_content Sample.b_py (CHUNK_SIZE_CHARACTERS Sample.settings)))%nat
  /\ (exists results : list str,
        length results = 2%nat
        /\ fst (code_analyzer.analyze_content
                  Sample.world Sample.settings Sample.b_py
                  (lit "b.py") (lit "b.py") (lit "python") state_init)
           = inl (code_analyzer.report_heading (lit "b.py") (lit "python")
                  ++ concat (map numbered_analysis (numbered_from 1 results))))
  /\ length (chunk_content Sample.A_py (CHUNK_SIZE_CHARACTERS Sample.settings)) = 1%nat
  /\ (exists result : str,
        fst (code_analyzer.analyze_content
               Sample.world Sample.settings Sample.A_py
               (lit "A.py") (lit "A.py") (lit "python") state_init)
        = inl (code_analyzer.report_heading (lit "A.py") (lit "python") ++ result)).
Proof.
  assert (Hmany : (1 < length (chunk_content
                                 Sample.b_py
                                 (CHUNK_SIZE_CHARACTERS Sample.settings)))%nat)
    by (vm_compute; lia).
  assert (Hone : length (chunk_content
                           Sample.A_py
                           (CHUNK_SIZE_CHARACTERS Sample.settings)) = 1%nat)
    by reflexivity.
  split; [exact Hmany |]. split; [| split; [exact Hone |]].
  - destruct (analyze_content_parts
                Sample.world Sample.settings Sample.b_py
                (lit "b.py") (lit "b.py") (lit "python") state_init)
      as (Hparts & _).
    destruct (Hparts Hmany) as (results & Hlen & _ & Hrun & _).
    exists results. split; [exact Hlen | now rewrite Hrun].
  - destruct (analyze_content_parts
                Sample.world Sample.settings Sample.A_py
                (lit "A.py") (lit "A.py") (lit "python") state_init)
      as (_ & Hsingle).
    destruct (Hsingle Hone) as (result & _ & Hrun).
    exists result. now rewrite Hrun.
Defined.

(** ** The summary of the analyzer *)

Section AnalyzerSummary.
Variable E : env.
Variable CONFIG : config.






End AnalyzerSummary.



(** ** What the analyzer reads *)

Section ReadAll.
Variable E : env.
Variable SOURCE_CODE_DIR : str.

Lemma dict_set_in (d : dict) (k v : str) (item : str * str) :
  In item (dict_set d k v) -> item = (k, v) \/ In item d.
Proof.
  induction d as [| [k' v'] d IH]; cbn [dict_set].
  - intros [<- | []]. now left.
  - destruct (str_eqb k' k) eqn:Hk.
    + apply str_eqb_eq in Hk. subst k'.
      intros [<- | Hin]; [now left | right; now right].
    + intros [<- | Hin]; [right; now left |].
      destruct (IH Hin) as [-> | Hd]; [now left | right; now right].
Qed.

Lemma dict_set_key (d : dict) (k v : str) : In k (map fst (dict_set d k v)).
Proof.
  induction d as [| [k' v'] d IH]; cbn [dict_set]; [now left |].
  destruct (str_eqb k' k) eqn:Hk.
  - apply str_eqb_eq in Hk. subst k'. now left.
  - right. exact IH.
Qed.

Lemma dict_set_keeps (d : dict) (k v k0 : str) :
  In k0 (map fst d) -> In k0 (map fst (dict_set d k v)).
Proof.
  induction d as [| [k' v'] d IH]; cbn [dict_set]; [intros [] |].
  destruct (str_eqb k' k); cbn [map fst]; intros [<- | Hin];
    [now left | now right | now left | right; now apply IH].
Qed.

Lemma dict_set_nodup (d : dict) (k v : str) :
  NoDup (map fst d) -> NoDup (map fst (dict_set d k v)).
Proof.
  induction d as [| [k' v'] d IH]; cbn [dict_set map fst]; intros Hnd.
  - constructor; [intros [] | constructor].
  - inversion Hnd as [| x l Hnotin Hrest]; subst.
    destruct (str_eqb k' k) eqn:Hk; cbn [map fst].
    + constructor; assumption.
    + constructor; [| now apply IH].
      intros Hin. apply in_map_iff in Hin. destruct Hin as ([k0 v0] & Hfst & Hin).
      cbn [fst] in Hfst. subst k0.
      destruct (dict_set_in _ _ _ _ Hin) as [Heq | Hd].
      * injection Heq as -> _. rewrite (proj2 (str_eqb_eq k k) eq_refl) in Hk.
        discriminate.
      * apply Hnotin. apply in_map_iff. now exists (k', v0).
Qed.

Lemma read_all_from (file_paths : list str) :
  forall d : dict,
    NoDup (map fst d) ->
    NoDup (map fst (fold_left
                      (fun all_file_contents file_path =>
                         match read_file_content E file_path with
                         | Some content =>
                             dict_set all_file_contents
                                      (os_path_relpath E file_path SOURCE_CODE_DIR)
                                      content
                         | None => all_file_contents
                         end)
                      file_paths d))
    /\ (forall item,
          In item (fold_left
                     (fun all_file_contents file_path =>
                        match read_file_content E file_path with
                        | Some content =>
                            dict_set all_file_contents
                                     (os_path_relpath E file_path SOURCE_CODE_DIR)
                                     content
                        | None => all_file_contents
                        end)
                     file_paths d) ->
          In item d
          \/ exists file_path,
              In file_path file_paths
              /\ read_file_content E file_path = Some (snd item)
              /\ fst item = os_path_relpath E file_path SOURCE_CODE_DIR)
    /\ (forall k,
          In k (map fst d)
          \/ (exists file_path,
                 In file_path file_paths
                 /\ read_file_content E file_path <> None
                 /\ k = os_path_relpath E file_path SOURCE_CODE_DIR) ->
          In k (map fst (fold_left
                           (fun all_file_contents file_path =>
                              match read_file_content E file_path with
                              | Some content =>
                                  dict_set
                                    all_file_contents
                                    (os_path_relpath E file_path SOURCE_CODE_DIR)
                                    content
                              | None => all_file_contents
                              end)
                           file_paths d))).
Proof.
  induction file_paths as [| p rest IH]; intros d Hnd.
  - cbn [fold_left]. split; [exact Hnd |]. split; [now left |].
    intros k [Hk | (q & [] & _)]. exact Hk.
  - cbn [fold_left].
    destruct (read_file_content E p) as [content |] eqn:Hread.
    + destruct (IH (dict_set d (os_path_relpath E p SOURCE_CODE_DIR) content)
                   (dict_set_nodup _ _ _ Hnd)) as (Hnd' & Hfrom & Hkeys).
      split; [exact Hnd' |]. split.
      * intros item Hin. destruct (Hfrom item Hin) as [Hd | (q & Hq & Hrest)].
        -- destruct (dict_set_in _ _ _ _ Hd) as [-> | Hd']; [| now left].
           right. exists p. cbn [fst snd]. split; [now left | split; auto].
        -- right. exists q. split; [now right | exact Hrest].
      * intros k [Hk | (q & [<- | Hq] & Hreadable & ->)]; apply Hkeys.
        -- left. now apply dict_set_keeps.
        -- left. apply dict_set_key.
        -- right. now exists q.
    + destruct (IH d Hnd) as (Hnd' & Hfrom & Hkeys).
      split; [exact Hnd' |]. split.
      * intros item Hin. destruct (Hfrom item Hin) as [Hd | (q & Hq & Hrest)];
          [now left |].
        right. exists q. split; [now right | exact Hrest].
      * intros k [Hk | (q & [<- | Hq] & Hreadable & ->)].
        -- apply Hkeys. now left.
        -- congruence.
        -- apply Hkeys. right. now exists q.
Qed.

End ReadAll.

(** X14.  What the analyzer keeps of its first phase: one entry per
    relative path (no path twice), every entry holding the content read
    from a scanned file with that relative path, and an entry for the
    relative path of every file that could be read.  Files that could not
    be read leave no entry and are not analyzed. *)
Theorem read_all_entries
        (E : env) (SOURCE_CODE_DIR : str) (file_paths : list str) :
  NoDup (map fst (code_analyzer.read_all E SOURCE_CODE_DIR file_paths))
  /\ (forall relative_path content,
        In (relative_path, content)
           (code_analyzer.read_all E SOURCE_CODE_DIR file_paths) ->
        exists file_path,
          In file_path file_paths
          /\ read_file_content E file_path = Some content
          /\ relative_path = os_path_relpath E file_path SOURCE_CODE_DIR)
  /\ (forall file_path,
        In file_path file_paths ->
        read_file_content E file_path <> None ->
        In (os_path_relpath E file_path SOURCE_CODE_DIR)
           (map fst (code_analyzer.read_all E SOURCE_CODE_DIR file_paths))).
Proof.
  unfold code_analyzer.read_all, code_analyzer.read_file_content.
  destruct (read_all_from E SOURCE_CODE_DIR file_paths [] (NoDup_nil _))
    as (Hnd & Hfrom & Hkeys).
  split; [exact Hnd |]. split.
  - intros relative_path content Hin.
    destruct (Hfrom _ Hin) as [[] | Hp]. exact Hp.
  - intros file_path Hin Hread. apply Hkeys. right. now exists file_path.
Qed.

Lemma read_all_entries_witness :
  In (lit "b.py", Sample.b_py)
     (code_analyzer.read_all Sample.world (lit "src")
                             [lit "src/b.py"; lit "src/c.txt"])
  /\ exists file_path,
      In file_path [lit "src/b.py"; lit "src/c.txt"]
      /\ read_file_content Sample.world file_path = Some Sample.b_py
      /\ lit "b.py" = os_path_relpath Sample.world file_path (lit "src").
Proof.
  assert (Hin : In (lit "b.py", Sample.b_py)
                   (code_analyzer.read_all Sample.world (lit "src")
                                           [lit "src/b.py"; lit "src/c.txt"]))
    by (vm_compute; tauto).
  split; [exact Hin |].
  destruct (read_all_entries Sample.world (lit "src")
                             [lit "src/b.py"; lit "src/c.txt"])
    as (_ & Hfrom & _).
  exact (Hfrom _ _ Hin).
Defined.

(** ** The run of the analyzer *)

Section AnalyzerRun.
Variable E : env.
Variable CONFIG : config.
Variable DOC_OUTPUT_DIR : str.





End AnalyzerRun.



Section LoggedAnalyzer.
Variable E : env.
Variable T : console.
Variable CONFIG : config.

Lemma logged_scan_walk (entries : list (str * list str)) :
  forall file_paths,
    logs_only
      T (logged.analyzer.scan_walk E T CONFIG entries file_paths)
      (file_paths
       ++ flat_map
            (fun entry : str * list str =>
               let (dirpath, filenames) := entry in
               if code_analyzer.excluded CONFIG dirpath then []
               else logged.analyzer.supported_in E dirpath filenames)
            entries).
Proof.
  induction entries as [| [dirpath filenames] rest IH]; intros file_paths;
    cbn [logged.analyzer.scan_walk flat_map].
  - rewrite app_nil_r. apply logs_only_ret.
  - destruct (code_analyzer.excluded CONFIG dirpath).
    + eapply logs_only_bind; [apply logs_only_print |]. apply IH.
    + rewrite app_assoc. apply IH.
Qed.

Lemma logged_analyzer_scan_directory (root_dir : str) :
  logs_only T (logged.analyzer.scan_directory E T CONFIG root_dir)
            (code_analyzer.scan_directory E CONFIG root_dir).
Proof.
  unfold logged.analyzer.scan_directory.
  eapply logs_only_bind; [apply logs_only_print |].
  eapply logs_only_bind; [apply (logged_scan_walk (os_walk E root_dir) []) |].
  eapply logs_only_bind; [apply logs_only_print |].
  apply logs_only_ret.
Qed.

Lemma contained_read_all (SOURCE_CODE_DIR : str) (file_paths : list str) :
  forall all_file_contents,
    contained T (logged.analyzer.read_all
                   E T SOURCE_CODE_DIR file_paths all_file_contents).
Proof.
  induction file_paths as [| file_path rest IH]; intros all_file_contents;
    cbn [logged.analyzer.read_all].
  - contained_step.
  - contained_step; [apply contained_read_file_content |].
    destruct a as [content |]; [apply IH |].
    contained_step; [contained_step | apply IH].
Qed.

Lemma contained_call_ollama_api (prompt : str) :
  contained T (logged.analyzer.call_ollama_api E T CONFIG prompt).
Proof.
  unfold logged.analyzer.call_ollama_api.
  contained_step; [contained_step |].
  contained_step; [apply contained_document_log |]. contained_step.
Qed.

Lemma contained_save_analysis_report (output_path report_content : str) :
  contained T (logged.analyzer.save_analysis_report
                 E T output_path report_content).
Proof.
  unfold logged.analyzer.save_analysis_report. repeat contained_step.
Qed.

Lemma contained_analyze_chunks (base_name file_type : str) (n : nat)
      (rest : list str) :
  forall (i : nat) (full_analysis_report : str),
    contained T (logged.analyzer.analyze_chunks
                   E T CONFIG base_name file_type n i rest
                   full_analysis_report).
Proof.
  induction rest as [| chunk rest IH]; intros i full_analysis_report;
    cbn [logged.analyzer.analyze_chunks].
  - contained_step.
  - contained_step; [contained_step |].
    contained_step; [apply contained_call_ollama_api | apply IH].
Qed.

Lemma contained_analyze_content
      (content relative_path base_name file_type : str) :
  contained T (logged.analyzer.analyze_content
                 E T CONFIG content relative_path base_name file_type).
Proof.
  unfold logged.analyzer.analyze_content.
  destruct (1 <? len (code_analyzer.chunk_content
                        content (CHUNK_SIZE_CHARACTERS CONFIG))).
  - contained_step; [contained_step | apply contained_analyze_chunks].
  - contained_step; [contained_step |].
    contained_step; [apply contained_call_ollama_api | contained_step].
Qed.

Lemma contained_analyze_file (DOC_OUTPUT_DIR : str)
      (analyzed_files_info : list (str * str)) (item : str * str) :
  contained T (logged.analyzer.analyze_file
                 E T CONFIG DOC_OUTPUT_DIR analyzed_files_info item).
Proof.
  unfold logged.analyzer.analyze_file. destruct item as [relative_path content].
  destruct (os_path_splitext E (os_path_basename E relative_path))
    as [stem ext].
  contained_step; [contained_step |].
  contained_step; [apply contained_analyze_content |].
  contained_step; [apply contained_save_analysis_report | contained_step].
Qed.

Lemma contained_analyze_files (DOC_OUTPUT_DIR : str) (items : list (str * str)) :
  forall analyzed_files_info,
    contained T (logged.analyzer.analyze_files
                   E T CONFIG DOC_OUTPUT_DIR items analyzed_files_info).
Proof.
  induction items as [| item rest IH]; intros analyzed_files_info;
    cbn [logged.analyzer.analyze_files].
  - contained_step.
  - contained_step; [apply contained_analyze_file | apply IH].
Qed.

Lemma contained_generate_overall_summary
      (all_file_contents : dict) (analyzed_files_info : list (str * str))
      (root_dir output_dir : str) :
  contained T (logged.analyzer.generate_overall_summary
                 E T CONFIG all_file_contents analyzed_files_info
                 root_dir output_dir).
Proof.
  unfold logged.analyzer.generate_overall_summary.
  destruct (truthy analyzed_files_info); cbn [negb].
  - contained_step; [contained_step |].
    contained_step; [apply contained_call_ollama_api |].
    contained_step; [apply contained_save_analysis_report | contained_step].
  - contained_step; [apply contained_save_analysis_report | contained_step].
Qed.

End LoggedAnalyzer.

(** X16.  A run of the analyzer, with everything it prints, that does not
    reach its end stops in one of four ways: exit status 1 when the source
    path is not a directory, exit status 0 when the scan finds no file (in
    both cases nothing was posted and nothing written), the error of an
    [os.makedirs] that failed, or the exception of a [print] that raised.
    No other exit status occurs, and nothing that the endpoint, the reads
    or the writes raise escapes. *)
Theorem main_analysis_stops
        (E : env) (T : console) (CONFIG : config)
        (source_code_path doc_output_path : str) (st st' : state) (e : stop) :
  logged.analyzer.main_analysis E T CONFIG source_code_path doc_output_path st
  = (inr e, st') ->
  (e = SysExit 1 /\ os_path_isdir E source_code_path = false /\ st' = st)
  \/ (e = SysExit 0 /\ os_path_isdir E source_code_path = true
      /\ code_analyzer.scan_directory E CONFIG source_code_path = []
      /\ st' = st)
  \/ e = Uncaught (lit "OSError")
  \/ print_raised T e.
Proof.
  unfold logged.analyzer.main_analysis.
  destruct (os_path_isdir E source_code_path); cbn [negb]; intros Hrun.
  - apply bind_inr_inv in Hrun.
    destruct Hrun as [Hrun | (u & st1 & Hdir & Hrun)].
    { apply (contained_os_makedirs T) in Hrun. tauto. }
    apply os_makedirs_inl in Hdir. destruct Hdir as (-> & _).
    apply bind_inr_inv in Hrun.
    destruct Hrun as [Hrun | (u1 & st1 & Hline & Hrun)].
    { apply (contained_print T) in Hrun. tauto. }
    apply print_inl in Hline. subst st1.
    apply bind_inr_inv in Hrun.
    destruct Hrun as [Hrun | (file_paths & st1 & Hscan & Hrun)].
    { eapply logs_only_inr in Hrun; [| apply logged_analyzer_scan_directory].
      tauto. }
    eapply logs_only_inl in Hscan; [| apply logged_analyzer_scan_directory].
    destruct Hscan as (-> & ->).
    destruct (code_analyzer.scan_directory E CONFIG source_code_path)
      as [| p ps] eqn:Hfiles; cbn [truthy negb] in Hrun.
    + apply bind_inr_inv in Hrun.
      destruct Hrun as [Hrun | (u2 & st1 & Hline & Hrun)].
      { apply (contained_print T) in Hrun. tauto. }
      apply print_inl in Hline. subst st1.
      unfold sys_exit in Hrun. inversion Hrun; subst. right. left. auto.
    + revert Hrun.
      match goal with
      | |- ?m st = (inr e, st') -> _ =>
          assert (Hrest : contained T m)
      end.
      { contained_step; [contained_step |].
        contained_step; [apply contained_read_all |].
        contained_step; [contained_step |].
        contained_step; [apply contained_analyze_files |].
        contained_step; [contained_step |].
        contained_step; [apply contained_generate_overall_summary |].
        contained_step; contained_step. }
      intros Hrun. apply Hrest in Hrun. tauto.
  - apply bind_inr_inv in Hrun.
    destruct Hrun as [Hrun | (u & st1 & Hline & Hrun)].
    { apply (contained_print T) in Hrun. tauto. }
    apply print_inl in Hline. subst st1.
    unfold sys_exit in Hrun. inversion Hrun; subst. left. auto.
Qed.

Lemma main_analysis_stops_witness :
  logged.analyzer.main_analysis
    Sample.empty_world Sample.quiet Sample.settings (lit "src") (lit "out")
    state_init
  = (inr (SysExit 0), state_init)
  /\ code_analyzer.scan_directory Sample.empty_world Sample.settings (lit "src")
     = [].
Proof.
  split; [reflexivity |].
  destruct (@main_analysis_stops
              Sample.empty_world Sample.quiet Sample.settings
              (lit "src") (lit "out") state_init state_init (SysExit 0) eq_refl)
    as [(Hexit & _) | [(_ & _ & Hscan & _) | [Hexit | (s & line & what & Hout & _)]]];
    [discriminate | exact Hscan | discriminate | discriminate].
Defined.

(** ** The scripts with and without their log *)

Lemma bind_ext_r (A B : Type) (m : M A) (k k' : A -> M B) (st : state) :
  (forall a s, k a s = k' a s) -> bind m k st = bind m k' st.
Proof.
  intros Hk. unfold bind. destruct (m st) as [[a | e] st1]; [apply Hk |].
  reflexivity.
Qed.

Lemma bind_ext (A B : Type) (m m' : M A) (k k' : A -> M B) (st : state) :
  (forall s, m s = m' s) -> (forall a s, k a s = k' a s) ->
  bind m k st = bind m' k' st.
Proof.
  intros Hm Hk. unfold bind. rewrite Hm.
  destruct (m' st) as [[a | e] st1]; [apply Hk | reflexivity].
Qed.

Lemma bind_ret_r (A : Type) (m : M A) (st : state) : bind m ret st = m st.
Proof. unfold bind, ret. now destruct (m st) as [[a | e] st1]. Qed.

Section Quiet.
Variable E : env.
Variable T : console.
Variable CONFIG : config.
Hypothesis Hquiet : forall s line, stdout T s line = None.

Lemma quiet_print (A : Type) (line : str) (k : unit -> M A) (st : state) :
  bind (print T line) k st = k tt st.
Proof. unfold bind, print. now rewrite Hquiet. Qed.

Lemma quiet_print_last (line : str) (st : state) :
  print T line st = ret tt st.
Proof. unfold print. now rewrite Hquiet. Qed.

Lemma quiet_scan_directory (A : Type) (root_dir : str)
      (k : list str -> M A) (st : state) :
  bind (logged.documentation.scan_directory E T root_dir) k st
  = k (scan_directory E root_dir) st.
Proof.
  unfold logged.documentation.scan_directory, bind, print, ret.
  now rewrite !Hquiet.
Qed.

Lemma quiet_read_file_content (A : Type) (file_path : str)
      (k : option str -> M A) (st : state) :
  bind (logged.documentation.read_file_content E T file_path) k st
  = k (read_file_content E file_path) st.
Proof.
  unfold logged.documentation.read_file_content, read_file_content.
  destruct (open_read E utf_8 file_path) as [content | | msg];
    [reflexivity | | unfold bind, print, ret; now rewrite Hquiet].
  destruct (open_read E latin_1 file_path) as [content | | msg];
    [reflexivity | unfold bind, print, ret; now rewrite Hquiet ..].
Qed.

Lemma quiet_document_with_ollama
      (chunk_text file_name file_type part_info : str) (st : state) :
  logged.documentation.document_with_ollama
    E T CONFIG chunk_text file_name file_type part_info st
  = document_with_ollama E CONFIG chunk_text file_name file_type part_info st.
Proof.
  unfold logged.documentation.document_with_ollama, document_with_ollama.
  apply bind_ext_r. intros r s. unfold bind.
  now rewrite (@document_log_printed T CONFIG r s (Hquiet s)).
Qed.

Lemma quiet_call_ollama_api (prompt : str) (st : state) :
  logged.analyzer.call_ollama_api E T CONFIG prompt st
  = code_analyzer.call_ollama_api E CONFIG prompt st.
Proof.
  unfold logged.analyzer.call_ollama_api, code_analyzer.call_ollama_api.
  apply bind_ext_r. intros r s. unfold bind.
  now rewrite (@document_log_printed T CONFIG r s (Hquiet s)).
Qed.

Lemma quiet_save_markdown (output_path markdown_content : str) (st : state) :
  logged.documentation.save_markdown E T output_path markdown_content st
  = save_markdown E output_path markdown_content st.
Proof.
  unfold logged.documentation.save_markdown, save_markdown.
  apply bind_ext_r. intros _ s.
  unfold bind, current_state, write_file, try_print, print, ret.
  destruct (write_ok E s output_path markdown_content); now rewrite !Hquiet.
Qed.

Lemma quiet_save_analysis_report (output_path report_content : str)
      (st : state) :
  logged.analyzer.save_analysis_report E T output_path report_content st
  = code_analyzer.save_analysis_report E output_path report_content st.
Proof.
  unfold logged.analyzer.save_analysis_report,
    code_analyzer.save_analysis_report, save_markdown.
  apply bind_ext_r. intros _ s.
  unfold bind, current_state, write_file, try_print, print, ret.
  destruct (write_ok E s output_path report_content); now rewrite !Hquiet.
Qed.

Lemma quiet_generate_table_of_contents
      (documented_files_info : list (str * str)) (output_dir : str)
      (st : state) :
  logged.documentation.generate_table_of_contents
    E T documented_files_info output_dir st
  = generate_table_of_contents E documented_files_info output_dir st.
Proof.
  unfold logged.documentation.generate_table_of_contents,
    generate_table_of_contents.
  apply bind_ext; [apply quiet_save_markdown |].
  intros _ s. apply quiet_print_last.
Qed.

Lemma quiet_document_chunks (base_name file_type : str) (n : nat)
      (rest : list str) :
  forall (i : nat) (full_markdown_doc : str) (st : state),
    logged.documentation.document_chunks
      E T CONFIG base_name file_type n i rest full_markdown_doc st
    = document_chunks E CONFIG base_name file_type n i rest full_markdown_doc st.
Proof.
  induction rest as [| chunk rest IH]; intros i full_markdown_doc st;
    cbn [logged.documentation.document_chunks document_chunks];
    [reflexivity |].
  rewrite quiet_print.
  apply bind_ext; [apply quiet_document_with_ollama |].
  intros chunk_doc s. apply IH.
Qed.

Lemma quiet_document_content
      (content relative_path_of_code_file base_name file_type : str)
      (st : state) :
  logged.documentation.document_content
    E T CONFIG content relative_path_of_code_file base_name file_type st
  = document_content
      E CONFIG content relative_path_of_code_file base_name file_type st.
Proof.
  unfold logged.documentation.document_content, document_content.
  destruct (1 <? len (chunk_content content (CHUNK_SIZE_CHARACTERS CONFIG)));
    rewrite quiet_print.
  - apply quiet_document_chunks.
  - apply bind_ext; [apply quiet_document_with_ollama | reflexivity].
Qed.

Lemma quiet_document_file (SOURCE_CODE_DIR DOC_OUTPUT_DIR : str)
      (documented_files_info : list (str * str)) (file_path : str)
      (st : state) :
  logged.documentation.document_file
    E T CONFIG SOURCE_CODE_DIR DOC_OUTPUT_DIR documented_files_info file_path st
  = document_file
      E CONFIG SOURCE_CODE_DIR DOC_OUTPUT_DIR documented_files_info file_path st.
Proof.
  unfold logged.documentation.document_file, document_file.
  destruct (os_path_splitext E (os_path_basename E file_path)) as [stem ext].
  rewrite quiet_print, quiet_read_file_content.
  destruct (read_file_content E file_path) as [content |]; [| reflexivity].
  apply bind_ext; [apply quiet_document_content |].
  intros full_markdown_doc s.
  apply bind_ext; [apply quiet_save_markdown | reflexivity].
Qed.

Lemma quiet_document_files (SOURCE_CODE_DIR DOC_OUTPUT_DIR : str)
      (file_paths : list str) :
  forall (documented_files_info : list (str * str)) (st : state),
    logged.documentation.document_files
      E T CONFIG SOURCE_CODE_DIR DOC_OUTPUT_DIR file_paths
      documented_files_info st
    = document_files
        E CONFIG SOURCE_CODE_DIR DOC_OUTPUT_DIR file_paths
        documented_files_info st.
Proof.
  induction file_paths as [| file_path rest IH];
    intros documented_files_info st;
    cbn [logged.documentation.document_files document_files]; [reflexivity |].
  apply bind_ext; [apply quiet_document_file |].
  intros info s. apply IH.
Qed.

Lemma quiet_main_documentation (source_code_path doc_output_path : str)
      (st : state) :
  logged.documentation.main_documentation
    E T CONFIG source_code_path doc_output_path st
  = main_documentation E CONFIG source_code_path doc_output_path st.
Proof.
  unfold logged.documentation.main_documentation, main_documentation.
  destruct (os_path_isdir E source_code_path); cbn [negb];
    [| apply quiet_print].
  apply bind_ext_r. intros _ s.
  rewrite quiet_print, quiet_scan_directory.
  destruct (truthy (scan_directory E source_code_path)); cbn [negb];
    [| apply quiet_print].
  apply bind_ext; [apply quiet_document_files |].
  intros info s1. unfold bind at 1.
  rewrite quiet_generate_table_of_contents.
  destruct (generate_table_of_contents E info doc_output_path s1)
    as [[[] | e] s2]; [| reflexivity].
  rewrite quiet_print. apply quiet_print_last.
Qed.

Lemma quiet_scan_walk (entries : list (str * list str)) :
  forall (file_paths : list str) (st : state),
    logged.analyzer.scan_walk E T CONFIG entries file_paths st
    = (inl (file_paths
            ++ flat_map
                 (fun entry : str * list str =>
                    let (dirpath, filenames) := entry in
                    if code_analyzer.excluded CONFIG dirpath then []
                    else logged.analyzer.supported_in E dirpath filenames)
                 entries),
       st).
Proof.
  induction entries as [| [dirpath filenames] rest IH]; intros file_paths st;
    cbn [logged.analyzer.scan_walk flat_map].
  - now rewrite app_nil_r.
  - destruct (code_analyzer.excluded CONFIG dirpath).
    + rewrite quiet_print. apply IH.
    + rewrite app_assoc. apply IH.
Qed.

Lemma quiet_analyzer_scan_directory (A : Type) (root_dir : str)
      (k : list str -> M A) (st : state) :
  bind (logged.analyzer.scan_directory E T CONFIG root_dir) k st
  = k (code_analyzer.scan_directory E CONFIG root_dir) st.
Proof.
  unfold logged.analyzer.scan_directory.
  unfold bind at 1. rewrite quiet_print. unfold bind at 1.
  rewrite quiet_scan_walk. rewrite quiet_print. reflexivity.
Qed.

Lemma quiet_read_all (SOURCE_CODE_DIR : str) (file_paths : list str) :
  forall (all_file_contents : dict) (st : state),
    logged.analyzer.read_all
      E T SOURCE_CODE_DIR file_paths all_file_contents st
    = (inl (fold_left
              (fun all_file_contents file_path =>
                 let relative_path :=
                   os_path_relpath E file_path SOURCE_CODE_DIR in
                 match code_analyzer.read_file_content E file_path with
                 | Some content =>
                     dict_set all_file_contents relative_path content
                 | None => all_file_contents
                 end)
              file_paths all_file_contents),
       st).
Proof.
  induction file_paths as [| file_path rest IH]; intros all_file_contents st;
    cbn [logged.analyzer.read_all fold_left]; [reflexivity |].
  unfold logged.analyzer.read_file_content. rewrite quiet_read_file_content.
  unfold code_analyzer.read_file_content.
  destruct (read_file_content E file_path) as [content |].
  - apply IH.
  - rewrite quiet_print. apply IH.
Qed.

Lemma quiet_analyze_chunks (base_name file_type : str) (n : nat)
      (rest : list str) :
  forall (i : nat) (full_analysis_report : str) (st : state),
    logged.analyzer.analyze_chunks
      E T CONFIG base_name file_type n i rest full_analysis_report st
    = code_analyzer.analyze_chunks
        E CONFIG base_name file_type n i rest full_analysis_report st.
Proof.
  induction rest as [| chunk rest IH]; intros i full_analysis_report st;
    cbn [logged.analyzer.analyze_chunks code_analyzer.analyze_chunks];
    [reflexivity |].
  rewrite quiet_print.
  apply bind_ext; [intros s; apply quiet_call_ollama_api |].
  intros chunk_analysis s. apply IH.
Qed.

Lemma quiet_analyze_content
      (content relative_path base_name file_type : str) (st : state) :
  logged.analyzer.analyze_content
    E T CONFIG content relative_path base_name file_type st
  = code_analyzer.analyze_content
      E CONFIG content relative_path base_name file_type st.
Proof.
  unfold logged.analyzer.analyze_content, code_analyzer.analyze_content.
  destruct (1 <? len (code_analyzer.chunk_content
                        content (CHUNK_SIZE_CHARACTERS CONFIG)));
    rewrite quiet_print.
  - apply quiet_analyze_chunks.
  - apply bind_ext; [intros s; apply quiet_call_ollama_api | reflexivity].
Qed.

Lemma quiet_analyze_file (DOC_OUTPUT_DIR : str)
      (analyzed_files_info : list (str * str)) (item : str * str)
      (st : state) :
  logged.analyzer.analyze_file
    E T CONFIG DOC_OUTPUT_DIR analyzed_files_info item st
  = code_analyzer.analyze_file
      E CONFIG DOC_OUTPUT_DIR analyzed_files_info item st.
Proof.
  unfold logged.analyzer.analyze_file, code_analyzer.analyze_file.
  destruct item as [relative_path content].
  destruct (os_path_splitext E (os_path_basename E relative_path))
    as [stem ext].
  rewrite quiet_print.
  apply bind_ext; [apply quiet_analyze_content |].
  intros full_analysis_report s.
  apply bind_ext; [apply quiet_save_analysis_report | reflexivity].
Qed.

Lemma quiet_analyze_files (DOC_OUTPUT_DIR : str) (items : list (str * str)) :
  forall (analyzed_files_info : list (str * str)) (st : state),
    logged.analyzer.analyze_files
      E T CONFIG DOC_OUTPUT_DIR items analyzed_files_info st
    = code_analyzer.analyze_files
        E CONFIG DOC_OUTPUT_DIR items analyzed_files_info st.
Proof.
  induction items as [| item rest IH]; intros analyzed_files_info st;
    cbn [logged.analyzer.analyze_files code_analyzer.analyze_files];
    [reflexivity |].
  apply bind_ext; [apply quiet_analyze_file |].
  intros info s. apply IH.
Qed.

Lemma quiet_generate_overall_summary
      (all_file_contents : dict) (analyzed_files_info : list (str * str))
      (root_dir output_dir : str) (st : state) :
  logged.analyzer.generate_overall_summary
    E T CONFIG all_file_contents analyzed_files_info root_dir output_dir st
  = code_analyzer.generate_overall_summary
      E CONFIG all_file_contents analyzed_files_info root_dir output_dir st.
Proof.
  unfold logged.analyzer.generate_overall_summary,
    code_analyzer.generate_overall_summary.
  destruct (truthy analyzed_files_info); cbn [negb].
  - rewrite quiet_print.
    apply bind_ext; [intros s; apply quiet_call_ollama_api |].
    intros overall_analysis s.
    apply bind_ext; [apply quiet_save_analysis_report |].
    intros _ s1. apply quiet_print_last.
  - apply bind_ext; [apply quiet_save_analysis_report | reflexivity].
Qed.

Lemma quiet_main_analysis (source_code_path doc_output_path : str)
      (st : state) :
  logged.analyzer.main_analysis E T CONFIG source_code_path doc_output_path st
  = code_analyzer.main_analysis E CONFIG source_code_path doc_output_path st.
Proof.
  unfold logged.analyzer.main_analysis, code_analyzer.main_analysis.
  destruct (os_path_isdir E source_code_path); cbn [negb];
    [| apply quiet_print].
  apply bind_ext_r. intros _ s.
  rewrite quiet_print, quiet_analyzer_scan_directory.
  destruct (truthy (code_analyzer.scan_directory E CONFIG source_code_path));
    cbn [negb]; [| apply quiet_print].
  rewrite quiet_print. unfold bind at 1. rewrite quiet_read_all.
  rewrite quiet_print.
  apply bind_ext; [apply quiet_analyze_files |].
  intros info s1. rewrite quiet_print. unfold bind at 1.
  rewrite quiet_generate_overall_summary.
  unfold code_analyzer.read_all.
  match goal with
  | |- context [code_analyzer.generate_overall_summary E CONFIG ?all info
                  source_code_path doc_output_path s1] =>
      destruct (code_analyzer.generate_overall_summary
                  E CONFIG all info source_code_path doc_output_path s1)
        as [[[] | e] s2]; [| reflexivity]
  end.
  rewrite quiet_print. apply quiet_print_last.
Qed.

End Quiet.

(** X18.  The log changes nothing else: on a console that prints every
    line, a run of [main_documentation] or of [main_analysis] with
    everything it prints ends as the run of the same script without its
    [print]s does, with the same result, the same requests posted and the
    same files written. *)
Theorem log_is_transparent
        (E : env) (T : console) (CONFIG : config)
        (source_code_path doc_output_path : str) (st : state) :
  (forall s line, stdout T s line = None) ->
  logged.documentation.main_documentation
    E T CONFIG source_code_path doc_output_path st
  = main_documentation E CONFIG source_code_path doc_output_path st
  /\ logged.analyzer.main_analysis
       E T CONFIG source_code_path doc_output_path st
     = code_analyzer.main_analysis
         E CONFIG source_code_path doc_output_path st.
Proof.
  intros Hquiet. split.
  - now apply quiet_main_documentation.
  - now apply quiet_main_analysis.
Qed.

Lemma log_is_transparent_witness :
  exists st' : state,
    logged.documentation.main_documentation
      Sample.world Sample.quiet Sample.settings (lit "src") (lit "out")
      state_init
    = (inl tt, st')
    /\ length (sent st') = 3%nat
    /\ length (written st') = 3%nat.
Proof.
  destruct (@log_is_transparent
              Sample.world Sample.quiet Sample.settings (lit "src") (lit "out")
              state_init (fun _ _ => eq_refl)) as (Hdoc & _).
  rewrite Hdoc. eexists. split; [vm_compute; reflexivity |].
  split; reflexivity.
Defined.

(** ** Scanned files have a language *)

Section ScannedType.

Lemma dict_lookup_value (d : dict) (k v : str) :
  dict_lookup d k = Some v -> In v (map snd d).
Proof.
  induction d as [| [k' v'] d IH]; cbn [dict_lookup]; [discriminate |].
  destruct (str_eqb k' k).
  - intros Heq. injection Heq as ->. now left.
  - intros Hd. right. now apply IH.
Qed.

End ScannedType.

(** X17.  An extension that the scan accepts is never reported as
    'unknown': whenever the lower-cased extension is in
    [SUPPORTED_EXTENSIONS], [get_file_type] returns its language tag, and
    no tag of the mapping is 'unknown'. *)
Theorem scanned_extension_known (ext : str) :
  dict_mem SUPPORTED_EXTENSIONS (lower ext) = true ->
  get_file_type ext <> lit "unknown"
  /\ In (get_file_type ext) (map snd SUPPORTED_EXTENSIONS).
Proof.
  unfold dict_mem, get_file_type, dict_get.
  destruct (dict_lookup SUPPORTED_EXTENSIONS (lower ext)) as [tag |] eqn:Hlook;
    [| discriminate].
  intros _. apply dict_lookup_value in Hlook. split; [| exact Hlook].
  cbn in Hlook.
  repeat (destruct Hlook as [<- | Hlook]; [discriminate |]).
  destruct Hlook.
Qed.

Lemma scanned_extension_known_witness :
  dict_mem SUPPORTED_EXTENSIONS (lower (lit ".YML")) = true
  /\ get_file_type (lit ".YML") <> lit "unknown".
Proof.
  split; [reflexivity |].
  apply (@scanned_extension_known (lit ".YML")). reflexivity.
Defined.
